(** * Activity patterns and timeline trends: the analyses of
      [src/data/pattern_analyzer.py] and [src/models/timeline_builder.py]

    The analyses read a pandas [DataFrame] of classified activity events and
    compute daily-routine statistics, volume anomalies ("life events"),
    multi-day travel periods and weekly trends; the timeline builder also
    gives the daily timeline, the gaps of a day, the major events and the
    distribution of the activities.

    Conventions of the embedding.
    - A calendar date is its proleptic ordinal ([date.toordinal()], day 1 is
      Monday 0001-01-01); a timestamp is a date and an hour of the day, the
      only two parts the analyses read.  Missing timestamps (NaT) are not part
      of the model.
    - Counts are integers; means, variances and slopes are exact rationals.
      A standard deviation is the square root of a rational: it is kept as a
      [magnitude], a non-negative real number represented by its square, and
      comparing, scaling, dividing and taking the minimum of magnitudes are
      all exact.  [Magnitude.to_R] gives the real number denoted.
    - The program computes these numbers in double precision: a float of the
      program is the exact value of the model up to rounding.  A statement
      that compares such a number with a threshold, or that gives its value,
      is made for the number up to rounding ([rounding_margin],
      [within_rounding]), and leaves open what the rounding decides.
    - NaN is [None].
    - A Python dict with string keys is a [gmap string _]; a pandas Series is
      the list of its (label, value) pairs in index order.
    - A method that receives the caller's frame runs in the monad [M]: the
      state is the caller's frame object, a raise ends the run. *)

From Stdlib Require Import ZArith QArith Qabs Lia Lra Lqa.
From Stdlib Require Import Reals Qreals Sorted Permutation.
From stdpp Require Import base option list gmap strings pretty.

Open Scope Z_scope.

(* ===================================================================== *)
(** * Numbers *)

Module Magnitude.

(** [Root q] denotes the non-negative real number whose square is [q]. *)
Record magnitude := Root { square : Q }.

(** [abs(x)] for a rational [x] *)
Definition mabs (x : Q) : magnitude := Root (x * x).

(** a non-negative rational constant as a magnitude *)
Definition mconst (x : Q) : magnitude := Root (x * x).

(** [k * m] for a non-negative rational [k] *)
Definition mscale (k : Q) (m : magnitude) : magnitude :=
  Root (k * k * square m).

(** [a > b] *)
Definition mgt (a b : magnitude) : bool :=
  negb (Qle_bool (square a) (square b)).

Definition mis_zero (m : magnitude) : bool := Qeq_bool (square m) 0.

(** [a / b], for [b] non-zero *)
Definition mquot (a b : magnitude) : magnitude :=
  Root (square a / square b).

(** [min(a, b)]: Python's [min] keeps its first argument unless the
    second is strictly smaller *)
Definition mmin (a b : magnitude) : magnitude :=
  if mgt a b then b else a.

Definition to_R (m : magnitude) : R := sqrt (Q2R (square m)).

End Magnitude.
Export Magnitude.

(* ===================================================================== *)
(** * Raising and the caller's frame *)

Inductive exn :=
  | KeyError           (* data[name] for a label that is not a column *)
  | NotASeries         (* data[name] for a duplicated label is a sub-frame *)
  | AttributeError     (* .dt on a column that holds no timestamps *)
  | ValueError         (* pd.to_datetime could not convert the column *)
  | IndexError
  | ZeroDivisionError
  | NotModelled.       (* the run leaves the frames this development follows *)

Inductive outcome (A : Type) :=
  | Ok (a : A)
  | Raise (e : exn).
Arguments Ok {A} a.
Arguments Raise {A} e.

#[global] Instance outcome_ret : MRet outcome := fun _ a => Ok a.
#[global] Instance outcome_bind : MBind outcome := fun _ _ f m =>
  match m with
  | Ok a => f a
  | Raise e => Raise e
  end.
#[global] Instance outcome_fmap : FMap outcome := fun _ _ f m =>
  match m with
  | Ok a => Ok (f a)
  | Raise e => Raise e
  end.

(* ===================================================================== *)
(** * Data model *)

Record datetime := Datetime { date : Z; hour : Z }.

(** [Period('W')] of a date: weeks run Monday to Sunday *)
Definition to_period_W (d : Z) : Z := (d - 1) / 7.

(** A column of a frame, by the kind of value it holds. *)
Inductive column :=
  | Timestamps (l : list datetime)    (* datetime64 *)
  | Dates (l : list Z)                (* datetime.date objects *)
  | Weeks (l : list Z)                (* Period[W] *)
  | Ints (l : list Z)
  | Texts (l : list string).

(** A frame: the length of its index and its labelled columns, in order;
    a label may occur more than once. *)
Record DataFrame := Frame {
  index : nat;
  columns : list (string * column)
}.

(** [data.empty]: one of the two axes has length 0 *)
Definition empty (data : DataFrame) : bool :=
  match index data, columns data with
  | O, _ => true
  | _, [] => true
  | _, _ => false
  end.

(** [len(data)] *)
Definition len (data : DataFrame) : Z := Z.of_nat (index data).

(** [name in data.columns] *)
Definition has_column (name : string) (data : DataFrame) : bool :=
  existsb (fun c => String.eqb name (fst c)) (columns data).

(** [data[name]] *)
Definition getitem (name : string) (data : DataFrame) : outcome column :=
  match filter (fun c => fst c = name) (columns data) with
  | [] => Raise KeyError
  | [c] => Ok (snd c)
  | _ => Raise NotASeries
  end.

(** [data[name] = col] on a frame: every column of that label is replaced,
    a new label is appended *)
Definition assign (name : string) (col : column) (data : DataFrame) : DataFrame :=
  if has_column name data
  then Frame (index data)
         ((fun c => if String.eqb name (fst c) then (name, col) else c) <$> (columns data))
  else Frame (index data) (columns data ++ [(name, col)]).

(** [data.loc[:, ~data.columns.duplicated()]]: the first column of every
    label *)
Fixpoint first_occurrences (seen : list string) (cols : list (string * column))
  : list (string * column) :=
  match cols with
  | [] => []
  | c :: rest =>
      if existsb (String.eqb (fst c)) seen
      then first_occurrences seen rest
      else c :: first_occurrences (fst c :: seen) rest
  end.

Definition drop_duplicated_columns (data : DataFrame) : DataFrame :=
  Frame (index data) (first_occurrences [] (columns data)).

(** The state monad of a method working on the caller's frame. *)
Definition M (A : Type) : Type := DataFrame -> outcome (A * DataFrame).

#[global] Instance M_ret : MRet M := fun _ a data => Ok (a, data).
#[global] Instance M_bind : MBind M := fun _ _ f m data =>
  match m data with
  | Ok (a, data') => f a data'
  | Raise e => Raise e
  end.

(** the frame the parameter [data] refers to *)
Definition the_frame : M DataFrame := fun data => Ok (data, data).
(** [data[name] = col] *)
Definition setitem (name : string) (col : column) : M unit :=
  fun data => Ok (tt, assign name col data).
(** a computation that does not touch the frame *)
Definition lift {A} (o : outcome A) : M A := fun data =>
  match o with
  | Ok a => Ok (a, data)
  | Raise e => Raise e
  end.

(* ===================================================================== *)
(** * Series *)

(** A Series: its (label, value) pairs in index order. *)
Abbreviation series A := (list (Z * A)%type).

(** [s.get(label, default)] *)
Fixpoint series_get {A} (label : Z) (default : A) (s : series A) : A :=
  match s with
  | [] => default
  | (k, v) :: s' => if k =? label then v else series_get label default s'
  end.

(** One row more for a [groupby]: the group of key [k] takes [v] in with
    [f], a new group is opened in key order. *)
Fixpoint upsert (f : Z -> Z -> Z) (k v : Z) (s : series Z) : series Z :=
  match s with
  | [] => [(k, v)]
  | (k', v') :: s' =>
      if k <? k' then (k, v) :: s
      else if k =? k' then (k', f v' v) :: s'
      else (k', v') :: upsert f k v s'
  end.

(** [groupby(key)[value].agg(f)]: the groups come out in ascending key order *)
Definition groupby (f : Z -> Z -> Z) (rows : list (Z * Z)) : series Z :=
  foldl (fun s row => upsert f (fst row) (snd row) s) [] rows.

(** [groupby(key).size()] *)
Definition groupby_size (keys : list Z) : series Z :=
  groupby Z.add ((fun k => (k, 1)) <$> keys).

Definition sumZ (l : list Z) : Z := foldr Z.add 0 l.
Definition sumQ (l : list Q) : Q := foldr Qplus 0%Q l.

(** [s.mean()]; NaN on an empty series *)
Definition mean (l : list Z) : option Q :=
  match l with
  | [] => None
  | _ => Some (inject_Z (sumZ l) / inject_Z (Z.of_nat (length l)))%Q
  end.

(** The variance with [ddof] delta degrees of freedom: the squared
    deviations from the mean, summed and divided by [n - ddof]; NaN when
    [n <= ddof]. *)
Definition var (ddof : nat) (l : list Z) : option Q :=
  if (length l <=? ddof)%nat then None
  else
    match mean l with
    | None => None
    | Some avg =>
        Some (sumQ ((fun x => (inject_Z x - avg) * (inject_Z x - avg)) <$> l)
              / inject_Z (Z.of_nat (length l - ddof)))%Q
    end.

(** How often [x] occurs in [l]. *)
Definition occurrences (x : Z) (l : list Z) : nat :=
  length (filter (fun y => y = x) l).

(** [s.std(ddof)]; pandas' default is [ddof = 1], the sample standard
    deviation *)
Definition std_ddof (ddof : nat) (l : list Z) : option magnitude :=
  Root <$> var ddof l.

Definition std (l : list Z) : option magnitude := std_ddof 1 l.

(** The values a centred window of width [window] sees at position [i]:
    positions [i - (window-1)/2] to [i + window/2], those that exist. *)
Definition window_at (window : nat) (l : list Z) (i : nat) : list Z :=
  let before := ((window - 1) / 2)%nat in
  take (i + window - before - (i - before))%nat (drop (i - before)%nat l).

(** The mean over the window at position [i]; NaN where the window holds
    fewer than [min_periods] values. *)
Definition window_mean (window min_periods : nat) (values : list Z) (i : nat)
  : option Q :=
  let w := window_at window values i in
  if (min_periods <=? length w)%nat then mean w else None.

(** [s.rolling(window, min_periods, center=True).mean()] *)
Definition rolling_mean (window min_periods : nat) (s : series Z)
  : series (option Q) :=
  imap (fun i row => (fst row, window_mean window min_periods (snd <$> s) i)) s.

(** [s.rolling(window=7, center=True).mean()]: [min_periods] is left out,
    so it is the window size *)
Definition rolling_avg_7 (s : series Z) : series (option Q) :=
  rolling_mean 7 7 s.

(** [s.mode()]: the values that occur most often, in ascending order *)
Definition mode (values : list Z) : list Z :=
  let counts := groupby_size values in
  let top := foldr Z.max 0 (snd <$> counts) in
  fst <$> (filter (fun p => snd p = top) counts).

(** [s.iloc[0]] *)
Definition iloc0 (l : list Z) : outcome Z :=
  match l with
  | [] => Raise IndexError
  | x :: _ => Ok x
  end.

(** A stable sort: [x] goes in front of the first element it is strictly
    before. *)
Fixpoint insort {A} (before : A -> A -> bool) (x : A) (l : list A) : list A :=
  match l with
  | [] => [x]
  | y :: l' => if before x y then x :: l else y :: insort before x l'
  end.

Definition sorted_by {A} (before : A -> A -> bool) (l : list A) : list A :=
  foldl (fun acc x => insort before x acc) [] l.

(** [s.nlargest(n).index.tolist()], [s.nsmallest(n).index.tolist()]: ties
    keep the order of the series *)
Definition nlargest (n : nat) (s : series Z) : list Z :=
  fst <$> (take n (sorted_by (fun a b => snd b <? snd a) s)).
Definition nsmallest (n : nat) (s : series Z) : list Z :=
  fst <$> (take n (sorted_by (fun a b => snd a <? snd b) s)).

(** [s.unique()]: the values in order of first appearance *)
Fixpoint unique `{EqDecision A} (l : list A) : list A :=
  match l with
  | [] => []
  | x :: l' => x :: filter (fun y => y ≠ x) (unique l')
  end.

(** [sorted(dates)] *)
Definition sorted (l : list Z) : list Z := sorted_by Z.ltb l.

(* ===================================================================== *)
(** * Results *)

(** [{'average': ..., 'std': ..., 'most_common': ...}] *)
Record routine_stats := Stats {
  average : option Q;
  std_dev : option magnitude;
  most_common : option Z
}.

(** The values of the dict [analyze_daily_routine] returns. *)
Inductive pattern_value :=
  | PStats (s : routine_stats)
  | PCounts (d : series Z)
  | PHours (l : list Z).

Inductive event_type := high_activity | low_activity.

(** The dicts [detect_life_events] returns: the volume anomalies and the
    travel periods (whose type is ['travel_period'] and whose confidence is
    the constant 0.8). *)
Inductive life_event :=
  | Anomaly (day : Z) (type : event_type) (confidence : magnitude)
            (activity_count : Z) (expected_count : Q)
  | TravelPeriod (day : Z) (duration_days : nat).

(** [x['date']] *)
Definition event_date (e : life_event) : Z :=
  match e with
  | Anomaly d _ _ _ _ => d
  | TravelPeriod d _ => d
  end.

Definition event_confidence (e : life_event) : magnitude :=
  match e with
  | Anomaly _ _ c _ _ => c
  | TravelPeriod _ _ => mconst (8 # 10)
  end.

Definition is_anomaly (e : life_event) : bool :=
  match e with
  | Anomaly _ _ _ _ _ => true
  | TravelPeriod _ _ => false
  end.

(** The values of the dict [_analyze_activity_trends] returns. *)
Inductive trend_value :=
  | Slope (q : Q)
  | Direction (s : string)
  | ActivityTrends (m : gmap string Q)
  | HourlyDistribution (d : series Z).

(* ===================================================================== *)
(** * The analyses *)

Section Analyses.

(** What [pd.to_datetime] makes of a column that does not hold timestamps
    already; [None] when it raises. *)
Variable parse_column : column -> option (list datetime).

(** [pd.to_datetime(col)] *)
Definition to_datetime (col : column) : outcome (list datetime) :=
  match col with
  | Timestamps l => Ok l
  | _ => match parse_column col with
         | Some l => Ok l
         | None => Raise ValueError
         end
  end.

(** [col.dt]: only a column of timestamps or of periods has the accessor,
    and only timestamps have [.dt.date] and [.dt.to_period] *)
Definition dt (col : column) : outcome (list datetime) :=
  match col with
  | Timestamps l => Ok l
  | _ => Raise AttributeError
  end.

(** [col == label] *)
Definition eq_mask (col : column) (label : string) : list bool :=
  match col with
  | Texts l => (String.eqb label) <$> l
  | Timestamps l => (fun _ => false) <$> l
  | Dates l | Weeks l | Ints l => (fun _ => false) <$> l
  end.

(** the rows of a column that a boolean mask keeps *)
Definition masked {A} (mask : list bool) (l : list A) : list A :=
  snd <$> (filter (fun r => fst r = true) (zip mask l)).

(** ** [PatternAnalyzer.analyze_daily_routine] *)

(** [data.groupby('date')['hour'].min()], and the same with [max] *)
Definition hour_per_date (agg : Z -> Z -> Z) (ts : list datetime) : series Z :=
  groupby agg ((fun t => (date t, hour t)) <$> ts).

(** the three statistics of the wake-up or of the sleep series *)
Definition wake_or_sleep (per_day : series Z) : outcome routine_stats :=
  let values := snd <$> per_day in
  mc ← match values with
       | [] => Ok None
       | _ => Some <$> iloc0 (mode values)
       end;
  Ok (Stats (mean values) (std values) mc).

Definition analyze_daily_routine : M (gmap string pattern_value) :=
  data ← the_frame;
  if empty data || negb (has_column "datetime" data) then mret ∅
  else
    (* data = data.copy(): from here on [data] is the method's own frame *)
    let data := drop_duplicated_columns data in
    lift (
      col ← getitem "datetime" data;
      ts ← to_datetime col;
      let hours := hour <$> ts in            (* data['hour'] *)
      let daily_first_activity := hour_per_date Z.min ts in
      wake ← wake_or_sleep daily_first_activity;
      let daily_last_activity := hour_per_date Z.max ts in
      sleep ← wake_or_sleep daily_last_activity;
      let hourly_activity := groupby_size hours in
      Ok (<["quiet_hours" := PHours (nsmallest 3 hourly_activity)]>
          (<["peak_hours" := PHours (nlargest 3 hourly_activity)]>
          (<["hourly_activity" := PCounts hourly_activity]>
          (<["sleep_time" := PStats sleep]>
          (<["wake_up_time" := PStats wake]> ∅)))))).

(** ** [PatternAnalyzer._detect_travel_patterns] *)

(** One turn of the loop over the sorted dates; the state is
    [(travel_periods, current_period)]. *)
Definition travel_step (st : list (list Z) * list Z) (d : Z)
  : list (list Z) * list Z :=
  let '(travel_periods, current_period) := st in
  match last current_period with
  | None => (travel_periods, current_period ++ [d])
  | Some prev =>
      if d - prev <=? 1 then (travel_periods, current_period ++ [d])
      else ((if (1 <=? length current_period)%nat
             then travel_periods ++ [current_period]
             else travel_periods),
            [d])
  end.

Definition travel_periods (dates : list Z) : list (list Z) :=
  let '(periods, current_period) := foldl travel_step ([], []) dates in
  match current_period with
  | [] => periods
  | _ => periods ++ [current_period]
  end.

(** the events for the multi-day periods *)
Definition travel_events (periods : list (list Z)) : list life_event :=
  omap (fun period =>
          match period with
          | first :: _ =>
              if (2 <=? length period)%nat
              then Some (TravelPeriod first (length period))
              else None
          | [] => None
          end) periods.

(** the sorted distinct dates of the rows labelled 'Travel' *)
Definition travel_dates (activity : column) (ts : list datetime) : list Z :=
  let travel_data := masked (eq_mask activity "Travel") ts in
  let travel_data := sorted_by (fun a b =>
                       (date a <? date b)
                       || ((date a =? date b) && (hour a <? hour b)))
                       travel_data in
  sorted (unique (date <$> travel_data)).

(** [self._detect_travel_patterns(data)], for a frame whose 'datetime'
    column is [ts] *)
Definition _detect_travel_patterns (data : DataFrame) (ts : list datetime)
  : outcome (list life_event) :=
  activity ← getitem "predicted_activity" data;
  match masked (eq_mask activity "Travel") ts with
  | [] => Ok []
  | _ => Ok (travel_events (travel_periods (travel_dates activity ts)))
  end.

(** ** [PatternAnalyzer.detect_life_events] *)

(** [a / b] on floats.  A zero divisor is a fault of the run (numpy would
    warn and return [inf]), so that a run that does not raise
    [ZeroDivisionError] has divided by no zero. *)
Definition divide (a b : magnitude) : outcome magnitude :=
  if mis_zero b then Raise ZeroDivisionError else Ok (mquot a b).

(** [abs(count - expected) > 2 * daily_counts.std()], in exact arithmetic:
    the program compares the floats, and can decide otherwise where the two
    sides are equal up to rounding *)
Definition deviates (count : Z) (expected : Q) (sd : magnitude) : bool :=
  mgt (mabs (inject_Z count - expected)) (mscale 2 sd).

(** [min(abs(count - expected) / daily_counts.std() / 3, 1.0)] *)
Definition anomaly_confidence (count : Z) (expected : Q) (sd : magnitude)
  : outcome magnitude :=
  severity ← divide (mabs (inject_Z count - expected)) sd;
  Ok (mmin (mscale (1 # 3) severity) (mconst 1)).

(** ["high_activity" if count > expected else "low_activity"] *)
Definition anomaly_type (count : Z) (expected : Q) : event_type :=
  if Qle_bool (inject_Z count) expected then low_activity else high_activity.

(** The loop over [daily_counts.items()]; [sd] is [daily_counts.std()]. *)
Fixpoint volume_loop (rolling_avg : series (option Q)) (sd : option magnitude)
                     (items : series Z) : outcome (list life_event) :=
  match items with
  | [] => Ok []
  | (day, count) :: rest =>
      let expected := series_get day (Some (inject_Z count)) rolling_avg in
      event ← match expected, sd with
              | Some e, Some s =>
                  (* pd.notna(expected), and the deviation is not NaN: a
                     comparison with NaN is false *)
                  if deviates count e s then
                    c ← anomaly_confidence count e s;
                    Ok [Anomaly day (anomaly_type count e) c count e]
                  else Ok []
              | _, _ => Ok []
              end;
      events ← volume_loop rolling_avg sd rest;
      Ok (event ++ events)
  end.

Definition volume_anomalies (daily_counts : series Z) : outcome (list life_event) :=
  volume_loop (rolling_avg_7 daily_counts) (std (snd <$> daily_counts))
              daily_counts.

Definition detect_life_events : M (list life_event) :=
  data ← the_frame;
  if empty data || (len data <? 10) then mret []
  else
    (if negb (has_column "datetime" data) && has_column "timestamp" data
     then
       col ← lift (getitem "timestamp" data);
       ts ← lift (to_datetime col);
       setitem "datetime" (Timestamps ts)
     else mret tt);;
    data ← the_frame;
    col ← lift (getitem "datetime" data);
    ts ← lift (dt col);
    let dates := date <$> ts in
    setitem "date" (Dates dates);;
    data ← the_frame;
    (* groupby('date') wants one column of that label: the one just set *)
    _ ← lift (getitem "date" data);
    let daily_counts := groupby_size dates in
    events ← lift (volume_anomalies daily_counts);
    travel ← (if has_column "predicted_activity" data
              then lift (_detect_travel_patterns data ts)
              else mret []);
    mret (sorted_by (fun a b => event_date a <? event_date b)
                    (events ++ travel)).

(** ** [TimelineBuilder._calculate_trend] *)

(** [np.polyfit(np.arange(n), values, 1)[0]]: the slope of the least
    squares line through the points [(i, values[i])], in exact arithmetic
    ([np.polyfit] gives it up to rounding) *)
Definition polyfit_slope (values : list Z) : Q :=
  let n := inject_Z (Z.of_nat (length values)) in
  let x := Z.of_nat <$> (seq 0 (length values)) in
  let sx := inject_Z (sumZ x) in
  let sy := inject_Z (sumZ values) in
  let sxx := inject_Z (sumZ ((fun i => i * i) <$> x)) in
  let sxy := inject_Z (sumZ (zip_with Z.mul x values)) in
  ((n * sxy - sx * sy) / (n * sxx - sx * sx))%Q.

Definition _calculate_trend (values : list Z) : Q :=
  if (length values <? 2)%nat then 0%Q else polyfit_slope values.

(** ** [TimelineBuilder._analyze_activity_trends] *)

Definition trend_direction (overall_trend : Q) : string :=
  if negb (Qle_bool overall_trend 0) then "increasing"
  else if negb (Qle_bool 0 overall_trend) then "decreasing"
  else "stable".

(** the labels of the 'predicted_activity' column *)
Definition labels (col : column) : outcome (list string) :=
  match col with
  | Texts l => Ok l
  | _ => Raise NotModelled
  end.

(** [data[data['predicted_activity'] == activity].groupby('week').size()] *)
Definition activity_weekly_of (activity_col : column) (weeks : list Z)
    (activity : string) : series Z :=
  groupby_size (masked (eq_mask activity_col activity) weeks).

(** One turn of the loop over the distinct activities. *)
Definition activity_step (activity_col : column) (weeks : list Z)
    (activity_trends : gmap string Q) (activity : string) : gmap string Q :=
  let activity_weekly := activity_weekly_of activity_col weeks activity in
  if (2 <? length activity_weekly)%nat
  then <[activity := _calculate_trend (snd <$> activity_weekly)]> activity_trends
  else activity_trends.

(** [data['datetime'].dt.to_period('W')] *)
Definition week_column (ts : list datetime) : list Z :=
  (fun t => to_period_W (date t)) <$> ts.

(** [data.groupby('week').size()] *)
Definition weekly_counts_of (ts : list datetime) : series Z :=
  groupby_size (week_column ts).

(** The dict [trends] after the part on the overall trend. *)
Definition overall_trends (weekly_counts : series Z) : gmap string trend_value :=
  if (2 <? length weekly_counts)%nat
  then
    let overall_trend := _calculate_trend (snd <$> weekly_counts) in
    <["trend_direction" := Direction (trend_direction overall_trend)]>
      (<["overall_trend" := Slope overall_trend]> ∅)
  else ∅.

Definition _analyze_activity_trends : M (gmap string trend_value) :=
  data ← the_frame;
  if empty data then mret ∅
  else
    col ← lift (getitem "datetime" data);
    ts ← lift (dt col);
    setitem "week" (Weeks (week_column ts));;
    data ← the_frame;
    (* groupby('week') wants one column of that label: the one just set *)
    _ ← lift (getitem "week" data);
    let weekly_counts := weekly_counts_of ts in
    let trends := overall_trends weekly_counts in
    activity_col ← lift (getitem "predicted_activity" data);
    activities ← lift (labels activity_col);
    let activity_trends :=
      foldl (activity_step activity_col (week_column ts)) ∅ (unique activities) in
    let trends :=
      <["activity_specific_trends" := ActivityTrends activity_trends]> trends in
    col ← lift (getitem "datetime" data);
    ts' ← lift (dt col);
    let hourly_trends := groupby_size (hour <$> ts') in
    mret (<["hourly_distribution" := HourlyDistribution hourly_trends]> trends).

End Analyses.

(* ===================================================================== *)
(** * Vocabulary of the statements *)

(** The timestamps [detect_life_events] works on: the 'datetime' column, or,
    when the frame has none, the 'timestamp' column converted. *)
Definition event_times (parse_column : column -> option (list datetime))
    (data : DataFrame) : outcome (list datetime) :=
  if negb (has_column "datetime" data) && has_column "timestamp" data
  then col ← getitem "timestamp" data; to_datetime parse_column col
  else col ← getitem "datetime" data; dt col.

(** The value a series holds at a label, if the label is in its index. *)
Fixpoint series_find {A} (label : Z) (s : series A) : option A :=
  match s with
  | [] => None
  | (k, v) :: s' => if k =? label then Some v else series_find label s'
  end.

(** The labels of a series are in strictly ascending order. *)
Definition ascending {A} (s : series A) : Prop :=
  StronglySorted Z.lt (fst <$> s).

(** [mc] is the smallest of the values that occur most often in [values]. *)
Definition smallest_mode (mc : option Z) (values : list Z) : Prop :=
  exists v, mc = Some v /\ v ∈ values
    /\ (forall y, (occurrences y values <= occurrences v values)%nat)
    /\ (forall y, y ∈ values -> occurrences y values = occurrences v values -> v <= y).

(** The guard of [analyze_daily_routine]. *)
Definition routine_guard (data : DataFrame) : bool :=
  empty data || negb (has_column "datetime" data).

(** The guard of [detect_life_events]. *)
Definition events_guard (data : DataFrame) : bool :=
  empty data || (len data <? 10).

(** The frame [detect_life_events] leaves once it has set the 'datetime'
    column, if there was none, and the 'date' column. *)
Definition with_dates (data : DataFrame) (ts : list datetime) : DataFrame :=
  assign "date" (Dates (date <$> ts))
    (if negb (has_column "datetime" data) && has_column "timestamp" data
     then assign "datetime" (Timestamps ts) data
     else data).

(** The per-date count series of a frame with these timestamps. *)
Definition daily_counts_of (ts : list datetime) : series Z :=
  groupby_size (date <$> ts).

(** Dates in ascending order with no gap of more than one day. *)
Fixpoint consecutive (l : list Z) : Prop :=
  match l with
  | [] => True
  | x :: l' =>
      match l' with
      | [] => True
      | y :: _ => y - x <= 1 /\ consecutive l'
      end
  end.

(** A gap of more than one day between the end of [l1] and the start of
    [l2], when both have dates. *)
Definition gap_between (l1 l2 : list Z) : Prop :=
  forall x y, last l1 = Some x -> head l2 = Some y -> 1 < y - x.

(** [run] is a maximal run of a list of dates [pre ++ run ++ post]. *)
Definition maximal_run (pre run post : list Z) : Prop :=
  run <> [] /\ consecutive run /\ gap_between pre run /\ gap_between run post.

(** [travel_periods] after the loop: the current period is closed. *)
Definition close_period (st : list (list Z) * list Z) : list (list Z) :=
  match snd st with
  | [] => fst st
  | _ => fst st ++ [snd st]
  end.

(** An anomaly record for [day] is among the events. *)
Definition flagged (day : Z) (events : list life_event) : Prop :=
  exists e, e ∈ events /\ is_anomaly e = true /\ event_date e = day.

(** What a run returned, and the frame it left, for the runs of the
    examples ([d] and [data] stand in where the run raised). *)
Definition result_of {A} (d : A) (run : outcome (A * DataFrame)) : A :=
  match run with
  | Ok (a, _) => a
  | Raise _ => d
  end.

Definition frame_after {A} (data : DataFrame) (run : outcome (A * DataFrame))
  : DataFrame :=
  match run with
  | Ok (_, data') => data'
  | Raise _ => data
  end.

(** [n] events on day [d], at nine o'clock. *)
Definition day_events (d : Z) (n : Z) : list datetime :=
  replicate (Z.to_nat n) (Datetime d 9).

(** Events with the given daily counts from day [start] on. *)
Definition events_of_counts (start : Z) (counts : list Z) : list datetime :=
  concat (imap (fun i n => day_events (start + Z.of_nat i) n) counts).

(** A frame of events with a 'datetime' column only. *)
Definition frame_of (ts : list datetime) : DataFrame :=
  Frame (length ts) [("datetime", Timestamps ts)].

(** 2024-01-01, a Monday *)
Definition jan_1 : Z := 738886.

(** The parser of the examples: no column other than one of timestamps
    converts. *)
Definition no_parse : column -> option (list datetime) := fun _ => None.

(* ===================================================================== *)
(** * What the specification says, where it is compared with the code *)

(** The population standard deviation of a series ([ddof = 0]). *)
Definition population_std (l : list Z) : option magnitude := std_ddof 0 l.

(** The rolling baseline in which "days at the series boundary where fewer
    than 7 values are available use whatever values exist". *)
Definition baseline_with_available_values (s : series Z) : series (option Q) :=
  rolling_mean 7 1 s.

(** The mode in which "first occurrence wins on ties": the first value of
    the series that no other value outnumbers. *)
Definition mode_first_occurrence (l : list Z) : option Z :=
  head (filter (fun x => forallb (fun y => (occurrences y l <=? occurrences x l)%nat) l) l).

(* ===================================================================== *)
(** * [PatternAnalyzer.generate_insights] *)

Definition early_riser : string :=
  "You're an early riser! Most activity starts before 7 AM.".
Definition late_starter : string :=
  "You tend to start your day later, with activity beginning after 9 AM.".
Definition regular_morning : string :=
  "You have a regular morning routine, starting around 7-9 AM.".
Definition high_spread : string :=
  "You maintain high activity levels throughout most of the day.".
Definition concentrated : string :=
  "Your activity is concentrated in fewer hours of the day.".
Definition moderate_spread : string :=
  "You have moderate activity spread across the day.".

(** The insight on the average wake-up hour; a comparison with NaN is
    false. *)
Definition sleep_pattern_insight (wake_up : option Q) : string :=
  match wake_up with
  | Some a =>
      if negb (Qle_bool 7 a) then early_riser            (* wake_up < 7 *)
      else if negb (Qle_bool a 9) then late_starter      (* wake_up > 9 *)
      else regular_morning
  | None => regular_morning
  end.

(** [len([h for h in patterns['hourly_activity'].values() if h > 0])] *)
Definition total_hours (hourly_activity : series Z) : nat :=
  length (filter (fun h => 0 < h) (snd <$> hourly_activity)).

Definition activity_level_insight (hours : nat) : string :=
  if (14 <? hours)%nat then high_spread
  else if (hours <? 8)%nat then concentrated
  else moderate_spread.

(** [e['type'] == 'high_activity'] *)
Definition is_high_activity (e : life_event) : bool :=
  match e with
  | Anomaly _ high_activity _ _ _ => true
  | _ => false
  end.

(** [f"Detected {n} periods of unusually high activity."] *)
Definition high_activity_summary (n : nat) : string :=
  "Detected " +:+ pretty n +:+ " periods of unusually high activity.".

(** [generate_insights(patterns, life_events)].  A value of [patterns]
    that is not of the kind [analyze_daily_routine] puts under the key makes
    the run leave the model. *)
Definition generate_insights (patterns : gmap string pattern_value)
    (life_events : list life_event) : outcome (gmap string string) :=
  insights ← match patterns !! "wake_up_time" with
             | None => Ok ∅
             | Some (PStats wake_up) =>
                 Ok (<["sleep_pattern" := sleep_pattern_insight (average wake_up)]> ∅)
             | Some _ => Raise NotModelled
             end;
  insights ← match patterns !! "hourly_activity" with
             | None => Ok insights
             | Some (PCounts hourly_activity) =>
                 Ok (<["activity_level" :=
                         activity_level_insight (total_hours hourly_activity)]>
                       insights)
             | Some _ => Raise NotModelled
             end;
  let high_activity_events :=
    filter (fun e => is_high_activity e = true) life_events in
  match high_activity_events with
  | [] => Ok insights
  | _ =>
      Ok (<["life_events" :=
              high_activity_summary (length high_activity_events)]> insights)
  end.

(** What a computation returned ([d] stands in where it raised), for the
    examples. *)
Definition value_of {A} (d : A) (o : outcome A) : A :=
  match o with
  | Ok a => a
  | Raise _ => d
  end.

(** The values of the rows with key [k], in row order. *)
Definition values_at (k : Z) (rows : list (Z * Z)) : list Z :=
  snd <$> filter (fun r => fst r = k) rows.

(** The ranking of [nlargest] on the rows [(label, value)] of a series: the
    larger value first, the smaller label first among equal values; and the
    ranking of [nsmallest]. *)
Definition larger_first (a b : Z * Z) : Prop :=
  snd b < snd a \/ (snd a = snd b /\ fst a < fst b).
Definition smaller_first (a b : Z * Z) : Prop :=
  snd a < snd b \/ (snd a = snd b /\ fst a < fst b).

(** The order of the events [detect_life_events] returns: by date, and on
    one date the anomaly before the travel period. *)
Definition event_order (a b : life_event) : Prop :=
  event_date a < event_date b
  \/ (event_date a = event_date b /\ is_anomaly a = true /\ is_anomaly b = false).

(** The run returned a value. *)
Definition is_Ok {A} (o : outcome A) : Prop :=
  match o with
  | Ok _ => True
  | Raise _ => False
  end.

(** There is a row labelled 'Travel' on day [x]. *)
Definition travel_day (activity : column) (ts : list datetime) (x : Z) : Prop :=
  exists i t, eq_mask activity "Travel" !! i = Some true
              /\ ts !! i = Some t /\ date t = x.

(** The slope of [polyfit_slope] as a fraction of integers: the numerator
    [n * sum(i * y_i) - sum(i) * sum(y_i)] and the denominator
    [n * sum(i * i) - sum(i) * sum(i)]. *)
Definition slope_numerator (values : list Z) : Z :=
  let x := Z.of_nat <$> seq 0 (length values) in
  Z.of_nat (length values) * sumZ (zip_with Z.mul x values) - sumZ x * sumZ values.
Definition slope_denominator (n : nat) : Z :=
  let x := Z.of_nat <$> seq 0 n in
  Z.of_nat n * sumZ ((fun i => i * i) <$> x) - sumZ x * sumZ x.

(* ===================================================================== *)
(** * [TimelineBuilder]: the daily timeline *)

(** [s.min()], [s.max()]; NaN on an empty series *)
Definition series_min (l : list Z) : option Z :=
  match l with
  | [] => None
  | x :: l' => Some (foldl Z.min x l')
  end.
Definition series_max (l : list Z) : option Z :=
  match l with
  | [] => None
  | x :: l' => Some (foldl Z.max x l')
  end.

(** [s.nunique()] *)
Definition nunique (l : list Z) : nat := length (unique l).

(** [s.value_counts().to_dict()] *)
Definition value_counts (l : list string) : gmap string Z :=
  foldl (fun counts a => <[a := default 0 (counts !! a) + 1]> counts) ∅ l.

(** [rows.groupby(key)[value].apply(list).to_dict()] *)
Definition lists_by_key (rows : list (Z * string)) : gmap Z (list string) :=
  foldl (fun lists r => <[fst r := default [] (lists !! fst r) ++ [snd r]]> lists)
        ∅ rows.

(** The entry of a day in the daily timeline. *)
Record day_summary := DaySummary {
  total_activities : Z;
  active_hours : nat;
  first_activity : option Z;
  last_activity : option Z;
  activities : gmap string Z;
  hourly_breakdown : gmap Z (list string)
}.

(** The values of the dict [build_activity_timeline] returns and
    [create_visualization] reads; [Other] stands for the values of the keys
    that [build_activity_timeline] does not set. *)
Inductive timeline_value (other : Type) :=
  | DailyTimeline (days : series day_summary)
  | Other (v : other).
Arguments DailyTimeline {other} days.
Arguments Other {other} v.

(** a fallible loop that collects its results *)
Fixpoint mapM {A B} (f : A -> outcome B) (l : list A) : outcome (list B) :=
  match l with
  | [] => Ok []
  | x :: l' => y ← f x; ys ← mapM f l'; Ok (y :: ys)
  end.

(** [data['date'] == date] *)
Definition date_mask (ts : list datetime) (d : Z) : list bool :=
  (fun t => date t =? d) <$> ts.

Section Timeline.

Variable parse_column : column -> option (list datetime).

(** The entry of [date] in the loop of [_create_daily_timeline], for a
    frame [data] whose 'datetime' column is [ts]. *)
Definition day_entry (data : DataFrame) (ts : list datetime) (d : Z)
  : outcome (Z * day_summary) :=
  let day_data := date_mask ts d in
  let hours := masked day_data (hour <$> ts) in
  day_labels ← (if has_column "predicted_activity" data
                then col ← getitem "predicted_activity" data;
                     l ← labels col;
                     Ok (Some (masked day_data l))
                else Ok None);
  Ok (d, DaySummary
           (Z.of_nat (length (masked day_data ts)))
           (nunique hours)
           (series_min hours)
           (series_max hours)
           (match day_labels with
            | Some l => value_counts l
            | None => ∅
            end)
           (match day_labels with
            | Some l => lists_by_key (zip hours l)
            | None => ∅
            end)).

(** [self._create_daily_timeline(data)]; the key [str(date)] of an entry is
    given as the date.  The method works on its own frame. *)
Definition _create_daily_timeline (data : DataFrame)
  : outcome (series day_summary) :=
  let data := drop_duplicated_columns data in
  with_datetime ←
    (if negb (has_column "datetime" data)
     then if has_column "timestamp" data
          then col ← getitem "timestamp" data;
               ts ← to_datetime parse_column col;
               Ok (Some (assign "datetime" (Timestamps ts) data))
          else Ok None
     else Ok (Some data));
  match with_datetime with
  | None => Ok []
  | Some data =>
      col ← getitem "datetime" data;
      ts ← to_datetime parse_column col;
      let data := assign "datetime" (Timestamps ts) data in
      let data := assign "date" (Dates (date <$> ts)) data in
      let data := assign "hour" (Ints (hour <$> ts)) data in
      mapM (day_entry data ts) (sorted (unique (date <$> ts)))
  end.

(** [self.build_activity_timeline(data)] *)
Definition build_activity_timeline {other} (data : DataFrame)
  : outcome (gmap string (timeline_value other)) :=
  let data := drop_duplicated_columns data in
  if empty data then Ok ∅
  else
    daily_timeline ← _create_daily_timeline data;
    Ok (<["daily_timeline" := DailyTimeline daily_timeline]> ∅).

End Timeline.

(** ** [TimelineBuilder.create_visualization] *)

Section Visualization.

(** The plotly figures, and the three methods that draw them. *)
Context {other figure : Type}.
Variable truth_value : other -> bool.
Variables _create_weekly_heatmap _create_trend_chart _create_events_timeline
  : timeline_value other -> outcome figure.

(** the truth value of a value of the dict *)
Definition truthy (v : timeline_value other) : bool :=
  match v with
  | DailyTimeline days => negb (bool_decide (days = []))
  | Other v => truth_value v
  end.

(** [if key in timeline_data and timeline_data[key]:
       visualizations[name] = chart(timeline_data[key])] *)
Definition add_chart (key name : string)
    (chart : timeline_value other -> outcome figure)
    (timeline_data : gmap string (timeline_value other))
    (visualizations : gmap string figure) : outcome (gmap string figure) :=
  match timeline_data !! key with
  | Some v =>
      if truthy v
      then fig ← chart v; Ok (<[name := fig]> visualizations)
      else Ok visualizations
  | None => Ok visualizations
  end.

Definition create_visualization (timeline_data : gmap string (timeline_value other))
  : outcome (gmap string figure) :=
  visualizations ← add_chart "weekly_patterns" "weekly_heatmap"
                     _create_weekly_heatmap timeline_data ∅;
  visualizations ← add_chart "activity_trends" "trend_chart"
                     _create_trend_chart timeline_data visualizations;
  add_chart "major_events" "events_timeline"
    _create_events_timeline timeline_data visualizations.

End Visualization.

(** The timestamps [_create_daily_timeline] works on: the 'datetime' column
    converted, or, when the frame has none, the 'timestamp' column; [None]
    when the frame has neither. *)
Definition timeline_times (parse_column : column -> option (list datetime))
    (data : DataFrame) : outcome (option (list datetime)) :=
  let data := drop_duplicated_columns data in
  if has_column "datetime" data
  then col ← getitem "datetime" data; Some <$> to_datetime parse_column col
  else if has_column "timestamp" data
       then col ← getitem "timestamp" data; Some <$> to_datetime parse_column col
       else Ok None.

(** The events of day [d]. *)
Definition events_on (d : Z) (ts : list datetime) : list datetime :=
  filter (fun t => date t = d) ts.

(** The rows of day [d], each with its label. *)
Definition day_rows (d : Z) (ts : list datetime) (l : list string)
  : list (datetime * string) :=
  filter (fun r => date (fst r) = d) (zip ts l).

(** [sum(counts.values())] *)
Definition sum_of_counts (counts : gmap string Z) : Z :=
  map_fold (fun _ c total => c + total) 0 counts.

(* ===================================================================== *)
(** * [TimelineBuilder]: the major events *)

(** The dicts [_identify_major_events] collects: the volume anomalies, the
    changes of the weekly activity pattern and the travel periods (whose
    severity is their length in days). *)
Inductive timeline_event :=
  | VolumeEvent (day : Z) (type : event_type) (severity : magnitude)
                (activity_count : Z) (expected_count : Q)
  | PatternChange (day : Z) (severity : Q)
  | TravelEvent (day : Z) (severity : nat) (end_date : Z).

(** [x['date']] *)
Definition timeline_event_date (e : timeline_event) : Z :=
  match e with
  | VolumeEvent d _ _ _ _ => d
  | PatternChange d _ => d
  | TravelEvent d _ _ => d
  end.

(** ** [TimelineBuilder._detect_travel_from_timeline] *)

(** the events for the multi-day periods *)
Definition timeline_travel_events (periods : list (list Z)) : list timeline_event :=
  omap (fun period =>
          match period, last period with
          | first :: _, Some end_date =>
              if (2 <=? length period)%nat
              then Some (TravelEvent first (length period) end_date)
              else None
          | _, _ => None
          end) periods.

(** [self._detect_travel_from_timeline(data)], for a frame whose 'datetime'
    column is [ts] *)
Definition _detect_travel_from_timeline (data : DataFrame) (ts : list datetime)
  : outcome (list timeline_event) :=
  if negb (has_column "predicted_activity" data) then Ok []
  else
    activity ← getitem "predicted_activity" data;
    match masked (eq_mask activity "Travel") ts with
    | [] => Ok []
    | _ => Ok (timeline_travel_events (travel_periods (travel_dates activity ts)))
    end.


(* ===================================================================== *)
(** * [TimelineBuilder._add_activity_gaps] *)

(** The dicts of a day's timeline: an activity with its 'time' and its other
    values, or the dict the method inserts for a gap, whose 'time' is 'gap'
    and whose text gives the duration in hours. *)
Inductive timeline_entry (A : Type) :=
  | Activity (time : string) (rest : A)
  | Gap (gap_duration : Q).
Arguments Activity {A} time rest.
Arguments Gap {A} gap_duration.

(** [entry['time']] *)
Definition entry_time {A} (e : timeline_entry A) : string :=
  match e with
  | Activity time _ => time
  | Gap _ => "gap"
  end.

Definition is_gap {A} (e : timeline_entry A) : bool :=
  match e with
  | Activity _ _ => false
  | Gap _ => true
  end.

Section ActivityGaps.

Context {A : Type}.

(** [datetime.strptime(time, '%H:%M')], as minutes after midnight; [None]
    when it raises [ValueError]. *)
Variable strptime : string -> option Z.

Definition parse_time (time : string) : outcome Z :=
  match strptime time with
  | Some minutes => Ok minutes
  | None => Raise ValueError
  end.

(** [(next_time - current_time).total_seconds() / 3600] *)
Definition gap_hours (current_time next_time : Z) : Q :=
  (inject_Z ((next_time - current_time) * 60) / 3600)%Q.

(** The loop over [enumerate(timeline)], on the entries from [activity]
    on. *)
Fixpoint gaps_loop (activity : timeline_entry A) (rest : list (timeline_entry A))
  : outcome (list (timeline_entry A)) :=
  match rest with
  | [] => Ok [activity]
  | next :: rest' =>
      current_time ← parse_time (entry_time activity);
      next_time ← parse_time (entry_time next);
      let gap_duration := gap_hours current_time next_time in
      enhanced ← gaps_loop next rest';
      Ok (if negb (Qle_bool gap_duration 2)
          then activity :: Gap gap_duration :: enhanced
          else activity :: enhanced)
  end.

Definition _add_activity_gaps (timeline : list (timeline_entry A))
  : outcome (list (timeline_entry A)) :=
  if (length timeline <? 2)%nat then Ok timeline
  else match timeline with
       | [] => Ok []
       | activity :: rest => gaps_loop activity rest
       end.

End ActivityGaps.

(** No two dicts for gaps follow each other. *)
Fixpoint no_adjacent_gaps {A} (l : list (timeline_entry A)) : Prop :=
  match l with
  | [] => True
  | e1 :: l' =>
      match l' with
      | [] => True
      | e2 :: _ => (is_gap e1 = false \/ is_gap e2 = false) /\ no_adjacent_gaps l'
      end
  end.

(** ** [TimelineBuilder._detect_activity_type_changes] *)

(** [week.start_time.date()]: the Monday of the week *)
Definition week_start (week : Z) : Z := 7 * week + 1.

(** [data[data['week'] == week]['predicted_activity']] *)
Definition week_labels (weeks : list Z) (l : list string) (week : Z) : list string :=
  masked ((fun w => w =? week) <$> weeks) l.

(** [labels.value_counts(normalize=True).get(activity, 0)]: the share of the
    label among the labels *)
Definition share (l : list string) (activity : string) : Q :=
  match length (filter (fun a => a = activity) l) with
  | O => 0
  | n => inject_Z (Z.of_nat n) / inject_Z (Z.of_nat (length l))
  end.

(** The sum of [abs(current_pct - previous_pct)] over the labels of the two
    weeks, in exact arithmetic (the program sums floats, in the order of a
    Python set). *)
Definition total_change (current previous : list string) : Q :=
  let all_activities := unique (current ++ previous) in
  sumQ ((fun activity => Qabs (share current activity - share previous activity))
          <$> all_activities).

(** The loop [for i in range(1, len(weeks))], with [previous_week] the week
    before [weeks]. *)
Fixpoint pattern_changes (dist : Z -> list string) (previous_week : Z)
    (weeks : list Z) : list timeline_event :=
  match weeks with
  | [] => []
  | current_week :: rest =>
      let change := total_change (dist current_week) (dist previous_week) in
      (if negb (Qle_bool change (1 # 2))
       then [PatternChange (week_start current_week) change]
       else [])
      ++ pattern_changes dist current_week rest
  end.

Definition _detect_activity_type_changes : M (list timeline_event) :=
  data ← the_frame;
  if negb (has_column "predicted_activity" data) then mret []
  else
    col ← lift (getitem "datetime" data);
    ts ← lift (dt col);
    setitem "week" (Weeks (week_column ts));;
    data ← the_frame;
    (* data['week'].unique() wants one column of that label *)
    _ ← lift (getitem "week" data);
    activity_col ← lift (getitem "predicted_activity" data);
    l ← lift (labels activity_col);
    let weeks := sorted (unique (week_column ts)) in
    mret (match weeks with
          | [] => []
          | first_week :: rest =>
              pattern_changes (week_labels (week_column ts) l) first_week rest
          end).

(** ** [TimelineBuilder._identify_major_events] *)

(** The loop over [daily_counts.items()]; [sd] is [daily_counts.std()].  A
    comparison with NaN is false: a date without baseline, or a series of
    one date, gives no event. *)
Fixpoint timeline_volume_loop (rolling_avg : series (option Q))
    (sd : option magnitude) (items : series Z) : outcome (list timeline_event) :=
  match items with
  | [] => Ok []
  | (day, count) :: rest =>
      let expected := series_get day (Some (inject_Z count)) rolling_avg in
      event ← match expected, sd with
              | Some e, Some s =>
                  if deviates count e s then
                    severity ← divide (mabs (inject_Z count - e)) s;
                    Ok [VolumeEvent day (anomaly_type count e) severity count e]
                  else Ok []
              | _, _ => Ok []
              end;
      events ← timeline_volume_loop rolling_avg sd rest;
      Ok (event ++ events)
  end.

Definition _identify_major_events : M (list timeline_event) :=
  data ← the_frame;
  if empty data || (len data <? 10) then mret []
  else
    col ← lift (getitem "datetime" data);
    ts ← lift (dt col);
    setitem "date" (Dates (date <$> ts));;
    data ← the_frame;
    (* groupby('date') wants one column of that label: the one just set *)
    _ ← lift (getitem "date" data);
    let daily_counts := groupby_size (date <$> ts) in
    events ← lift (timeline_volume_loop (rolling_avg_7 daily_counts)
                     (std (snd <$> daily_counts)) daily_counts);
    changes ← _detect_activity_type_changes;
    data ← the_frame;
    travel ← lift (_detect_travel_from_timeline data ts);
    mret (sorted_by (fun a b => timeline_event_date a <? timeline_event_date b)
                    (events ++ changes ++ travel)).

(** A major event as the life event [detect_life_events] reports for the
    same finding: the confidence of an anomaly is a third of the severity,
    capped at 1; a change of the activity pattern has no counterpart. *)
Definition life_event_of (e : timeline_event) : option life_event :=
  match e with
  | VolumeEvent day type severity activity_count expected_count =>
      Some (Anomaly day type (mmin (mscale (1 # 3) severity) (mconst 1))
                    activity_count expected_count)
  | PatternChange _ _ => None
  | TravelEvent day severity _ => Some (TravelPeriod day severity)
  end.

(* ===================================================================== *)
(** * [TimelineBuilder._calculate_activity_distribution] *)



Section Distribution.

(** The numbers a column holds, for a column of numbers such as
    'confidence'. *)
Variable numbers : column -> option (list Q).



End Distribution.

(* ===================================================================== *)
(** * Rounding, least squares and the rows of a week *)

(** ** Floating point *)

(** The program computes in double precision where the model computes in
    exact arithmetic: a float of the program is the exact value up to
    rounding.  [rounding_margin] is a relative error far above the rounding
    of double precision on the sums and quotients of the analyses; the
    statements on thresholds and on computed values leave that much room. *)
Definition rounding_margin : Q := 1 # 1000000.

(** the integers of an [int64] array *)
Definition int64 (v : Z) : Prop := - 2 ^ 63 <= v < 2 ^ 63.

(** the size of the data a float was computed from *)
Definition magnitude_of (values : list Z) : Q := inject_Z (sumZ (Z.abs <$> values)).

(** [x] is [y] up to rounding, for data of size [scale] *)
Definition within_rounding (scale x y : Q) : Prop :=
  (Qabs (x - y) <= rounding_margin * scale)%Q.

(** ** Least squares *)

(** The sum of the squared residuals of the line [a + b * i] at the points
    [(i, values[i])]. *)
Definition squared_residuals (values : list Z) (a b : Q) : Q :=
  sumQ ((fun p => (inject_Z (snd p) - (a + b * inject_Z (fst p)))
                  * (inject_Z (snd p) - (a + b * inject_Z (fst p))))%Q
        <$> zip (Z.of_nat <$> seq 0 (length values)) values).

(** [b] is the slope of a line of least squares through the points
    [(i, values[i])]: with some intercept, no line has a smaller sum of
    squared residuals. *)
Definition least_squares_slope (values : list Z) (b : Q) : Prop :=
  exists a, forall a' b',
    (squared_residuals values a b <= squared_residuals values a' b')%Q.

(** [np.polyfit(np.arange(n), values, 1)[1]]: the intercept that goes with
    the slope of [polyfit_slope] *)
Definition polyfit_intercept (values : list Z) : Q :=
  ((inject_Z (sumZ values)
    - polyfit_slope values * inject_Z (sumZ (Z.of_nat <$> seq 0 (length values))))
   / inject_Z (Z.of_nat (length values)))%Q.

(** [slope] is the least squares slope of [values], up to rounding. *)
Definition fitted_slope (values : list Z) (slope : Q) : Prop :=
  exists b, least_squares_slope values b
            /\ within_rounding (magnitude_of values) slope b.

(** ** Rows per week *)

(** the number of rows of a week *)
Definition rows_of_week (ts : list datetime) (week : Z) : nat :=
  length (filter (fun t => to_period_W (date t) = week) ts).

(** the number of rows of a week that carry [label] *)
Definition labelled_rows_of_week (activities : list string) (ts : list datetime)
    (label : string) (week : Z) : nat :=
  length (filter (fun r => fst r = label /\ to_period_W (date (snd r)) = week)
                 (zip activities ts)).

(** [weekly] lists the weeks that have rows, in ascending order and each
    once, each with the number of its rows. *)
Definition counts_per_week (rows : Z -> nat) (weekly : series Z) : Prop :=
  ascending weekly
  /\ forall week count,
       (week, count) ∈ weekly <-> 0 < count /\ count = Z.of_nat (rows week).

(* ===================================================================== *)
(** * Magnitudes denote real numbers *)

Section MagnitudeFacts.
Local Open Scope R_scope.

Lemma Qle_bool_false (x y : Q) : Qle_bool x y = false <-> (y < x)%Q.
Proof.
  split; intros H.
  - apply Qnot_le_lt. intros Hle. apply Qle_bool_iff in Hle. congruence.
  - destruct (Qle_bool x y) eqn:E; [|done].
    apply Qle_bool_iff in E. exfalso. eapply Qlt_not_le; eauto.
Qed.

Lemma mgt_lt (a b : magnitude) : mgt a b = true <-> (square b < square a)%Q.
Proof.
  unfold mgt. rewrite negb_true_iff. apply Qle_bool_false.
Qed.

Lemma Q2R_nonneg (q : Q) : (0 <= q)%Q -> 0 <= Q2R q.
Proof. intros H. apply Qle_Rle in H. by rewrite RMicromega.Q2R_0 in H. Qed.

Lemma to_R_nonneg (m : magnitude) : 0 <= to_R m.
Proof. apply sqrt_pos. Qed.

Lemma mgt_spec (a b : magnitude) :
  (0 <= square a)%Q -> (0 <= square b)%Q ->
  (mgt a b = true <-> to_R a > to_R b).
Proof.
  intros Ha Hb. rewrite mgt_lt. unfold to_R. split; intros H.
  - apply sqrt_lt_1; auto using Q2R_nonneg. by apply Qlt_Rlt.
  - apply Rlt_Qlt. apply sqrt_lt_0; auto using Q2R_nonneg.
Qed.

Lemma to_R_mabs (x : Q) : to_R (mabs x) = Rabs (Q2R x).
Proof.
  unfold to_R, mabs; simpl. rewrite Q2R_mult. apply sqrt_Rsqr_abs.
Qed.

Lemma to_R_mconst (x : Q) : (0 <= x)%Q -> to_R (mconst x) = Q2R x.
Proof.
  intros H. unfold to_R, mconst; simpl. rewrite Q2R_mult.
  apply sqrt_square. by apply Q2R_nonneg.
Qed.

Lemma to_R_mscale (k : Q) (m : magnitude) :
  (0 <= k)%Q -> (0 <= square m)%Q -> to_R (mscale k m) = Q2R k * to_R m.
Proof.
  intros Hk Hm. unfold to_R, mscale; simpl. rewrite !Q2R_mult.
  rewrite sqrt_mult.
  - rewrite sqrt_square; [done | by apply Q2R_nonneg].
  - apply Rmult_le_pos; by apply Q2R_nonneg.
  - by apply Q2R_nonneg.
Qed.

Lemma to_R_mquot (a b : magnitude) :
  (0 <= square a)%Q -> (0 < square b)%Q -> to_R (mquot a b) = to_R a / to_R b.
Proof.
  intros Ha Hb. unfold to_R, mquot; simpl.
  rewrite Q2R_div by (intros E; rewrite E in Hb; by apply Qlt_irrefl in Hb).
  apply sqrt_div_alt. apply Qlt_Rlt in Hb. by rewrite RMicromega.Q2R_0 in Hb.
Qed.

Lemma to_R_mmin (a b : magnitude) :
  (0 <= square a)%Q -> (0 <= square b)%Q ->
  to_R (mmin a b) = Rmin (to_R a) (to_R b).
Proof.
  intros Ha Hb. unfold mmin. destruct (mgt a b) eqn:E.
  - apply mgt_spec in E; [|done..]. rewrite Rmin_right; [done | Lra.lra].
  - rewrite Rmin_left; [done|].
    apply Rnot_gt_le. intros H. apply mgt_spec in H; [congruence|done..].
Qed.

Lemma mis_zero_spec (m : magnitude) : mis_zero m = true <-> (square m == 0)%Q.
Proof. unfold mis_zero. apply Qeq_bool_iff. Qed.

End MagnitudeFacts.

(* ===================================================================== *)
(** * Runs in the two monads *)

Lemma bind_Ok {A B} (m : outcome A) (f : A -> outcome B) (b : B) :
  m ≫= f = Ok b -> exists a, m = Ok a /\ f a = Ok b.
Proof. destruct m; simpl; [eauto | discriminate]. Qed.

Lemma bind_Raise {A B} (m : outcome A) (f : A -> outcome B) (e : exn) :
  m ≫= f = Raise e -> m = Raise e \/ exists a, m = Ok a /\ f a = Raise e.
Proof. destruct m; simpl; [eauto | intros [= ->]; auto]. Qed.

Lemma fmap_Ok {A B} (m : outcome A) (f : A -> B) (b : B) :
  f <$> m = Ok b -> exists a, m = Ok a /\ b = f a.
Proof. destruct m; simpl; [intros [= <-]; eauto | discriminate]. Qed.

Lemma M_bind_Ok {A B} (m : M A) (f : A -> M B) data b data'' :
  (m ≫= f) data = Ok (b, data'') ->
  exists a data', m data = Ok (a, data') /\ f a data' = Ok (b, data'').
Proof.
  unfold mbind, M_bind. destruct (m data) as [[a data']|]; [eauto | discriminate].
Qed.

Lemma lift_Ok {A} (o : outcome A) data a data' :
  lift o data = Ok (a, data') -> o = Ok a /\ data' = data.
Proof. unfold lift. destruct o; [intros [= <- <-]; auto | discriminate]. Qed.

(* ===================================================================== *)
(** * Frames *)

Lemma has_column_spec name data :
  has_column name data = true <-> exists c, c ∈ columns data /\ fst c = name.
Proof.
  unfold has_column. rewrite existsb_exists. split.
  - intros (c & Hin & Heq). apply String.eqb_eq in Heq.
    exists c. split; [by apply list_elem_of_In | done].
  - intros (c & Hin & Heq). exists c.
    split; [by apply list_elem_of_In | by apply String.eqb_eq].
Qed.

Lemma getitem_Ok_has_column name data col :
  getitem name data = Ok col -> has_column name data = true.
Proof.
  unfold getitem. intros H. apply has_column_spec.
  destruct (filter _ _) as [|c [|]] eqn:E; try discriminate.
  assert (Hc : c ∈ filter (fun c => fst c = name) (columns data))
    by (rewrite E; apply list_elem_of_here).
  apply list_elem_of_filter in Hc as [Hn Hc]. eauto.
Qed.


Lemma filter_label_assign name name' col data :
  name <> name' ->
  filter (fun c => fst c = name) (columns (assign name' col data))
  = filter (fun c => fst c = name) (columns data).
Proof.
  intros Hne. unfold assign. destruct (has_column name' data); simpl.
  - induction (columns data) as [|c l IH]; [done|]. rewrite fmap_cons.
    destruct (String.eqb_spec name' (fst c)) as [Heq|Hneq].
    + rewrite !filter_cons, IH. simpl.
      destruct (decide (name' = name)); [congruence|].
      destruct (decide (fst c = name)); [congruence|done].
    + by rewrite !filter_cons, IH.
  - rewrite filter_app, filter_cons. simpl.
    destruct (decide (name' = name)); [congruence|].
    by rewrite filter_nil, app_nil_r.
Qed.

Lemma getitem_assign_ne name name' col data :
  name <> name' -> getitem name (assign name' col data) = getitem name data.
Proof. intros H. unfold getitem. by rewrite filter_label_assign. Qed.

Lemma has_column_assign_ne name name' col data :
  name <> name' -> has_column name (assign name' col data) = has_column name data.
Proof.
  intros Hne. unfold assign, has_column at 1 3.
  destruct (has_column name' data); simpl.
  - induction (columns data) as [|c l IH]; [done|]. rewrite fmap_cons.
    simpl. rewrite IH.
    destruct (String.eqb_spec name' (fst c)) as [Heq|Hneq]; [|done]. simpl.
    destruct (String.eqb_spec name name'); [congruence|].
    destruct (String.eqb_spec name (fst c)); [congruence|done].
  - rewrite existsb_app. simpl.
    destruct (String.eqb_spec name name'); [congruence|].
    by rewrite !orb_false_r.
Qed.

(** Reading back the column just assigned, when the read succeeds. *)
Lemma getitem_assign_eq name col data col' :
  getitem name (assign name col data) = Ok col' -> col' = col.
Proof.
  unfold getitem, assign. destruct (has_column name data) eqn:Hh; simpl.
  - induction (columns data) as [|c l IH] in Hh |- *; [done|].
    unfold has_column in Hh. simpl in Hh. rewrite fmap_cons, filter_cons.
    destruct (String.eqb_spec name (fst c)) as [Heq|Hneq]; simpl.
    + rewrite decide_True by done.
      destruct (filter _ _) as [|? ?] eqn:E; [by intros [= <-] | discriminate].
    + rewrite decide_False by done. simpl in Hh. by apply IH.
  - rewrite filter_app, filter_cons. simpl. rewrite decide_True by done.
    rewrite filter_nil.
    assert (filter (fun c => fst c = name) (columns data) = []) as ->.
    { destruct (filter _ _) as [|c l] eqn:E; [done|].
      assert (Hc : c ∈ filter (fun c => fst c = name) (columns data))
        by (rewrite E; apply list_elem_of_here).
      apply list_elem_of_filter in Hc as [Hn Hc].
      assert (has_column name data = true) by (apply has_column_spec; eauto).
      congruence. }
    by intros [= <-].
Qed.

Lemma nonempty_assign name col data :
  empty data = false -> empty (assign name col data) = false.
Proof.
  unfold assign, empty. destruct (has_column name data); simpl;
    destruct (index data); try done; destruct (columns data); done.
Qed.

(* ===================================================================== *)
(** * [analyze_daily_routine]: the guard, the keys, the caller's frame *)

Section DailyRoutine.
Variable parse_column : column -> option (list datetime).

Lemma analyze_daily_routine_guarded data :
  routine_guard data = true ->
  analyze_daily_routine parse_column data = Ok (∅, data).
Proof.
  intros H. unfold analyze_daily_routine, routine_guard in *.
  unfold mbind, M_bind, the_frame. by rewrite H.
Qed.

(** The method works on its own copy: the caller's frame is as it was. *)
Lemma analyze_daily_routine_frame data patterns data' :
  analyze_daily_routine parse_column data = Ok (patterns, data') ->
  data' = data.
Proof.
  unfold analyze_daily_routine. unfold mbind at 1, M_bind, the_frame.
  destruct (empty data || negb (has_column "datetime" data)).
  - by intros [= _ <-].
  - intros H. by apply lift_Ok in H as [_ ->].
Qed.

(** What a run past the guard returns. *)
Lemma analyze_daily_routine_Ok data patterns data' :
  routine_guard data = false ->
  analyze_daily_routine parse_column data = Ok (patterns, data') ->
  exists col ts wake sleep,
    getitem "datetime" (drop_duplicated_columns data) = Ok col
    /\ to_datetime parse_column col = Ok ts
    /\ wake_or_sleep (hour_per_date Z.min ts) = Ok wake
    /\ wake_or_sleep (hour_per_date Z.max ts) = Ok sleep
    /\ patterns =
         <["quiet_hours" := PHours (nsmallest 3 (groupby_size (hour <$> ts)))]>
         (<["peak_hours" := PHours (nlargest 3 (groupby_size (hour <$> ts)))]>
         (<["hourly_activity" := PCounts (groupby_size (hour <$> ts))]>
         (<["sleep_time" := PStats sleep]>
         (<["wake_up_time" := PStats wake]> ∅)))).
Proof.
  intros Hg. unfold analyze_daily_routine, routine_guard in *.
  unfold mbind at 1, M_bind, the_frame. rewrite Hg.
  intros H. apply lift_Ok in H as [H _].
  apply bind_Ok in H as (col & Hcol & H).
  apply bind_Ok in H as (ts & Hts & H).
  apply bind_Ok in H as (wake & Hwake & H).
  apply bind_Ok in H as (sleep & Hsleep & H).
  injection H as <-. by exists col, ts, wake, sleep.
Qed.

End DailyRoutine.

(* ===================================================================== *)
(** * [_analyze_activity_trends]: what a run returns *)

Lemma weeks_label_ne : "datetime" <> "week" /\ "predicted_activity" <> "week".
Proof. split; discriminate. Qed.

(** What a run on a non-empty frame returns, and the frame it leaves. *)
Lemma _analyze_activity_trends_Ok data trends data' :
  empty data = false ->
  _analyze_activity_trends data = Ok (trends, data') ->
  exists ts activities,
    getitem "datetime" data = Ok (Timestamps ts)
    /\ getitem "predicted_activity" data = Ok (Texts activities)
    /\ data' = assign "week" (Weeks (week_column ts)) data
    /\ trends =
         <["hourly_distribution" := HourlyDistribution (groupby_size (hour <$> ts))]>
         (<["activity_specific_trends" :=
              ActivityTrends
                (foldl (activity_step (Texts activities) (week_column ts)) ∅
                       (unique activities))]>
            (overall_trends (weekly_counts_of ts))).
Proof.
  intros He. unfold _analyze_activity_trends.
  unfold mbind at 1, M_bind at 1, the_frame at 1. rewrite He. intros H.
  apply M_bind_Ok in H as (col & d1 & Hcol & H). apply lift_Ok in Hcol as [Hcol ->].
  apply M_bind_Ok in H as (ts & d1 & Hts & H). apply lift_Ok in Hts as [Hts ->].
  destruct col; try discriminate. injection Hts as ->.
  apply M_bind_Ok in H as ([] & d1 & Hset & H). injection Hset as <-.
  apply M_bind_Ok in H as (d2 & d1 & Hfr & H). injection Hfr as <- <-.
  apply M_bind_Ok in H as (wk & d1 & Hwk & H). apply lift_Ok in Hwk as [Hwk ->].
  apply M_bind_Ok in H as (acol & d1 & Hacol & H). apply lift_Ok in Hacol as [Hacol ->].
  apply M_bind_Ok in H as (acts & d1 & Hacts & H). apply lift_Ok in Hacts as [Hacts ->].
  destruct acol; try discriminate. injection Hacts as ->.
  apply M_bind_Ok in H as (col' & d1 & Hcol' & H). apply lift_Ok in Hcol' as [Hcol' ->].
  apply M_bind_Ok in H as (ts' & d1 & Hts' & H). apply lift_Ok in Hts' as [Hts' ->].
  injection H as <- <-.
  rewrite getitem_assign_ne in Hacol by apply weeks_label_ne.
  rewrite getitem_assign_ne in Hcol' by apply weeks_label_ne.
  rewrite Hcol in Hcol'. injection Hcol' as <-. injection Hts' as <-.
  by exists ts, acts.
Qed.

(* ===================================================================== *)
(** * Series: [groupby] *)

Lemma series_get_find {A} label (d : A) s :
  series_get label d s = default d (series_find label s).
Proof.
  induction s as [|[k v] s IH]; [done|]. simpl. by destruct (k =? label).
Qed.

Lemma series_find_elem_of {A} label (v : A) s :
  series_find label s = Some v -> (label, v) ∈ s.
Proof.
  induction s as [|[k w] s IH]; [done|]. simpl.
  destruct (Z.eqb_spec k label) as [->|].
  - intros [= ->]. apply list_elem_of_here.
  - intros H. apply list_elem_of_further. auto.
Qed.

Lemma series_find_None {A} label (s : series A) :
  series_find label s = None <-> label ∉ fst <$> s.
Proof.
  induction s as [|[k w] s IH]; simpl.
  - split; [intros _; apply not_elem_of_nil | done].
  - rewrite not_elem_of_cons. destruct (Z.eqb_spec k label) as [->|].
    + split; [done | intros [? _]; done].
    + rewrite IH. split; [intros ?; split; [congruence | done] | intros [_ ?]; done].
Qed.

Lemma ascending_cons {A} k (v : A) s :
  ascending ((k, v) :: s) <-> ascending s /\ Forall (fun p => k < fst p) s.
Proof.
  unfold ascending. rewrite fmap_cons. simpl. split.
  - intros H. apply StronglySorted_inv in H as [H1 H2].
    split; [done|]. exact (proj1 (Forall_fmap fst (Z.lt k) s) H2).
  - intros [H1 H2]. constructor; [done|].
    exact (proj2 (Forall_fmap fst (Z.lt k) s) H2).
Qed.

Lemma ascending_find {A} k (v : A) s :
  ascending s -> (k, v) ∈ s -> series_find k s = Some v.
Proof.
  induction s as [|[k' v'] s IH]; [by intros _ ?%elem_of_nil|].
  intros [Hs Hall]%ascending_cons Hin. simpl.
  apply elem_of_cons in Hin as [[= <- <-]|Hin].
  - by rewrite Z.eqb_refl.
  - rewrite Forall_forall in Hall. specialize (Hall _ Hin). simpl in Hall.
    destruct (Z.eqb_spec k' k); [lia | auto].
Qed.

Lemma ascending_NoDup {A} (s : series A) : ascending s -> NoDup (fst <$> s).
Proof.
  unfold ascending. induction 1 as [|x l Hs IH Hall]; constructor; [|done].
  intros Hin. rewrite Forall_forall in Hall. specialize (Hall _ Hin). lia.
Qed.

Lemma upsert_ascending f k v s : ascending s -> ascending (upsert f k v s).
Proof.
  induction s as [|[k' v'] s IH]; intros Hs; simpl.
  - apply ascending_cons. split; [constructor | constructor].
  - destruct (Z.ltb_spec k k') as [Hlt|Hge].
    + apply ascending_cons. split; [done|].
      apply ascending_cons in Hs as [Hs Hall]. constructor; [done|].
      eapply Forall_impl; [exact Hall|]. simpl. lia.
    + apply ascending_cons in Hs as [Hs Hall].
      destruct (Z.eqb_spec k k') as [->|Hne].
      * apply ascending_cons. done.
      * apply ascending_cons. split; [auto|].
        clear IH Hs. induction s as [|[k2 v2] s IH]; simpl.
        -- constructor; [simpl; lia | constructor].
        -- apply Forall_cons in Hall as [H1 H2]. simpl in H1.
           destruct (k <? k2); [constructor; [simpl; lia|]; by constructor|].
           destruct (k =? k2); constructor; auto.
Qed.

Lemma upsert_find f k v s label :
  ascending s ->
  series_find label (upsert f k v s)
  = if label =? k
    then Some (from_option (fun v' => f v' v) v (series_find k s))
    else series_find label s.
Proof.
  induction s as [|[k' v'] s IH]; intros Hs; simpl.
  - rewrite (Z.eqb_sym k label). by destruct (label =? k).
  - apply ascending_cons in Hs as [Hs Hall].
    destruct (Z.ltb_spec k k') as [Hlt|Hge]; simpl.
    + rewrite (Z.eqb_sym k label). destruct (Z.eqb_spec label k) as [Hlk|]; [|done].
      subst label.
      destruct (Z.eqb_spec k' k); [lia|].
      assert (series_find k s = None) as ->; [|done].
      apply series_find_None. intros (p & Heq & Hp)%list_elem_of_fmap.
      rewrite Forall_forall in Hall. specialize (Hall _ Hp). lia.
    + destruct (Z.eqb_spec k k') as [->|Hne]; simpl.
      * rewrite Z.eqb_refl. destruct (Z.eqb_spec k' label) as [->|].
        -- by rewrite Z.eqb_refl.
        -- destruct (Z.eqb_spec label k'); [congruence | done].
      * rewrite IH by done. destruct (Z.eqb_spec k' label) as [->|].
        -- destruct (Z.eqb_spec label k); [congruence|].
           destruct (Z.eqb_spec label k); [congruence | done].
        -- destruct (Z.eqb_spec k' k); [congruence | done].
Qed.

Lemma groupby_snoc f rows r :
  groupby f (rows ++ [r]) = upsert f (fst r) (snd r) (groupby f rows).
Proof. unfold groupby. by rewrite foldl_snoc. Qed.

Lemma groupby_ascending f rows : ascending (groupby f rows).
Proof.
  induction rows as [|r rows IH] using rev_ind.
  - constructor.
  - rewrite groupby_snoc. by apply upsert_ascending.
Qed.

(** The labels of the groups are the keys of the rows. *)
Lemma groupby_labels f rows k :
  k ∈ fst <$> (groupby f rows) <-> k ∈ fst <$> rows.
Proof.
  induction rows as [|r rows IH] using rev_ind; [done|].
  rewrite groupby_snoc, fmap_app, elem_of_app. simpl.
  rewrite list_elem_of_singleton, <- IH.
  pose proof (upsert_find f (fst r) (snd r) (groupby f rows) k
                (groupby_ascending f rows)) as Hf.
  destruct (decide (k ∈ fst <$> (upsert f r.1 r.2 (groupby f rows)))) as [Hin|Hnin].
  - split; [|done]. intros _.
    destruct (Z.eqb_spec k (fst r)) as [->|Hne]; [by right|].
    left. destruct (decide (k ∈ fst <$> (groupby f rows))) as [|Hn]; [done|].
    apply series_find_None in Hn. rewrite Hn in Hf.
    apply series_find_None in Hf. done.
  - split; [done|]. intros H. exfalso.
    apply series_find_None in Hnin. rewrite Hnin in Hf.
    destruct (Z.eqb_spec k (fst r)) as [->|Hne]; [done|].
    destruct H as [H|H]; [|done]. symmetry in Hf. by apply series_find_None in Hf.
Qed.

Lemma groupby_nil_inv f rows : groupby f rows = [] -> rows = [].
Proof.
  destruct rows as [|r rows]; [done|]. intros H.
  assert (Hin : fst r ∈ fst <$> (groupby f (r :: rows))).
  { apply groupby_labels. simpl. apply list_elem_of_here. }
  rewrite H in Hin. by apply elem_of_nil in Hin.
Qed.

Lemma filter_none {A} (P : A -> Prop) `{forall x, Decision (P x)} (l : list A) :
  (forall x, x ∈ l -> ~ P x) -> filter P l = [].
Proof.
  induction l as [|x l IH]; [done|]. intros Hl.
  rewrite filter_cons_False by (apply Hl, list_elem_of_here).
  apply IH. intros y Hy. apply Hl. by apply list_elem_of_further.
Qed.

(** The size of a group is the number of rows with its key. *)
Lemma groupby_size_find keys k :
  series_find k (groupby_size keys)
  = if decide (k ∈ keys) then Some (Z.of_nat (occurrences k keys)) else None.
Proof.
  unfold groupby_size, occurrences.
  induction keys as [|x keys IH] using rev_ind; [done|].
  rewrite fmap_app. simpl. rewrite groupby_snoc. simpl.
  rewrite upsert_find by apply groupby_ascending.
  rewrite filter_app, length_app, filter_cons, filter_nil.
  destruct (Z.eqb_spec k x) as [->|Hne].
  - rewrite decide_True by (apply elem_of_app; right; apply list_elem_of_here).
    rewrite IH. rewrite (decide_True (P := x = x)) by done. simpl. f_equal.
    destruct (decide (x ∈ keys)) as [|Hn]; simpl; [lia|].
    assert (filter (fun y => y = x) keys = []) as ->; [|done].
    apply filter_none. by intros y Hy ->.
  - rewrite IH. rewrite (decide_False (P := x = k)) by done.
    simpl. rewrite Nat.add_0_r.
    destruct (decide (k ∈ keys)) as [Hin|Hn].
    + by rewrite decide_True by (apply elem_of_app; by left).
    + rewrite decide_False; [done|].
      rewrite elem_of_app, list_elem_of_singleton. intros [?|?]; done.
Qed.

(* ===================================================================== *)
(** * Series: [mode] *)

Lemma groupby_size_elem_of keys k c :
  (k, c) ∈ groupby_size keys <-> k ∈ keys /\ c = Z.of_nat (occurrences k keys).
Proof.
  pose proof (groupby_size_find keys k) as Hf. split.
  - intros Hin. apply ascending_find in Hin; [|apply groupby_ascending].
    rewrite Hin in Hf. destruct (decide (k ∈ keys)); [|done].
    by injection Hf as ->.
  - intros [Hin ->]. rewrite decide_True in Hf by done.
    by apply series_find_elem_of.
Qed.

Lemma occurrences_pos x l : x ∈ l -> (0 < occurrences x l)%nat.
Proof.
  intros Hin. unfold occurrences.
  assert (Hx : x ∈ filter (fun y => y = x) l) by (by apply list_elem_of_filter).
  destruct (filter _ l); [by apply elem_of_nil in Hx | simpl; lia].
Qed.

Lemma occurrences_zero x l : x ∉ l -> occurrences x l = 0%nat.
Proof.
  intros Hn. unfold occurrences. rewrite filter_none; [done|].
  by intros y Hy ->.
Qed.

Lemma foldr_max_upper (l : list Z) x : x ∈ l -> x <= foldr Z.max 0 l.
Proof.
  induction l as [|y l IH]; [by intros ?%elem_of_nil|].
  intros [->|Hin]%elem_of_cons; simpl; [lia|].
  specialize (IH Hin). lia.
Qed.

Lemma foldr_max_cases (l : list Z) :
  foldr Z.max 0 l ∈ l \/ foldr Z.max 0 l = 0.
Proof.
  induction l as [|y l IH]; [by right|]. simpl.
  destruct (Z.max_spec y (foldr Z.max 0 l)) as [[_ ->]|[_ ->]].
  - destruct IH as [IH| ->]; [left; by apply list_elem_of_further | by right].
  - left. apply list_elem_of_here.
Qed.

Lemma foldr_max_attained (l : list Z) :
  (exists x, x ∈ l /\ 0 <= x) -> foldr Z.max 0 l ∈ l.
Proof.
  intros (x & Hx & Hpos). destruct (foldr_max_cases l) as [|Hz]; [done|].
  pose proof (foldr_max_upper l x Hx). rewrite Hz in *.
  by replace 0 with x by lia.
Qed.

Lemma ascending_filter_head {A} (P : Z * A -> Prop) `{forall p, Decision (P p)}
    (s : series A) p rest q :
  ascending s -> filter P s = p :: rest -> q ∈ s -> P q -> fst p <= fst q.
Proof.
  induction s as [|[k v] s IH]; [done|].
  intros [Hs Hall]%ascending_cons Hf Hq HP.
  rewrite filter_cons in Hf. destruct (decide (P (k, v))) as [HPk|HPk].
  - injection Hf as <- _. simpl.
    apply elem_of_cons in Hq as [->|Hq]; [simpl; lia|].
    rewrite Forall_forall in Hall. specialize (Hall _ Hq). lia.
  - apply elem_of_cons in Hq as [->|Hq]; [done|]. by apply IH.
Qed.

(** The first of the modes: a most frequent value, the smallest of them. *)
Lemma mode_first values :
  values <> [] -> exists v, iloc0 (mode values) = Ok v /\ smallest_mode (Some v) values.
Proof.
  intros Hne. unfold mode.
  set (counts := groupby_size values).
  set (top := foldr Z.max 0 (snd <$> counts)).
  assert (Hupper : forall k c, (k, c) ∈ counts -> c <= top).
  { intros k c Hin. apply foldr_max_upper.
    apply (list_elem_of_fmap_2 snd) in Hin. exact Hin. }
  assert (Htop : exists k, (k, top) ∈ counts) .
  { assert (Hin : top ∈ snd <$> counts).
    { apply foldr_max_attained. destruct values as [|x values]; [done|].
      exists (Z.of_nat (occurrences x (x :: values))). split; [|lia].
      apply (list_elem_of_fmap_2 snd _ (x, _)).
      apply groupby_size_elem_of. split; [apply list_elem_of_here | done]. }
    apply list_elem_of_fmap in Hin as ([k c] & -> & Hin). eauto. }
  destruct Htop as (k0 & Hk0).
  destruct (filter (fun p => snd p = top) counts) as [|[v c] rest] eqn:Hf.
  { exfalso. by eapply (filter_nil_not_elem_of _ _ (k0, top)). }
  exists v. simpl. split; [done|].
  assert (Hv : (v, c) ∈ filter (fun p => snd p = top) counts)
    by (rewrite Hf; apply list_elem_of_here).
  apply list_elem_of_filter in Hv as [Hc Hv]. simpl in Hc. subst c.
  apply groupby_size_elem_of in Hv as Hvo. destruct Hvo as [Hvin Hvtop].
  exists v. split; [done|]. split; [done|]. split.
  - intros y. destruct (decide (y ∈ values)) as [Hy|Hy].
    + assert ((y, Z.of_nat (occurrences y values)) ∈ counts) as Hyc
        by (by apply groupby_size_elem_of).
      apply Hupper in Hyc. lia.
    + rewrite occurrences_zero by done. lia.
  - intros y Hy Hocc.
    assert ((y, top) ∈ counts) as Hyc.
    { apply groupby_size_elem_of. split; [done|]. rewrite Hocc. done. }
    apply (ascending_filter_head _ _ _ _ _ (groupby_ascending _ _) Hf Hyc).
    done.
Qed.

(* ===================================================================== *)
(** * The daily routine: claims *)

Lemma wake_or_sleep_Ok per_day st :
  wake_or_sleep per_day = Ok st ->
  average st = mean (snd <$> per_day)
  /\ std_dev st = std (snd <$> per_day)
  /\ (per_day <> [] -> smallest_mode (most_common st) (snd <$> per_day)).
Proof.
  unfold wake_or_sleep. intros H.
  apply bind_Ok in H as (mc & Hmc & [= <-]). simpl.
  split; [done|]. split; [done|]. intros Hne.
  destruct per_day as [|r per_day]; [done|]. rewrite fmap_cons in *.
  apply fmap_Ok in Hmc as (v & Hv & ->).
  destruct (mode_first (snd r :: (snd <$> per_day))) as (v' & Hv' & Hmode); [done|].
  rewrite Hv in Hv'. by injection Hv' as <-.
Qed.

(** C10.  [analyze_daily_routine] returns the empty dict [{}] for every
    frame that has no 'datetime' column, empty or not, and does not raise;
    the caller's frame is as it was. *)
Theorem analyze_daily_routine_without_datetime parse_column data :
  has_column "datetime" data = false ->
  analyze_daily_routine parse_column data = Ok (∅, data).
Proof.
  intros H. apply analyze_daily_routine_guarded.
  unfold routine_guard. rewrite H. by rewrite orb_true_r.
Qed.

(** On a frame of two rows with the columns 'timestamp' and
    'predicted_activity'. *)
Lemma analyze_daily_routine_without_datetime_witness :
  let data := Frame 2 [("timestamp", Texts ["2024-01-01 09:00"; "2024-01-02 08:00"]);
                       ("predicted_activity", Texts ["Work"; "Travel"])] in
  empty data = false /\ analyze_daily_routine no_parse data = Ok (∅, data).
Proof.
  split; [reflexivity|].
  apply (analyze_daily_routine_without_datetime no_parse). reflexivity.
Defined.

(** C8, as the specification has it, fails: for two days whose first
    activities are at 9 and then at 8 o'clock, both hours occur once; the
    first to occur is 9, the [most_common] reported is 8. *)
Lemma most_common_first_occurrence_refuted :
  let ts := [Datetime jan_1 9; Datetime (jan_1 + 1) 8] in
  exists patterns wake,
    analyze_daily_routine no_parse (frame_of ts) = Ok (patterns, frame_of ts)
    /\ patterns !! "wake_up_time" = Some (PStats wake)
    /\ most_common wake = Some 8
    /\ mode_first_occurrence (snd <$> hour_per_date Z.min ts) = Some 9.
Proof.
  intros ts.
  exists (result_of ∅ (analyze_daily_routine no_parse (frame_of ts))).
  eexists. split; [reflexivity|]. split; [reflexivity|]. split; reflexivity.
Qed.

(** C8 (amended).  Past its guard, [analyze_daily_routine] reports as
    [most_common] of the per-day first-activity hours, and of the per-day
    last-activity hours, a value that occurs most often in that series; when
    several values are tied for most frequent, the smallest of them. *)
Theorem most_common_is_smallest_mode parse_column data patterns data' :
  routine_guard data = false ->
  analyze_daily_routine parse_column data = Ok (patterns, data') ->
  exists col ts wake sleep,
    getitem "datetime" (drop_duplicated_columns data) = Ok col
    /\ to_datetime parse_column col = Ok ts
    /\ patterns !! "wake_up_time" = Some (PStats wake)
    /\ patterns !! "sleep_time" = Some (PStats sleep)
    /\ (ts <> [] ->
        smallest_mode (most_common wake) (snd <$> hour_per_date Z.min ts)
        /\ smallest_mode (most_common sleep) (snd <$> hour_per_date Z.max ts)).
Proof.
  intros Hg Hrun.
  apply analyze_daily_routine_Ok in Hrun
    as (col & ts & wake & sleep & Hcol & Hts & Hw & Hs & ->); [|done].
  exists col, ts, wake, sleep. split; [done|]. split; [done|].
  split; [by simplify_map_eq|]. split; [by simplify_map_eq|].
  intros Hne.
  assert (Hrows : forall agg, hour_per_date agg ts <> []).
  { intros agg Hnil. apply groupby_nil_inv in Hnil.
    by apply fmap_nil_inv in Hnil. }
  apply wake_or_sleep_Ok in Hw as (_ & _ & Hw).
  apply wake_or_sleep_Ok in Hs as (_ & _ & Hs). auto.
Qed.

(** On three days whose first activities are at 9, 8 and 8 o'clock. *)
Lemma most_common_is_smallest_mode_witness :
  let ts := [Datetime jan_1 9; Datetime (jan_1 + 1) 8; Datetime (jan_1 + 2) 8] in
  exists patterns,
    analyze_daily_routine no_parse (frame_of ts) = Ok (patterns, frame_of ts)
    /\ exists col ts' wake sleep,
    getitem "datetime" (drop_duplicated_columns (frame_of ts)) = Ok col
    /\ to_datetime no_parse col = Ok ts'
    /\ patterns !! "wake_up_time" = Some (PStats wake)
    /\ patterns !! "sleep_time" = Some (PStats sleep)
    /\ (ts' <> [] ->
        smallest_mode (most_common wake) (snd <$> hour_per_date Z.min ts')
        /\ smallest_mode (most_common sleep) (snd <$> hour_per_date Z.max ts')).
Proof.
  intros ts.
  exists (result_of ∅ (analyze_daily_routine no_parse (frame_of ts))).
  split; [reflexivity|].
  apply (most_common_is_smallest_mode no_parse (frame_of ts) _ (frame_of ts));
    reflexivity.
Defined.

(* ===================================================================== *)
(** * The least-squares slope *)

Lemma sumZ_app l1 l2 : sumZ (l1 ++ l2) = sumZ l1 + sumZ l2.
Proof. induction l1 as [|x l1 IH]; simpl; [done | rewrite IH; lia]. Qed.

(** The sums of the indices [0 .. n-1] and of their squares. *)
Lemma sum_indices (n : nat) :
  2 * sumZ (Z.of_nat <$> seq 0 n) = Z.of_nat n * (Z.of_nat n - 1)
  /\ 6 * sumZ ((fun i => i * i) <$> (Z.of_nat <$> seq 0 n))
     = (Z.of_nat n - 1) * Z.of_nat n * (2 * Z.of_nat n - 1).
Proof.
  induction n as [|n [IH1 IH2]]; [done|].
  rewrite seq_S, !fmap_app, !sumZ_app. simpl. split; nia.
Qed.

(** With two points or more the indices are not all the same: the
    denominator of the slope is positive. *)
Lemma polyfit_denominator_pos (n : nat) :
  (2 <= n)%nat ->
  0 < Z.of_nat n * sumZ ((fun i => i * i) <$> (Z.of_nat <$> seq 0 n))
      - sumZ (Z.of_nat <$> seq 0 n) * sumZ (Z.of_nat <$> seq 0 n).
Proof.
  intros Hn. destruct (sum_indices n) as [H1 H2].
  set (sx := sumZ (Z.of_nat <$> seq 0 n)) in *.
  set (sxx := sumZ ((fun i => i * i) <$> (Z.of_nat <$> seq 0 n))) in *.
  assert (12 * (Z.of_nat n * sxx - sx * sx)
          = Z.of_nat n * Z.of_nat n * (Z.of_nat n - 1) * (Z.of_nat n + 1)) by nia.
  assert (0 < Z.of_nat n * Z.of_nat n * (Z.of_nat n - 1) * (Z.of_nat n + 1)) by nia.
  lia.
Qed.

(** The slope solves the normal equation of the least-squares line through
    the points [(i, values[i])]. *)
Lemma polyfit_slope_normal_equation values :
  (2 <= length values)%nat ->
  let n := inject_Z (Z.of_nat (length values)) in
  let x := Z.of_nat <$> seq 0 (length values) in
  let sx := inject_Z (sumZ x) in
  let sy := inject_Z (sumZ values) in
  let sxx := inject_Z (sumZ ((fun i => i * i) <$> x)) in
  let sxy := inject_Z (sumZ (zip_with Z.mul x values)) in
  (polyfit_slope values * (n * sxx - sx * sx) == n * sxy - sx * sy)%Q.
Proof.
  intros Hn n x sx sy sxx sxy. unfold polyfit_slope.
  fold x. fold n. fold sx. fold sy. fold sxx. fold sxy.
  rewrite Qmult_comm. apply Qmult_div_r.
  pose proof (polyfit_denominator_pos _ Hn) as Hpos. fold x in Hpos.
  unfold n, sxx, sx. unfold Qeq, Qminus, Qplus, Qopp, Qmult, inject_Z. simpl. lia.
Qed.

(** Weekly counts 1, 2, 3, 4, 5 rise by one a week; weekly counts 5, 5, 5
    do not move, and their least squares slope is 0 (the float of the
    program is 0 up to rounding). *)
Example polyfit_slope_rising :
  Qeq (polyfit_slope [1; 2; 3; 4; 5]) 1
  /\ trend_direction (polyfit_slope [1; 2; 3; 4; 5]) = "increasing".
Proof. split; reflexivity. Qed.

Example polyfit_slope_flat : Qeq (polyfit_slope [5; 5; 5]) 0.
Proof. reflexivity. Qed.

(* ===================================================================== *)
(** * Trends: the three-point gate *)

Lemma elem_of_unique `{EqDecision A} (l : list A) x : x ∈ unique l <-> x ∈ l.
Proof.
  induction l as [|y l IH]; [done|]. simpl.
  rewrite !elem_of_cons, list_elem_of_filter, IH.
  destruct (decide (x = y)); [by split; left | split].
  - intros [?|[_ ?]]; [done | by right].
  - intros [?|?]; [done | by right].
Qed.

Lemma masked_no_label {A} activities label (l : list A) :
  label ∉ activities -> masked (eq_mask (Texts activities) label) l = [].
Proof.
  intros Hn. unfold masked, eq_mask.
  induction activities as [|a activities IH] in l, Hn |- *; [done|].
  apply not_elem_of_cons in Hn as [Hne Hn].
  destruct l as [|x l]; [done|]. rewrite fmap_cons. simpl.
  rewrite filter_cons. simpl.
  destruct (String.eqb_spec label a); [done|].
  rewrite decide_False by done. by apply IH.
Qed.

Lemma _calculate_trend_polyfit values :
  (2 <= length values)%nat -> _calculate_trend values = polyfit_slope values.
Proof.
  intros H. unfold _calculate_trend.
  by destruct (Nat.ltb_spec (length values) 2); [lia|].
Qed.

Lemma activity_step_lookup col weeks (m : gmap string Q) a label :
  activity_step col weeks m a !! label
  = if decide (label = a)
    then if (2 <? length (activity_weekly_of col weeks label))%nat
         then Some (_calculate_trend (snd <$> activity_weekly_of col weeks label))
         else m !! label
    else m !! label.
Proof.
  unfold activity_step. destruct (decide (label = a)) as [->|Hne].
  - destruct (2 <? _)%nat; [by rewrite lookup_insert_eq | done].
  - destruct (2 <? _)%nat; [by rewrite lookup_insert_ne | done].
Qed.

(** The dict of the per-activity trends after the loop over [l]. *)
Lemma activity_trends_lookup col weeks l (m : gmap string Q) label :
  foldl (activity_step col weeks) m l !! label
  = if decide (label ∈ l)
    then if (2 <? length (activity_weekly_of col weeks label))%nat
         then Some (_calculate_trend (snd <$> activity_weekly_of col weeks label))
         else m !! label
    else m !! label.
Proof.
  induction l as [|a l IH] in m |- *; [done|]. simpl.
  rewrite IH, activity_step_lookup.
  destruct (decide (label = a)) as [->|Hne].
  - rewrite (decide_True (P := a ∈ a :: l)) by apply list_elem_of_here.
    destruct (decide (a ∈ l)); by destruct (2 <? _)%nat.
  - destruct (decide (label ∈ l)) as [Hin|Hnin].
    + by rewrite decide_True by (by apply list_elem_of_further).
    + rewrite decide_False; [done|]. rewrite elem_of_cons. by intros [?|?].
Qed.

(* ===================================================================== *)
(** * The keys of the results *)

(** C3, as the specification has it, fails: on an empty frame both
    analyses return the empty dict, which has none of the keys; and a frame
    of events from two weeks only gets a dict of trends without the keys
    'overall_trend' and 'trend_direction'. *)
Lemma every_key_present_refuted :
  (exists patterns data',
     analyze_daily_routine no_parse (Frame 0 []) = Ok (patterns, data')
     /\ patterns !! "wake_up_time" = None)
  /\ (exists trends data',
        _analyze_activity_trends (Frame 0 []) = Ok (trends, data')
        /\ trends !! "hourly_distribution" = None)
  /\ (let data :=
        Frame 2 [("datetime", Timestamps [Datetime jan_1 9; Datetime (jan_1 + 7) 9]);
                 ("predicted_activity", Texts ["Work"; "Work"])] in
      exists trends data',
        _analyze_activity_trends data = Ok (trends, data')
        /\ trends !! "overall_trend" = None
        /\ trends !! "trend_direction" = None).
Proof.
  split; [|split].
  - exists ∅, (Frame 0 []). split; reflexivity.
  - exists ∅, (Frame 0 []). split; reflexivity.
  - intros data.
    exists (result_of ∅ (_analyze_activity_trends data)),
           (frame_after data (_analyze_activity_trends data)).
    split; [reflexivity | split; reflexivity].
Qed.

(** C3 (amended).  The dict [analyze_daily_routine] returns is empty when
    the frame is empty or has no 'datetime' column, and has exactly the keys
    'wake_up_time', 'sleep_time', 'hourly_activity', 'peak_hours' and
    'quiet_hours' otherwise.  The dict [_analyze_activity_trends] returns is
    empty when the frame is empty; otherwise it has the keys
    'activity_specific_trends' and 'hourly_distribution', and it has the keys
    'overall_trend' and 'trend_direction' exactly when the events fall in
    three weeks or more. *)
Theorem keys_of_the_results parse_column data :
  (forall patterns data',
     analyze_daily_routine parse_column data = Ok (patterns, data') ->
     if routine_guard data then patterns = ∅
     else dom patterns
          = {[ "wake_up_time"; "sleep_time"; "hourly_activity";
               "peak_hours"; "quiet_hours" ]})
  /\ (forall trends data',
        _analyze_activity_trends data = Ok (trends, data') ->
        if empty data then trends = ∅
        else exists ts,
          getitem "datetime" data = Ok (Timestamps ts)
          /\ is_Some (trends !! "activity_specific_trends")
          /\ is_Some (trends !! "hourly_distribution")
          /\ (is_Some (trends !! "overall_trend")
              <-> (3 <= length (weekly_counts_of ts))%nat)
          /\ (is_Some (trends !! "trend_direction")
              <-> (3 <= length (weekly_counts_of ts))%nat)).
Proof.
  split.
  - intros patterns data' Hrun. destruct (routine_guard data) eqn:Hg.
    + rewrite analyze_daily_routine_guarded in Hrun by done. by injection Hrun.
    + apply analyze_daily_routine_Ok in Hrun
        as (col & ts & wake & sleep & _ & _ & _ & _ & ->); [|done].
      rewrite !dom_insert_L, dom_empty_L. set_solver.
  - intros trends data' Hrun. destruct (empty data) eqn:He.
    + unfold _analyze_activity_trends in Hrun.
      unfold mbind at 1, M_bind at 1, the_frame at 1 in Hrun.
      rewrite He in Hrun. by injection Hrun.
    + apply _analyze_activity_trends_Ok in Hrun
        as (ts & acts & Hts & _ & _ & ->); [|done].
      exists ts. split; [done|].
      split; [rewrite lookup_insert_ne, lookup_insert_eq by done; eauto|].
      split; [rewrite lookup_insert_eq; eauto|].
      rewrite !lookup_insert_ne by done. unfold overall_trends.
      destruct (Nat.ltb_spec 2 (length (weekly_counts_of ts))).
      * rewrite lookup_insert_ne, !lookup_insert_eq by done.
        split; (split; [lia | eauto]).
      * rewrite !lookup_empty. split; (split; [by intros [? ?] | lia]).
Qed.

(** On three events in three weeks. *)
Lemma keys_of_the_results_witness :
  let data := Frame 3 [("datetime",
                        Timestamps [Datetime jan_1 9; Datetime (jan_1 + 7) 12;
                                    Datetime (jan_1 + 14) 8]);
                       ("predicted_activity", Texts ["Work"; "Travel"; "Work"])] in
  dom (result_of ∅ (analyze_daily_routine no_parse data))
  = {[ "wake_up_time"; "sleep_time"; "hourly_activity"; "peak_hours"; "quiet_hours" ]}
  /\ exists ts,
       getitem "datetime" data = Ok (Timestamps ts)
       /\ is_Some (result_of ∅ (_analyze_activity_trends data) !! "activity_specific_trends")
       /\ is_Some (result_of ∅ (_analyze_activity_trends data) !! "hourly_distribution")
       /\ (is_Some (result_of ∅ (_analyze_activity_trends data) !! "overall_trend")
           <-> (3 <= length (weekly_counts_of ts))%nat)
       /\ (is_Some (result_of ∅ (_analyze_activity_trends data) !! "trend_direction")
           <-> (3 <= length (weekly_counts_of ts))%nat).
Proof.
  intros data. split.
  - exact (proj1 (keys_of_the_results no_parse data) _ data eq_refl).
  - exact (proj2 (keys_of_the_results no_parse data) _
             (frame_after data (_analyze_activity_trends data)) eq_refl).
Defined.

(* ===================================================================== *)
(** * [detect_life_events]: the shape of a run *)

Lemma getitem_assign_new name col data :
  has_column name data = false -> getitem name (assign name col data) = Ok col.
Proof.
  intros Hh. unfold getitem, assign. rewrite Hh. simpl.
  rewrite filter_app, filter_cons, filter_nil. simpl.
  rewrite decide_True by done.
  rewrite filter_none; [done|].
  intros c Hc Hn. assert (has_column name data = true); [|congruence].
  apply has_column_spec. eauto.
Qed.

Section LifeEvents.
Variable parse_column : column -> option (list datetime).

Lemma detect_life_events_guarded data :
  events_guard data = true ->
  detect_life_events parse_column data = Ok ([], data).
Proof.
  intros H. unfold detect_life_events, events_guard in *.
  unfold mbind, M_bind, the_frame. by rewrite H.
Qed.

(** A run past the guard: the timestamps are read, the 'date' column is
    set, the anomalies and the travel periods are collected and sorted. *)
Lemma detect_life_events_unfold data :
  events_guard data = false ->
  detect_life_events parse_column data
  = match event_times parse_column data with
    | Raise e => Raise e
    | Ok ts =>
        let data' := with_dates data ts in
        match getitem "date" data' with
        | Raise e => Raise e
        | Ok _ =>
            match volume_anomalies (daily_counts_of ts) with
            | Raise e => Raise e
            | Ok anomalies =>
                match (if has_column "predicted_activity" data'
                       then _detect_travel_patterns data' ts
                       else Ok []) with
                | Raise e => Raise e
                | Ok travel =>
                    Ok (sorted_by (fun a b => event_date a <? event_date b)
                                  (anomalies ++ travel), data')
                end
            end
        end
    end.
Proof.
  intros Hg. unfold detect_life_events, events_guard, event_times, with_dates in *.
  unfold mbind, M_bind, mret, M_ret, the_frame, lift, setitem, outcome_bind, dt.
  cbn beta iota. rewrite Hg.
  destruct (negb (has_column "datetime" data) && has_column "timestamp" data) eqn:Hb.
  - apply andb_true_iff in Hb as [Hnd Ht]. apply negb_true_iff in Hnd.
    destruct (getitem "timestamp" data) as [col|e]; [|done].
    destruct (to_datetime parse_column col) as [ts|e]; [|done].
    rewrite getitem_assign_new by done. cbn beta iota.
    destruct (getitem "date" _) as [c|e]; [|done].
    unfold daily_counts_of.
    destruct (volume_anomalies _) as [anomalies|e]; [|done].
    destruct (has_column "predicted_activity" _); [|done].
    by destruct (_detect_travel_patterns _ _).
  - destruct (getitem "datetime" data) as [col|e]; [|done].
    destruct col as [ts| | | |]; try done.
    destruct (getitem "date" _) as [c|e]; [|done].
    unfold daily_counts_of.
    destruct (volume_anomalies _) as [anomalies|e]; [|done].
    destruct (has_column "predicted_activity" _); [|done].
    by destruct (_detect_travel_patterns _ _).
Qed.

End LifeEvents.

(* ===================================================================== *)
(** * Series: the rolling mean *)

Lemma window_at_length window values i :
  length (window_at window values i)
  = Nat.min (i + window - (window - 1) / 2 - (i - (window - 1) / 2))
            (length values - (i - (window - 1) / 2)).
Proof. unfold window_at. by rewrite length_take, length_drop. Qed.

Lemma window_at_elem_of window values i x :
  x ∈ window_at window values i -> x ∈ values.
Proof.
  unfold window_at. intros H.
  apply list_elem_of_lookup in H as [j Hj].
  apply lookup_take_Some in Hj as [Hj _]. rewrite lookup_drop in Hj.
  by eapply list_elem_of_lookup_2.
Qed.

(** With [min_periods] equal to the window size, 7, a position has a mean
    when the three values before it and the three after it all exist: it
    is the mean of these seven values. *)
Lemma window_mean_7_7 values i :
  window_mean 7 7 values i
  = if decide (3 <= i /\ i + 3 < length values)%nat
    then mean (take 7 (drop (i - 3) values))
    else None.
Proof.
  unfold window_mean. rewrite window_at_length.
  change ((7 - 1) / 2)%nat with 3%nat.
  destruct (decide (3 <= i /\ i + 3 < length values)%nat) as [[H1 H2]|Hn].
  - destruct (Nat.leb_spec 7 (Nat.min (i + 7 - 3 - (i - 3)) (length values - (i - 3))));
      [|lia].
    unfold window_at. change ((7 - 1) / 2)%nat with 3%nat.
    by replace (i + 7 - 3 - (i - 3))%nat with 7%nat by lia.
  - by destruct (Nat.leb_spec 7 (Nat.min (i + 7 - 3 - (i - 3)) (length values - (i - 3))));
      [lia|].
Qed.

Lemma rolling_mean_lookup window min_periods (s : series Z) i :
  rolling_mean window min_periods s !! i
  = (fun row => (fst row, window_mean window min_periods (snd <$> s) i)) <$> s !! i.
Proof. unfold rolling_mean. by rewrite list_lookup_imap. Qed.

Lemma rolling_mean_labels window min_periods (s : series Z) :
  fst <$> rolling_mean window min_periods s = fst <$> s.
Proof.
  apply list_eq. intros i.
  rewrite !list_lookup_fmap, rolling_mean_lookup. by destruct (s !! i).
Qed.

Lemma rolling_mean_ascending window min_periods (s : series Z) :
  ascending s -> ascending (rolling_mean window min_periods s).
Proof. unfold ascending. by rewrite rolling_mean_labels. Qed.

(** The entries of the rolling mean, label by label. *)
Lemma rolling_mean_elem_of window min_periods (s : series Z) day b :
  (day, b) ∈ rolling_mean window min_periods s
  <-> exists i count, s !! i = Some (day, count)
                      /\ b = window_mean window min_periods (snd <$> s) i.
Proof.
  rewrite list_elem_of_lookup. split.
  - intros [i Hi]. rewrite rolling_mean_lookup in Hi.
    destruct (s !! i) as [[d c]|] eqn:E; [|done].
    injection Hi as <- <-. eauto.
  - intros (i & count & Hi & ->). exists i.
    by rewrite rolling_mean_lookup, Hi.
Qed.

(** [rolling_avg.get(date, count)] finds the entry of the date. *)
Lemma rolling_mean_get window min_periods (s : series Z) day b d :
  ascending s ->
  (day, b) ∈ rolling_mean window min_periods s ->
  series_get day d (rolling_mean window min_periods s) = b.
Proof.
  intros Hs Hin. rewrite series_get_find.
  erewrite ascending_find; [done | by apply rolling_mean_ascending | done].
Qed.

(* ===================================================================== *)
(** * Series: mean and variance *)

Lemma Qsquare_nonneg (q : Q) : (0 <= q * q)%Q.
Proof. unfold Qle, Qmult. simpl. nia. Qed.

Lemma Qsquare_zero (q : Q) : (q * q == 0)%Q -> (q == 0)%Q.
Proof. unfold Qeq, Qmult. simpl. nia. Qed.

Lemma sumQ_nonneg (l : list Q) : (forall q, q ∈ l -> (0 <= q)%Q) -> (0 <= sumQ l)%Q.
Proof.
  induction l as [|q l IH]; intros Hl; simpl; [apply Qle_refl|].
  pose proof (Hl q (list_elem_of_here _ _)).
  assert (0 <= sumQ l)%Q by (apply IH; intros; apply Hl; by apply list_elem_of_further).
  lra.
Qed.

Lemma sumQ_zero (l : list Q) :
  (forall q, q ∈ l -> (0 <= q)%Q) -> (sumQ l == 0)%Q -> forall q, q ∈ l -> (q == 0)%Q.
Proof.
  induction l as [|q l IH]; intros Hl Hz x Hx; [by apply elem_of_nil in Hx|].
  simpl in Hz.
  pose proof (Hl q (list_elem_of_here _ _)).
  assert (Hl' : forall q, q ∈ l -> (0 <= q)%Q)
    by (intros; apply Hl; by apply list_elem_of_further).
  pose proof (sumQ_nonneg l Hl').
  apply elem_of_cons in Hx as [->|Hx]; [lra|].
  apply IH; [done | lra | done].
Qed.

Lemma inject_Z_length_pos (n : nat) : (0 < n)%nat -> (0 < inject_Z (Z.of_nat n))%Q.
Proof. intros H. unfold Qlt. simpl. lia. Qed.

Lemma var_Some ddof l v :
  var ddof l = Some v ->
  (ddof < length l)%nat
  /\ exists avg,
       mean l = Some avg
       /\ v = (sumQ ((fun x => (inject_Z x - avg) * (inject_Z x - avg))%Q <$> l)
               / inject_Z (Z.of_nat (length l - ddof)))%Q.
Proof.
  unfold var. destruct (Nat.leb_spec (length l) ddof); [done|].
  destruct (mean l) as [avg|]; [|done]. intros [= <-]. eauto.
Qed.

Lemma squares_nonneg (avg : Q) (l : list Z) q :
  q ∈ (fun x => (inject_Z x - avg) * (inject_Z x - avg))%Q <$> l -> (0 <= q)%Q.
Proof. intros (x & -> & _)%list_elem_of_fmap. apply Qsquare_nonneg. Qed.

(** A variance is not negative. *)
Lemma var_nonneg ddof l v : var ddof l = Some v -> (0 <= v)%Q.
Proof.
  intros (Hlen & avg & _ & ->)%var_Some.
  apply Qle_shift_div_l; [apply inject_Z_length_pos; lia|].
  rewrite Qmult_0_l. apply sumQ_nonneg, squares_nonneg.
Qed.

(** A variance of zero: the values are all the same. *)
Lemma var_zero ddof l v :
  var ddof l = Some v -> (v == 0)%Q -> forall x y, x ∈ l -> y ∈ l -> x = y.
Proof.
  intros (Hlen & avg & _ & ->)%var_Some Hz.
  assert (Hn : (0 < inject_Z (Z.of_nat (length l - ddof)))%Q)
    by (apply inject_Z_length_pos; lia).
  assert (Hs : (sumQ ((fun x => (inject_Z x - avg) * (inject_Z x - avg))%Q <$> l) == 0)%Q).
  { rewrite <- (Qmult_div_r (sumQ _) (inject_Z (Z.of_nat (length l - ddof)))) by lra.
    rewrite Hz. lra. }
  assert (Havg : forall x, x ∈ l -> (inject_Z x == avg)%Q).
  { intros x Hx.
    assert (((inject_Z x - avg) * (inject_Z x - avg)) == 0)%Q as Hsq.
    { apply (sumQ_zero _ (squares_nonneg avg l) Hs).
      by apply (list_elem_of_fmap_2 (fun x => (inject_Z x - avg) * (inject_Z x - avg))%Q). }
    apply Qsquare_zero in Hsq. lra. }
  intros x y Hx Hy. apply Havg in Hx, Hy.
  rewrite <- Hy in Hx. unfold Qeq in Hx. simpl in Hx. lia.
Qed.

Lemma sumZ_const (l : list Z) c :
  (forall x, x ∈ l -> x = c) -> sumZ l = c * Z.of_nat (length l).
Proof.
  induction l as [|x l IH]; intros Hl; simpl; [lia|].
  rewrite IH by (intros; apply Hl; by apply list_elem_of_further).
  rewrite (Hl x) by apply list_elem_of_here. lia.
Qed.

(** The mean of values that are all [c] is [c]. *)
Lemma mean_const (l : list Z) c q :
  (forall x, x ∈ l -> x = c) -> mean l = Some q -> (q == inject_Z c)%Q.
Proof.
  intros Hl Hm. destruct l as [|x l]; [done|].
  assert (q = (inject_Z (sumZ (x :: l)) / inject_Z (Z.of_nat (length (x :: l))))%Q)
    as -> by (unfold mean in Hm; congruence).
  rewrite (sumZ_const _ c Hl), inject_Z_mult.
  apply Qdiv_mult_l.
  assert (0 < inject_Z (Z.of_nat (length (x :: l))))%Q
    by (apply inject_Z_length_pos; simpl; lia).
  lra.
Qed.

(* ===================================================================== *)
(** * The loop over the daily counts *)

Lemma anomaly_confidence_Ok count e s c :
  anomaly_confidence count e s = Ok c <->
  mis_zero s = false
  /\ c = mmin (mscale (1 # 3) (mquot (mabs (inject_Z count - e)) s)) (mconst 1).
Proof.
  unfold anomaly_confidence, divide. destruct (mis_zero s); simpl.
  - split; [done | by intros [? _]].
  - split; [by intros [= <-] | by intros [_ ->]].
Qed.

Lemma anomaly_confidence_Raise count e s err :
  anomaly_confidence count e s = Raise err ->
  mis_zero s = true /\ err = ZeroDivisionError.
Proof.
  unfold anomaly_confidence, divide. destruct (mis_zero s); simpl; [|done].
  by intros [= <-].
Qed.

(** Every event of the loop is the anomaly record of an item whose count
    deviates from its baseline. *)
Lemma volume_loop_sound rolling_avg sd items events ev :
  volume_loop rolling_avg sd items = Ok events ->
  ev ∈ events ->
  exists day count e s c,
    (day, count) ∈ items
    /\ series_get day (Some (inject_Z count)) rolling_avg = Some e
    /\ sd = Some s
    /\ deviates count e s = true
    /\ anomaly_confidence count e s = Ok c
    /\ ev = Anomaly day (anomaly_type count e) c count e.
Proof.
  induction items as [|[day count] items IH] in events |- *; simpl.
  - intros [= <-] Hin. by apply elem_of_nil in Hin.
  - intros H Hin.
    apply bind_Ok in H as (event & Hevent & H).
    apply bind_Ok in H as (rest & Hrest & [= <-]).
    apply elem_of_app in Hin as [Hin|Hin].
    + destruct (series_get day _ rolling_avg) as [e|] eqn:He;
        [|injection Hevent as <-; by apply elem_of_nil in Hin].
      destruct sd as [s|];
        [|injection Hevent as <-; by apply elem_of_nil in Hin].
      destruct (deviates count e s) eqn:Hd;
        [|injection Hevent as <-; by apply elem_of_nil in Hin].
      apply bind_Ok in Hevent as (c & Hc & [= <-]).
      apply list_elem_of_singleton in Hin as ->.
      exists day, count, e, s, c.
      split; [apply list_elem_of_here | done].
    + destruct (IH _ Hrest Hin) as (d' & c' & e' & s' & cf & Hi & ?).
      exists d', c', e', s', cf. split; [by apply list_elem_of_further | done].
Qed.

(** Every item whose count deviates from its baseline has its anomaly
    record among the events. *)
Lemma volume_loop_complete rolling_avg sd items events day count e s :
  volume_loop rolling_avg sd items = Ok events ->
  (day, count) ∈ items ->
  series_get day (Some (inject_Z count)) rolling_avg = Some e ->
  sd = Some s ->
  deviates count e s = true ->
  exists c, anomaly_confidence count e s = Ok c
            /\ Anomaly day (anomaly_type count e) c count e ∈ events.
Proof.
  intros H Hin He -> Hd.
  induction items as [|[day' count'] items IH] in events, H, Hin |- *;
    [by apply elem_of_nil in Hin|].
  simpl in H.
  apply bind_Ok in H as (event & Hevent & H).
  apply bind_Ok in H as (rest & Hrest & [= <-]).
  apply elem_of_cons in Hin as [[= <- <-]|Hin].
  - rewrite He, Hd in Hevent.
    apply bind_Ok in Hevent as (c & Hc & [= <-]).
    exists c. split; [done|]. apply elem_of_app. left. apply list_elem_of_here.
  - destruct (IH _ Hrest Hin) as (c & Hc & Hev).
    exists c. split; [done|]. apply elem_of_app. by right.
Qed.

(** The loop raises only on a division by a standard deviation of zero. *)
Lemma volume_loop_Raise rolling_avg sd items err :
  volume_loop rolling_avg sd items = Raise err ->
  err = ZeroDivisionError
  /\ exists day count e s,
       (day, count) ∈ items
       /\ series_get day (Some (inject_Z count)) rolling_avg = Some e
       /\ sd = Some s
       /\ deviates count e s = true
       /\ mis_zero s = true.
Proof.
  induction items as [|[day count] items IH]; simpl; [done|].
  intros H. apply bind_Raise in H as [H|(event & Hevent & H)].
  - destruct (series_get day _ rolling_avg) as [e|] eqn:He; [|done].
    destruct sd as [s|]; [|done].
    destruct (deviates count e s) eqn:Hd; [|done].
    apply bind_Raise in H as [H|(c & _ & H)]; [|done].
    apply anomaly_confidence_Raise in H as [Hz ->].
    split; [done|]. exists day, count, e, s.
    split; [apply list_elem_of_here | done].
  - apply bind_Raise in H as [H|(rest & _ & H)]; [|done].
    destruct (IH H) as [-> (d' & c' & e' & s' & Hi & ?)].
    split; [done|]. exists d', c', e', s'.
    split; [by apply list_elem_of_further | done].
Qed.

Lemma series_get_cases {A} day (d : A) (s : series A) :
  series_get day d s = d \/ (day, series_get day d s) ∈ s.
Proof.
  rewrite series_get_find. destruct (series_find day s) as [v|] eqn:E; simpl.
  - right. by apply series_find_elem_of.
  - by left.
Qed.

(** On a series whose standard deviation is zero no count deviates from
    its baseline: the counts are all the same, and so are the means. *)
Lemma flat_series_no_deviation (s : series Z) sd day count e :
  std (snd <$> s) = Some sd ->
  mis_zero sd = true ->
  (day, count) ∈ s ->
  series_get day (Some (inject_Z count)) (rolling_avg_7 s) = Some e ->
  deviates count e sd = false.
Proof.
  unfold std, std_ddof. intros Hsd Hz Hin He.
  destruct (var 1 (snd <$> s)) as [v|] eqn:Hv; [|done].
  injection Hsd as <-. apply mis_zero_spec in Hz. simpl in Hz.
  assert (Hcount : count ∈ snd <$> s)
    by (by apply (list_elem_of_fmap_2 snd _ (day, count))).
  assert (Hflat : forall x, x ∈ snd <$> s -> x = count)
    by (intros x Hx; by apply (var_zero _ _ _ Hv Hz)).
  assert (Heq : (e == inject_Z count)%Q).
  { destruct (series_get_cases day (Some (inject_Z count)) (rolling_avg_7 s))
      as [Hd|Hr]; rewrite He in *.
    - by injection Hd as ->.
    - apply rolling_mean_elem_of in Hr as (i & c' & _ & Hm).
      unfold window_mean in Hm. destruct (7 <=? _)%nat; [|done].
      symmetry in Hm. apply (mean_const _ count) in Hm; [done|].
      intros x Hx. by apply Hflat, (window_at_elem_of 7 _ i). }
  unfold deviates, mgt. apply negb_false_iff, Qle_bool_iff. simpl.
  rewrite Heq, Hz. lra.
Qed.

(** The loop over the daily counts of a series never raises. *)
Lemma volume_anomalies_total (s : series Z) :
  exists events, volume_anomalies s = Ok events.
Proof.
  unfold volume_anomalies.
  destruct (volume_loop _ _ s) as [events|err] eqn:H; [eauto|].
  apply volume_loop_Raise in H as [_ (day & count & e & sd & Hin & He & Hsd & Hd & Hz)].
  by rewrite (flat_series_no_deviation s sd day count e) in Hd.
Qed.

Lemma volume_anomalies_flat (s : series Z) sd :
  std (snd <$> s) = Some sd -> mis_zero sd = true -> volume_anomalies s = Ok [].
Proof.
  intros Hsd Hz. destruct (volume_anomalies_total s) as [events H].
  rewrite H. f_equal. destruct events as [|ev events]; [done|].
  unfold volume_anomalies in H.
  destruct (volume_loop_sound _ _ _ _ ev H (list_elem_of_here _ _))
    as (day & count & e & sd' & c & Hin & He & Hsd' & Hd & _).
  rewrite Hsd in Hsd'. injection Hsd' as <-.
  by rewrite (flat_series_no_deviation s sd day count e) in Hd.
Qed.

Lemma volume_loop_anomalies rolling_avg sd items events ev :
  volume_loop rolling_avg sd items = Ok events -> ev ∈ events -> is_anomaly ev = true.
Proof.
  intros H Hin.
  by destruct (volume_loop_sound _ _ _ _ _ H Hin) as (? & ? & ? & ? & ? & _ & _ & _ & _ & _ & ->).
Qed.

(* ===================================================================== *)
(** * Sorting keeps the elements *)

Lemma insort_Permutation {A} (before : A -> A -> bool) x l :
  insort before x l ≡ₚ x :: l.
Proof.
  induction l as [|y l IH]; [done|]. simpl.
  destruct (before x y); [done|]. rewrite IH. apply Permutation_swap.
Qed.

Lemma sorted_by_Permutation {A} (before : A -> A -> bool) l :
  sorted_by before l ≡ₚ l.
Proof.
  unfold sorted_by. induction l as [|x l IH] using rev_ind; [done|].
  rewrite foldl_snoc, insort_Permutation, IH.
  by rewrite Permutation_app_comm.
Qed.

Lemma elem_of_sorted_by {A} (before : A -> A -> bool) l x :
  x ∈ sorted_by before l <-> x ∈ l.
Proof. by rewrite sorted_by_Permutation. Qed.

(* ===================================================================== *)
(** * [detect_life_events]: the anomalies among the events *)

Lemma travel_events_not_anomalies periods ev :
  ev ∈ travel_events periods -> is_anomaly ev = false.
Proof.
  unfold travel_events. intros (period & Hp & Hev)%list_elem_of_omap.
  destruct period as [|first rest]; [done|].
  destruct (2 <=? _)%nat; [|done]. by injection Hev as <-.
Qed.

Lemma _detect_travel_patterns_not_anomalies data ts travel ev :
  _detect_travel_patterns data ts = Ok travel -> ev ∈ travel -> is_anomaly ev = false.
Proof.
  unfold _detect_travel_patterns. intros H Hin.
  apply bind_Ok in H as (activity & _ & H).
  destruct (masked _ ts); injection H as <-.
  - by apply elem_of_nil in Hin.
  - by eapply travel_events_not_anomalies.
Qed.

Section LifeEventsAnomalies.
Variable parse_column : column -> option (list datetime).

(** The anomaly records among the events of a run past the guard are
    those of the loop over the daily counts. *)
Lemma detect_life_events_anomalies data events data' :
  events_guard data = false ->
  detect_life_events parse_column data = Ok (events, data') ->
  exists ts anomalies,
    event_times parse_column data = Ok ts
    /\ data' = with_dates data ts
    /\ volume_anomalies (daily_counts_of ts) = Ok anomalies
    /\ forall ev, is_anomaly ev = true -> (ev ∈ events <-> ev ∈ anomalies).
Proof.
  intros Hg. rewrite detect_life_events_unfold by done.
  destruct (event_times parse_column data) as [ts|]; [|done]. cbv zeta.
  destruct (getitem "date" _); [|done].
  destruct (volume_anomalies _) as [anomalies|] eqn:Ha; [|done].
  destruct (if has_column "predicted_activity" _ then _ else _)
    as [travel|] eqn:Ht; [|done].
  intros [= <- <-]. exists ts, anomalies.
  split; [done|]. split; [done|]. split; [done|].
  intros ev Hev. rewrite elem_of_sorted_by, elem_of_app.
  split; [|by left]. intros [?|Hin]; [done|].
  destruct (has_column "predicted_activity" _).
  - apply (_detect_travel_patterns_not_anomalies _ _ _ ev) in Ht; [congruence|done].
  - injection Ht as <-. by apply elem_of_nil in Hin.
Qed.

(** A run does not fail on a division. *)
Lemma detect_life_events_no_division_fault data :
  detect_life_events parse_column data <> Raise ZeroDivisionError.
Proof.
  destruct (events_guard data) eqn:Hg.
  - by rewrite detect_life_events_guarded.
  - rewrite detect_life_events_unfold by done.
    destruct (event_times parse_column data) as [ts|e] eqn:Het.
    + cbv zeta.
      destruct (getitem "date" _) as [?|e] eqn:Hd.
      * destruct (volume_anomalies_total (daily_counts_of ts)) as [an ->].
        destruct (has_column "predicted_activity" _) eqn:Hh; [|done].
        unfold _detect_travel_patterns.
        destruct (getitem "predicted_activity" _) as [?|e] eqn:Hp; simpl.
        -- by destruct (masked _ ts).
        -- unfold getitem in Hp.
           destruct (filter _ _) as [|? [|]]; congruence.
      * unfold getitem in Hd. destruct (filter _ _) as [|? [|]]; congruence.
    + unfold event_times in Het.
      destruct (negb _ && _).
      * apply bind_Raise in Het as [Het|(col & _ & Het)].
        -- unfold getitem in Het. destruct (filter _ _) as [|? [|]]; congruence.
        -- unfold to_datetime in Het.
           destruct col; try (destruct (parse_column _)); congruence.
      * apply bind_Raise in Het as [Het|(col & _ & Het)].
        -- unfold getitem in Het. destruct (filter _ _) as [|? [|]]; congruence.
        -- unfold dt in Het. destruct col; congruence.
Qed.

End LifeEventsAnomalies.

(* ===================================================================== *)
(** * The threshold and the confidence, as real numbers *)

Section Reading.
Local Open Scope R_scope.

Lemma Q2R_inject_Z (z : Z) : Q2R (inject_Z z) = IZR z.
Proof. unfold Q2R. simpl. Lra.lra. Qed.

Lemma Q2R_deviation (count : Z) (e : Q) :
  Q2R (inject_Z count - e) = IZR count - Q2R e.
Proof. by rewrite Q2R_minus, Q2R_inject_Z. Qed.

Lemma std_square_nonneg ddof l sd : std_ddof ddof l = Some sd -> (0 <= square sd)%Q.
Proof.
  unfold std_ddof. destruct (var ddof l) as [v|] eqn:Hv; [|done].
  intros [= <-]. simpl. by eapply var_nonneg.
Qed.

(** [deviates] is the comparison [abs(count - expected) > 2 * std]. *)
Lemma deviates_real count e sd :
  (0 <= square sd)%Q ->
  deviates count e sd = true <-> Rabs (IZR count - Q2R e) > 2 * to_R sd.
Proof.
  intros Hsd. unfold deviates.
  rewrite mgt_spec, to_R_mabs, to_R_mscale, Q2R_deviation; try done.
  - replace (Q2R 2) with 2; [done|]. unfold Q2R. simpl. Lra.lra.
  - simpl. apply Qsquare_nonneg.
  - simpl. apply Qmult_le_0_compat; [done | exact Hsd].
Qed.

Lemma mis_zero_real sd :
  (0 <= square sd)%Q -> mis_zero sd = true <-> to_R sd = 0.
Proof.
  intros Hsd. rewrite mis_zero_spec. unfold to_R. split.
  - intros ->. rewrite RMicromega.Q2R_0. apply sqrt_0.
  - intros H. apply sqrt_eq_0 in H; [|by apply Q2R_nonneg].
    apply eqR_Qeq. by rewrite RMicromega.Q2R_0.
Qed.

(** The confidence of an anomaly record is
    [min(abs(count - expected) / std / 3, 1.0)]. *)
Lemma anomaly_confidence_real count e sd c :
  (0 <= square sd)%Q ->
  anomaly_confidence count e sd = Ok c ->
  to_R c = Rmin (Rabs (IZR count - Q2R e) / to_R sd / 3) 1.
Proof.
  intros Hsd [Hz ->]%anomaly_confidence_Ok.
  assert (Hpos : (0 < square sd)%Q).
  { destruct (Qlt_le_dec 0 (square sd)) as [|Hle]; [done|].
    assert (square sd == 0)%Q as Hzero by lra.
    apply mis_zero_spec in Hzero. congruence. }
  assert (Hq : (0 <= square (mquot (mabs (inject_Z count - e)) sd))%Q).
  { simpl. apply Qle_shift_div_l; [done|]. rewrite Qmult_0_l.
    apply Qsquare_nonneg. }
  rewrite to_R_mmin, to_R_mscale, to_R_mquot, to_R_mabs, to_R_mconst,
    Q2R_deviation; try done.
  - replace (Q2R 1) with 1 by (unfold Q2R; simpl; Lra.lra).
    replace (Q2R (1 # 3)) with (/ 3) by (unfold Q2R; simpl; Lra.lra).
    f_equal. unfold Rdiv. Lra.lra.
  - simpl. apply Qsquare_nonneg.
  - simpl square at 1. apply Qmult_le_0_compat; [done | exact Hq].
Qed.

(** An anomaly record is emitted beyond two standard deviations, so its
    confidence is above 2/3; the minimum with 1 caps it. *)
Lemma anomaly_confidence_bounds count e sd c :
  (0 <= square sd)%Q ->
  deviates count e sd = true ->
  anomaly_confidence count e sd = Ok c ->
  2 / 3 < to_R c <= 1.
Proof.
  intros Hsd Hd Hc. rewrite (anomaly_confidence_real _ _ _ _ Hsd Hc).
  apply anomaly_confidence_Ok in Hc as [Hz _].
  apply deviates_real in Hd; [|done].
  assert (Hsd0 : to_R sd <> 0).
  { intros H0. apply mis_zero_real in H0; [congruence | done]. }
  pose proof (to_R_nonneg sd) as Hnn.
  assert (Hpos : 0 < to_R sd) by Lra.lra.
  assert (Hsev : 2 < Rabs (IZR count - Q2R e) / to_R sd).
  { apply Rmult_lt_reg_r with (to_R sd); [done|].
    unfold Rdiv. rewrite Rmult_assoc, Rinv_l by done. Lra.lra. }
  split.
  - apply Rmin_glb_lt; Lra.lra.
  - apply Rmin_r.
Qed.

End Reading.

(* ===================================================================== *)
(** * Volume anomalies: claims *)

Lemma ascending_functional {A} (s : series A) k v v' :
  ascending s -> (k, v) ∈ s -> (k, v') ∈ s -> v = v'.
Proof.
  intros Hs H1 H2. apply (ascending_find _ _ _ Hs) in H1, H2. congruence.
Qed.

Lemma daily_counts_ascending ts : ascending (daily_counts_of ts).
Proof. apply groupby_ascending. Qed.

Lemma window_mean_Some_length window min_periods values i e :
  window_mean window min_periods values i = Some e ->
  (min_periods <= length values)%nat /\ (0 < length values)%nat.
Proof.
  unfold window_mean. destruct (Nat.leb_spec min_periods (length (window_at window values i)));
    [|done].
  intros Hm.
  assert (length (window_at window values i) <= length values)%nat.
  { rewrite window_at_length. lia. }
  split; [lia|]. destruct values; [|simpl; lia].
  unfold window_at in Hm. by rewrite drop_nil, take_nil in Hm.
Qed.

Lemma std_defined l : (2 <= length l)%nat -> exists sd, std l = Some sd.
Proof.
  intros H. unfold std, std_ddof, var.
  destruct (Nat.leb_spec (length l) 1); [lia|].
  destruct l; [simpl in H; lia|]. simpl. eauto.
Qed.

Section VolumeAnomalies.
Variable parse_column : column -> option (list datetime).
Local Open Scope R_scope.

(** The anomaly records of a run, date by date. *)
Lemma flagged_iff data events data' ts day count e :
  events_guard data = false ->
  detect_life_events parse_column data = Ok (events, data') ->
  event_times parse_column data = Ok ts ->
  (day, count) ∈ daily_counts_of ts ->
  (day, Some e) ∈ rolling_avg_7 (daily_counts_of ts) ->
  exists sd,
    std (snd <$> daily_counts_of ts) = Some sd
    /\ (flagged day events <-> deviates count e sd = true)
    /\ forall ev, ev ∈ events -> is_anomaly ev = true -> event_date ev = day ->
         exists c, anomaly_confidence count e sd = Ok c
                   /\ ev = Anomaly day (anomaly_type count e) c count e.
Proof.
  intros Hg Hrun Hts Hcount Hbase.
  destruct (detect_life_events_anomalies _ _ _ _ Hg Hrun)
    as (ts' & anomalies & Hts' & _ & Han & Hev).
  rewrite Hts in Hts'. injection Hts' as <-.
  pose proof (daily_counts_ascending ts) as Hasc.
  assert (Hget : forall d, series_get day d (rolling_avg_7 (daily_counts_of ts)) = Some e)
    by (intros d; by apply rolling_mean_get).
  destruct (std_defined (snd <$> daily_counts_of ts)) as [sd Hsd].
  { apply rolling_mean_elem_of in Hbase as (i & c' & _ & Hm). symmetry in Hm.
    apply window_mean_Some_length in Hm. lia. }
  exists sd. split; [done|].
  assert (Hrecord : forall ev, ev ∈ events -> is_anomaly ev = true -> event_date ev = day ->
            deviates count e sd = true
            /\ exists c, anomaly_confidence count e sd = Ok c
                         /\ ev = Anomaly day (anomaly_type count e) c count e).
  { intros ev Hin Hanom Hday. apply Hev in Hin; [|done].
    unfold volume_anomalies in Han.
    destruct (volume_loop_sound _ _ _ _ _ Han Hin)
      as (day' & count' & e' & sd' & c & Hi & He & Hsd' & Hd & Hc & ->).
    simpl in Hday. subst day'.
    rewrite (ascending_functional _ _ _ _ Hasc Hi Hcount) in *.
    rewrite Hget in He. injection He as <-.
    rewrite Hsd in Hsd'. injection Hsd' as <-. eauto. }
  split.
  - split.
    + intros (ev & Hin & Hanom & Hday). by apply Hrecord in Hin as [? _].
    + intros Hd. unfold volume_anomalies in Han.
      destruct (volume_loop_complete _ _ _ _ day count e sd Han Hcount (Hget _) Hsd Hd)
        as (c & _ & Hin).
      exists (Anomaly day (anomaly_type count e) c count e).
      split; [by apply Hev | done].
  - intros ev Hin Hanom Hday. by apply Hrecord in Hin as [_ ?].
Qed.

Lemma rounding_margin_real : 0 < Q2R rounding_margin < 1.
Proof. unfold rounding_margin, Q2R. simpl. Lra.lra. Qed.

(** C1 (amended).  In a run of [detect_life_events] past the guard (a
    frame of ten rows or more), for a date of the per-date count series that
    has a rolling baseline, the test is against 2 times the sample standard
    deviation ([ddof = 1], the pandas default) of the whole series of daily
    counts: an anomaly record is emitted when the absolute difference
    between the count of the day and the baseline is above that threshold,
    and none is emitted when it is below, in both cases by more than the
    rounding of the floats.  The record is of type 'high_activity' when the
    count is above the baseline and 'low_activity' otherwise. *)
Theorem anomaly_beyond_two_sample_std data events data' ts day count e :
  events_guard data = false ->
  detect_life_events parse_column data = Ok (events, data') ->
  event_times parse_column data = Ok ts ->
  (day, count) ∈ daily_counts_of ts ->
  (day, Some e) ∈ rolling_avg_7 (daily_counts_of ts) ->
  exists sd,
    std_ddof 1 (snd <$> daily_counts_of ts) = Some sd
    /\ (Rabs (IZR count - Q2R e) > (1 + Q2R rounding_margin) * (2 * to_R sd) ->
        flagged day events)
    /\ (Rabs (IZR count - Q2R e) < (1 - Q2R rounding_margin) * (2 * to_R sd) ->
        ~ flagged day events)
    /\ forall ev, ev ∈ events -> is_anomaly ev = true -> event_date ev = day ->
         exists c,
           ev = Anomaly day (if Qle_bool (inject_Z count) e
                             then low_activity else high_activity) c count e.
Proof.
  intros Hg Hrun Hts Hcount Hbase.
  destruct (flagged_iff _ _ _ _ _ _ _ Hg Hrun Hts Hcount Hbase)
    as (sd & Hsd & Hiff & Hrec).
  exists sd. split; [done|].
  pose proof (deviates_real count e sd (std_square_nonneg _ _ _ Hsd)) as Hd.
  pose proof (to_R_nonneg sd) as Hnn.
  pose proof rounding_margin_real as Hm.
  assert (Hp : 0 <= Q2R rounding_margin * (2 * to_R sd)).
  { apply Rmult_le_pos; Lra.lra. }
  split; [|split].
  - intros H. apply Hiff, Hd. Lra.lra.
  - intros H Hf. apply Hiff, Hd in Hf. Lra.lra.
  - intros ev Hin Hanom Hday.
    destruct (Hrec ev Hin Hanom Hday) as (c & _ & ->). by exists c.
Qed.

End VolumeAnomalies.

(** On daily counts 5, ..., 5, 50, 5, ..., 5 (15 days): the eighth day has
    the baseline 80/7. *)
Lemma anomaly_beyond_two_sample_std_witness :
  let ts := events_of_counts jan_1 [5; 5; 5; 5; 5; 5; 5; 50; 5; 5; 5; 5; 5; 5; 5] in
  let run := detect_life_events no_parse (frame_of ts) in
  exists sd,
    std_ddof 1 (snd <$> daily_counts_of ts) = Some sd
    /\ ((Rabs (IZR 50 - Q2R (80 # 7)) > (1 + Q2R rounding_margin) * (2 * to_R sd))%R ->
        flagged (jan_1 + 7) (result_of [] run))
    /\ ((Rabs (IZR 50 - Q2R (80 # 7)) < (1 - Q2R rounding_margin) * (2 * to_R sd))%R ->
        ~ flagged (jan_1 + 7) (result_of [] run))
    /\ forall ev, ev ∈ result_of [] run -> is_anomaly ev = true ->
         event_date ev = jan_1 + 7 ->
         exists c,
           ev = Anomaly (jan_1 + 7)
                  (if Qle_bool (inject_Z 50) (80 # 7)
                   then low_activity else high_activity) c 50 (80 # 7).
Proof.
  intros ts run.
  apply (anomaly_beyond_two_sample_std no_parse (frame_of ts)
           (result_of [] run) (frame_after (frame_of ts) run) ts).
  - reflexivity.
  - vm_compute. reflexivity.
  - reflexivity.
  - apply (list_elem_of_lookup_2 _ 7). vm_compute. reflexivity.
  - apply (list_elem_of_lookup_2 _ 7). vm_compute. reflexivity.
Defined.

(** The rounding of the floats decides where the difference is the
    threshold itself: with daily counts 2, 2, 8, 14, 4, 8, 4, 2, 7 the
    sample standard deviation is 4 and the fourth day, of baseline 6 and
    count 14, is exactly 2 standard deviations off. *)
Example difference_at_the_threshold :
  let ts := events_of_counts jan_1 [2; 2; 8; 14; 4; 8; 4; 2; 7] in
  exists sd,
    std_ddof 1 (snd <$> daily_counts_of ts) = Some sd
    /\ (jan_1 + 3, 14) ∈ daily_counts_of ts
    /\ (jan_1 + 3, Some (42 # 7)) ∈ rolling_avg_7 (daily_counts_of ts)
    /\ (Rabs (IZR 14 - Q2R (42 # 7)) = 2 * to_R sd)%R.
Proof.
  intros ts.
  destruct (std_ddof 1 (snd <$> daily_counts_of ts)) as [sd|] eqn:Hsd;
    [|vm_compute in Hsd; discriminate].
  exists sd. split; [done|].
  split; [apply (list_elem_of_lookup_2 _ 3); vm_compute; reflexivity|].
  split; [apply (list_elem_of_lookup_2 _ 3); vm_compute; reflexivity|].
  vm_compute in Hsd. injection Hsd as <-.
  unfold to_R. cbn [square].
  replace (Q2R (19212113318015887488 # 1200757082375992968)) with (4 * 4)%R
    by (unfold Q2R; simpl; Lra.lra).
  replace (14 - Q2R (42 # 7))%R with 8%R by (unfold Q2R; simpl; Lra.lra).
  rewrite sqrt_square by Lra.lra. rewrite Rabs_pos_eq by Lra.lra. Lra.lra.
Qed.

(** C1, as the specification has it, fails: with daily counts 1, 1, 1, 3,
    1, 1, 2 the fourth day has the baseline 10/7, and its count of 3 is
    further from it than twice the population standard deviation of the
    series, but not further than twice the sample standard deviation: no
    anomaly record is emitted. *)
Lemma population_std_refuted :
  let ts := events_of_counts jan_1 [1; 1; 1; 3; 1; 1; 2] in
  exists sd,
    population_std (snd <$> daily_counts_of ts) = Some sd
    /\ (jan_1 + 3, 3) ∈ daily_counts_of ts
    /\ (jan_1 + 3, Some (10 # 7)) ∈ rolling_avg_7 (daily_counts_of ts)
    /\ (Rabs (IZR 3 - Q2R (10 # 7)) > 2 * to_R sd)%R
    /\ detect_life_events no_parse (frame_of ts)
       = Ok ([], with_dates (frame_of ts) ts).
Proof.
  intros ts.
  destruct (population_std (snd <$> daily_counts_of ts)) as [sd|] eqn:Hsd;
    [|vm_compute in Hsd; discriminate].
  exists sd. split; [done|].
  split; [apply (list_elem_of_lookup_2 _ 3); vm_compute; reflexivity|].
  split; [apply (list_elem_of_lookup_2 _ 3); vm_compute; reflexivity|].
  split; [|vm_compute; reflexivity].
  apply deviates_real; [by eapply std_square_nonneg|].
  vm_compute in Hsd. injection Hsd as <-. vm_compute. reflexivity.
Qed.

Section Baseline.
Variable parse_column : column -> option (list datetime).

(** A date without a baseline gets no anomaly record. *)
Lemma not_flagged_without_baseline data events data' ts day :
  events_guard data = false ->
  detect_life_events parse_column data = Ok (events, data') ->
  event_times parse_column data = Ok ts ->
  (day, None) ∈ rolling_avg_7 (daily_counts_of ts) ->
  ~ flagged day events.
Proof.
  intros Hg Hrun Hts Hbase (ev & Hin & Hanom & Hday).
  destruct (detect_life_events_anomalies _ _ _ _ Hg Hrun)
    as (ts' & anomalies & Hts' & _ & Han & Hev).
  rewrite Hts in Hts'. injection Hts' as <-.
  apply Hev in Hin; [|done]. unfold volume_anomalies in Han.
  destruct (volume_loop_sound _ _ _ _ _ Han Hin)
    as (day' & count' & e' & sd' & c & Hi & He & _ & _ & _ & ->).
  simpl in Hday. subst day'.
  rewrite (rolling_mean_get 7 7 _ day None) in He;
    [done | apply daily_counts_ascending | done].
Qed.

(** C2 (amended).  In [detect_life_events] the rolling baseline of a date
    is the mean of the seven daily counts centred on it.  The first three
    and the last three dates of the series, and every date of a series of
    fewer than seven dates, have no baseline (NaN): such a date is skipped,
    no anomaly record is emitted for it. *)
Theorem baseline_is_full_window_mean data events data' ts i day count :
  events_guard data = false ->
  detect_life_events parse_column data = Ok (events, data') ->
  event_times parse_column data = Ok ts ->
  daily_counts_of ts !! i = Some (day, count) ->
  let counts := snd <$> daily_counts_of ts in
  rolling_avg_7 (daily_counts_of ts) !! i
  = Some (day, if decide (3 <= i /\ i + 3 < length counts)%nat
               then mean (take 7 (drop (i - 3) counts))
               else None)
  /\ (~ (3 <= i /\ i + 3 < length counts)%nat -> ~ flagged day events).
Proof.
  intros Hg Hrun Hts Hi counts.
  assert (Hr : rolling_avg_7 (daily_counts_of ts) !! i
               = Some (day, if decide (3 <= i /\ i + 3 < length counts)%nat
                            then mean (take 7 (drop (i - 3) counts))
                            else None)).
  { unfold rolling_avg_7. rewrite rolling_mean_lookup, Hi. simpl.
    by rewrite window_mean_7_7. }
  split; [done|]. intros Hn.
  apply (not_flagged_without_baseline data events data' ts); try done.
  rewrite decide_False in Hr by done. by eapply list_elem_of_lookup_2.
Qed.

(** C6.  When the standard deviation of the series of daily counts is
    zero, the loop of [detect_life_events] emits no anomaly record and
    never reaches the division by the standard deviation: the run does not
    fail on a division by zero, and no date is flagged. *)
Theorem zero_std_no_anomalies data ts sd :
  event_times parse_column data = Ok ts ->
  std (snd <$> daily_counts_of ts) = Some sd ->
  mis_zero sd = true ->
  volume_anomalies (daily_counts_of ts) = Ok []
  /\ detect_life_events parse_column data <> Raise ZeroDivisionError
  /\ forall events data' day,
       detect_life_events parse_column data = Ok (events, data') ->
       ~ flagged day events.
Proof.
  intros Hts Hsd Hz.
  pose proof (volume_anomalies_flat _ _ Hsd Hz) as Hflat.
  split; [done|]. split; [apply detect_life_events_no_division_fault|].
  intros events data' day Hrun (ev & Hin & Hanom & _).
  destruct (events_guard data) eqn:Hg.
  - rewrite detect_life_events_guarded in Hrun by done.
    injection Hrun as <- _. by apply elem_of_nil in Hin.
  - destruct (detect_life_events_anomalies _ _ _ _ Hg Hrun)
      as (ts' & anomalies & Hts' & _ & Han & Hev).
    rewrite Hts in Hts'. injection Hts' as <-.
    rewrite Hflat in Han. injection Han as <-.
    apply Hev in Hin; [|done]. by apply elem_of_nil in Hin.
Qed.

(** C9.  Every anomaly record that [detect_life_events] emits has a
    confidence, [min(abs(count - expected) / std / 3, 1.0)], that is
    strictly greater than 2/3 and at most 1. *)
Theorem anomaly_confidence_range data events data' day type c count e :
  detect_life_events parse_column data = Ok (events, data') ->
  Anomaly day type c count e ∈ events ->
  exists ts sd,
    event_times parse_column data = Ok ts
    /\ std (snd <$> daily_counts_of ts) = Some sd
    /\ (to_R c = Rmin (Rabs (IZR count - Q2R e) / to_R sd / 3) 1
        /\ 2 / 3 < to_R c <= 1)%R.
Proof.
  intros Hrun Hin.
  destruct (events_guard data) eqn:Hg.
  { rewrite detect_life_events_guarded in Hrun by done.
    injection Hrun as <- _. by apply elem_of_nil in Hin. }
  destruct (detect_life_events_anomalies _ _ _ _ Hg Hrun)
    as (ts & anomalies & Hts & _ & Han & Hev).
  apply Hev in Hin; [|done]. unfold volume_anomalies in Han.
  destruct (volume_loop_sound _ _ _ _ _ Han Hin)
    as (day' & count' & e' & sd & c' & _ & _ & Hsd & Hd & Hc & [= <- _ <- <- <-]).
  exists ts, sd. split; [done|]. split; [done|].
  assert (0 <= square sd)%Q by (by eapply std_square_nonneg).
  split; [by apply anomaly_confidence_real | by eapply anomaly_confidence_bounds].
Qed.

End Baseline.

(** On daily counts 50, 5, ..., 5 (15 days): the first day has no baseline
    and is not flagged. *)
Lemma baseline_is_full_window_mean_witness :
  let ts := events_of_counts jan_1 [50; 5; 5; 5; 5; 5; 5; 5; 5; 5; 5; 5; 5; 5; 5] in
  let run := detect_life_events no_parse (frame_of ts) in
  let counts := snd <$> daily_counts_of ts in
  rolling_avg_7 (daily_counts_of ts) !! 0%nat
  = Some (jan_1, if decide (3 <= 0 /\ 0 + 3 < length counts)%nat
                 then mean (take 7 (drop (0 - 3) counts))
                 else None)
  /\ (~ (3 <= 0 /\ 0 + 3 < length counts)%nat -> ~ flagged jan_1 (result_of [] run)).
Proof.
  intros ts run.
  apply (baseline_is_full_window_mean no_parse (frame_of ts)
           (result_of [] run) (frame_after (frame_of ts) run) ts 0 jan_1 50).
  - reflexivity.
  - vm_compute. reflexivity.
  - reflexivity.
  - vm_compute. reflexivity.
Defined.

(** C2, as the specification has it, fails: with daily counts 50, 5, 5,
    ... (15 days) the first day has four values in its window, whose mean is
    65/4; but the code gives the day no baseline, and although its count of
    50 is further from 65/4 than twice the standard deviation of the series,
    no anomaly record is emitted. *)
Lemma boundary_baseline_refuted :
  let ts := events_of_counts jan_1 [50; 5; 5; 5; 5; 5; 5; 5; 5; 5; 5; 5; 5; 5; 5] in
  baseline_with_available_values (daily_counts_of ts) !! 0%nat
  = Some (jan_1, Some (65 # 4))
  /\ rolling_avg_7 (daily_counts_of ts) !! 0%nat = Some (jan_1, None)
  /\ (exists sd, std (snd <$> daily_counts_of ts) = Some sd
                 /\ deviates 50 (65 # 4) sd = true)
  /\ detect_life_events no_parse (frame_of ts)
     = Ok ([], with_dates (frame_of ts) ts).
Proof.
  intros ts. split; [vm_compute; reflexivity|].
  split; [vm_compute; reflexivity|]. split; [|vm_compute; reflexivity].
  destruct (std (snd <$> daily_counts_of ts)) as [sd|] eqn:Hsd;
    [|vm_compute in Hsd; discriminate].
  exists sd. split; [done|].
  vm_compute in Hsd. injection Hsd as <-. vm_compute. reflexivity.
Qed.

(** On eight days of two events each. *)
Lemma zero_std_no_anomalies_witness :
  let ts := events_of_counts jan_1 [2; 2; 2; 2; 2; 2; 2; 2] in
  volume_anomalies (daily_counts_of ts) = Ok []
  /\ detect_life_events no_parse (frame_of ts) <> Raise ZeroDivisionError
  /\ forall events data' day,
       detect_life_events no_parse (frame_of ts) = Ok (events, data') ->
       ~ flagged day events.
Proof.
  intros ts.
  apply (zero_std_no_anomalies no_parse (frame_of ts) ts (Root (0 # 1970324836974592))).
  - reflexivity.
  - vm_compute. reflexivity.
  - reflexivity.
Defined.

(** On daily counts 5, ..., 5, 50, 5, ..., 5 (15 days): the record of the
    eighth day has confidence 1. *)
Lemma anomaly_confidence_range_witness :
  let ts := events_of_counts jan_1 [5; 5; 5; 5; 5; 5; 5; 50; 5; 5; 5; 5; 5; 5; 5] in
  exists ts' sd,
    event_times no_parse (frame_of ts) = Ok ts'
    /\ std (snd <$> daily_counts_of ts') = Some sd
    /\ (to_R (Root 1) = Rmin (Rabs (IZR 50 - Q2R (80 # 7)) / to_R sd / 3) 1
        /\ 2 / 3 < to_R (Root 1) <= 1)%R.
Proof.
  intros ts.
  apply (anomaly_confidence_range no_parse (frame_of ts)
           [Anomaly (jan_1 + 7) high_activity (Root 1) 50 (80 # 7)]
           (with_dates (frame_of ts) ts)
           (jan_1 + 7) high_activity (Root 1) 50 (80 # 7)).
  - vm_compute. reflexivity.
  - apply list_elem_of_here.
Defined.

(* ===================================================================== *)
(** * The caller's frame *)

Lemma has_column_assign_eq name col data : has_column name (assign name col data) = true.
Proof.
  apply has_column_spec. unfold assign.
  destruct (has_column name data) eqn:Hh; simpl.
  - apply has_column_spec in Hh as (c & Hc & Hn). exists (name, col).
    split; [|done]. apply list_elem_of_fmap. exists c.
    split; [|done]. by rewrite (proj2 (String.eqb_eq name (fst c))).
  - exists (name, col). split; [|done]. apply elem_of_app. right.
    apply list_elem_of_here.
Qed.

Lemma index_assign name col data : index (assign name col data) = index data.
Proof. unfold assign. by destruct (has_column name data). Qed.

Lemma assign_idem name col data :
  assign name col (assign name col data) = assign name col data.
Proof.
  unfold assign at 1. rewrite has_column_assign_eq, index_assign.
  unfold assign. destruct (has_column name data) eqn:Hh; simpl; f_equal.
  - rewrite <- list_fmap_compose. apply list_fmap_ext. intros i c _. simpl.
    destruct (String.eqb_spec name (fst c)); simpl; [by rewrite String.eqb_refl|].
    by destruct (String.eqb_spec name (fst c)).
  - rewrite fmap_app. simpl. rewrite String.eqb_refl. f_equal.
    rewrite <- (list_fmap_id (columns data)) at 2.
    apply list_fmap_ext. intros i c Hc. simpl.
    destruct (String.eqb_spec name (fst c)) as [Heq|]; [|done].
    assert (has_column name data = true); [|congruence].
    apply has_column_spec. exists c. split; [|done].
    by eapply list_elem_of_lookup_2.
Qed.

Section CallTwice.
Variable parse_column : column -> option (list datetime).

(** [analyze_daily_routine] gives the same result when it is called
    again. *)
Lemma analyze_daily_routine_twice data patterns data' :
  analyze_daily_routine parse_column data = Ok (patterns, data') ->
  analyze_daily_routine parse_column data' = Ok (patterns, data').
Proof.
  intros H. by pose proof (analyze_daily_routine_frame _ _ _ _ H) as ->.
Qed.

Lemma event_times_datetime data ts :
  event_times parse_column data = Ok ts ->
  getitem "datetime" (if negb (has_column "datetime" data)
                         && has_column "timestamp" data
                      then assign "datetime" (Timestamps ts) data
                      else data)
  = Ok (Timestamps ts).
Proof.
  unfold event_times.
  destruct (negb (has_column "datetime" data) && has_column "timestamp" data) eqn:Hb.
  - intros _. apply andb_true_iff in Hb as [Hb _]. apply negb_true_iff in Hb.
    by apply getitem_assign_new.
  - intros (col & Hcol & Hdt)%bind_Ok. destruct col; try done.
    by injection Hdt as ->.
Qed.

(** The frame [detect_life_events] leaves is one it leaves as it is, and
    on which it finds the same timestamps. *)
Lemma with_dates_again data ts :
  event_times parse_column data = Ok ts ->
  event_times parse_column (with_dates data ts) = Ok ts
  /\ with_dates (with_dates data ts) ts = with_dates data ts.
Proof.
  intros Hts. pose proof (event_times_datetime _ _ Hts) as Hget.
  assert (Hh : has_column "datetime" (with_dates data ts) = true).
  { unfold with_dates. rewrite has_column_assign_ne by done.
    by eapply getitem_Ok_has_column. }
  split.
  - unfold event_times. rewrite Hh. simpl.
    unfold with_dates. rewrite getitem_assign_ne by done. by rewrite Hget.
  - unfold with_dates at 1. rewrite Hh. simpl.
    unfold with_dates. apply assign_idem.
Qed.

(** [detect_life_events] gives the same events when it is called again on
    the frame it has left. *)
Lemma detect_life_events_twice data events data' :
  detect_life_events parse_column data = Ok (events, data') ->
  detect_life_events parse_column data' = Ok (events, data').
Proof.
  intros Hrun. destruct (events_guard data) eqn:Hg.
  { rewrite detect_life_events_guarded in Hrun by done.
    injection Hrun as <- <-. by apply detect_life_events_guarded. }
  rewrite detect_life_events_unfold in Hrun by done.
  destruct (event_times parse_column data) as [ts|] eqn:Hts; [|done].
  cbv zeta in Hrun.
  assert (Hd : data' = with_dates data ts).
  { destruct (getitem "date" _); [|done].
    destruct (volume_anomalies _); [|done].
    destruct (if has_column "predicted_activity" _ then _ else _); [|done].
    by injection Hrun as _ <-. }
  destruct (with_dates_again _ _ Hts) as [Hts' Hagain].
  assert (Hg' : events_guard data' = false).
  { subst data'. unfold events_guard, with_dates, len in *.
    apply orb_false_iff in Hg as [He Hl]. apply orb_false_iff.
    rewrite index_assign.
    split.
    - apply nonempty_assign. by destruct (negb _ && _); [apply nonempty_assign|].
    - by destruct (negb _ && _); [rewrite index_assign|]. }
  rewrite detect_life_events_unfold by done. subst data'.
  rewrite Hts'. cbv zeta. by rewrite Hagain.
Qed.

End CallTwice.

(** C4 fails for [detect_life_events] and [_analyze_activity_trends]: the
    caller's frame is not left unchanged.  [detect_life_events] called on a
    frame of ten events of one day, with a 'datetime' column only, returns no
    event and leaves the frame with a 'date' column added;
    [_analyze_activity_trends] leaves a 'week' column. *)
Theorem detect_life_events_changes_the_frame :
  let ts := day_events jan_1 10 in
  let data := frame_of ts in
  let data2 := Frame 10 [("datetime", Timestamps ts);
                         ("predicted_activity", Texts (replicate 10 "Work"))] in
  detect_life_events no_parse data
  = Ok ([], Frame 10 [("datetime", Timestamps ts);
                      ("date", Dates (replicate 10 jan_1))])
  /\ frame_after data (detect_life_events no_parse data) <> data
  /\ fst <$> columns (frame_after data2 (_analyze_activity_trends data2))
     = ["datetime"; "predicted_activity"; "week"].
Proof.
  intros ts data data2. split; [vm_compute; reflexivity|].
  split; [|reflexivity]. intros H.
  apply (f_equal (fun d => length (columns d))) in H. vm_compute in H. discriminate.
Qed.

(* ===================================================================== *)
(** * Travel periods: the sorted distinct dates *)

Lemma insort_ltb_sorted x l :
  StronglySorted Z.le l -> StronglySorted Z.le (insort Z.ltb x l).
Proof.
  induction 1 as [|y l Hs IH Hall]; simpl.
  - repeat constructor.
  - destruct (Z.ltb_spec x y) as [Hlt|Hge].
    + constructor; [by constructor|]. constructor; [lia|].
      eapply Forall_impl; [exact Hall|]. simpl. lia.
    + constructor; [done|].
      rewrite insort_Permutation. by constructor.
Qed.

Lemma sorted_le l : StronglySorted Z.le (sorted l).
Proof.
  unfold sorted, sorted_by. induction l as [|x l IH] using rev_ind; [constructor|].
  rewrite foldl_snoc. by apply insort_ltb_sorted.
Qed.

Lemma NoDup_unique `{EqDecision A} (l : list A) : NoDup (unique l).
Proof.
  induction l as [|x l IH]; simpl; [constructor|]. constructor.
  - rewrite list_elem_of_filter. by intros [? _].
  - by apply NoDup_filter.
Qed.

Lemma sorted_lt_of_NoDup l :
  StronglySorted Z.le l -> NoDup l -> StronglySorted Z.lt l.
Proof.
  induction 1 as [|x l Hs IH Hall]; intros Hnd; [constructor|].
  apply NoDup_cons in Hnd as [Hx Hnd]. constructor; [auto|].
  rewrite Forall_forall in Hall |- *. intros y Hy.
  specialize (Hall y Hy). assert (x <> y) by (by intros ->). lia.
Qed.

(** The dates the loop runs over are in strictly ascending order. *)
Lemma travel_dates_increasing activity ts :
  StronglySorted Z.lt (travel_dates activity ts).
Proof.
  unfold travel_dates. apply sorted_lt_of_NoDup; [apply sorted_le|].
  unfold sorted. rewrite sorted_by_Permutation. apply NoDup_unique.
Qed.

Lemma increasing_NoDup l : StronglySorted Z.lt l -> NoDup l.
Proof.
  induction 1 as [|x l Hs IH Hall]; constructor; [|done].
  intros Hin. rewrite Forall_forall in Hall. specialize (Hall _ Hin). lia.
Qed.

(* ===================================================================== *)
(** * Travel periods: the loop *)

(** One turn of the loop: the current period grows, or it is closed. *)
Lemma travel_step_cases ps cur d :
  travel_step (ps, cur) d
  = match last cur with
    | None => (ps, cur ++ [d])
    | Some prev =>
        if d - prev <=? 1 then (ps, cur ++ [d]) else (ps ++ [cur], [d])
    end.
Proof.
  unfold travel_step. destruct (last cur) as [prev|] eqn:Hl; [|done].
  destruct (d - prev <=? 1); [done|].
  destruct cur; [done|]. done.
Qed.

Lemma travel_periods_close dates :
  travel_periods dates = close_period (foldl travel_step ([], []) dates).
Proof. unfold travel_periods, close_period. by destruct (foldl _ _ _). Qed.

(** The periods closed before a point of the loop stay in front. *)
Lemma travel_loop_prefix ps0 ps cur dates :
  foldl travel_step (ps0 ++ ps, cur) dates
  = (ps0 ++ fst (foldl travel_step (ps, cur) dates),
     snd (foldl travel_step (ps, cur) dates)).
Proof.
  induction dates as [|d dates IH] in ps, cur |- *; [done|].
  cbn [foldl]. rewrite !travel_step_cases.
  destruct (last cur) as [prev|]; [|apply IH].
  destruct (d - prev <=? 1); [apply IH|].
  rewrite <- app_assoc. apply IH.
Qed.

Lemma close_period_prefix ps0 st :
  close_period (ps0 ++ fst st, snd st) = ps0 ++ close_period st.
Proof.
  unfold close_period. simpl. destruct (snd st); [done|]. by rewrite app_assoc.
Qed.

(** After a non-empty list of dates the current period ends with the last
    of them. *)
Lemma travel_loop_last dates d :
  last dates = Some d ->
  last (snd (foldl travel_step ([], []) dates)) = Some d.
Proof.
  destruct dates as [|x dates _] using rev_ind; [done|].
  rewrite last_snoc. intros [= ->]. rewrite foldl_snoc.
  destruct (foldl travel_step ([], []) dates) as [ps cur].
  rewrite travel_step_cases.
  destruct (last cur) as [prev|]; simpl; [|by rewrite last_snoc].
  destruct (d - prev <=? 1); simpl; [by rewrite last_snoc | done].
Qed.

Lemma consecutive_snoc l d :
  consecutive (l ++ [d]) <->
  consecutive l /\ (forall p, last l = Some p -> d - p <= 1).
Proof.
  induction l as [|x l IH]; simpl.
  - split; [by intros _; split | done].
  - destruct l as [|y l]; simpl in *.
    + split.
      * intros [H _]. split; [done|]. by intros p [= <-].
      * intros [_ H]. split; [by apply H | done].
    + rewrite IH. split.
      * intros (H1 & H2 & H3). done.
      * intros ((H1 & H2) & H3). done.
Qed.

(** A run of consecutive dates is one period. *)
Lemma travel_loop_consecutive run :
  consecutive run -> foldl travel_step ([], []) run = ([], run).
Proof.
  induction run as [|d run IH] using rev_ind; [done|].
  intros [Hc Hd]%consecutive_snoc.
  rewrite foldl_snoc, IH, travel_step_cases by done.
  destruct (last run) as [prev|] eqn:Hl.
  - specialize (Hd _ eq_refl). by destruct (Z.leb_spec (d - prev) 1); [|lia].
  - apply last_None in Hl. by subst run.
Qed.

Lemma travel_periods_consecutive run :
  run <> [] -> consecutive run -> travel_periods run = [run].
Proof.
  intros Hne Hc. rewrite travel_periods_close, travel_loop_consecutive by done.
  unfold close_period. simpl. by destruct run.
Qed.

(** A gap of more than a day closes the periods of the dates before it. *)
Lemma travel_periods_app l1 l2 :
  gap_between l1 l2 ->
  travel_periods (l1 ++ l2) = travel_periods l1 ++ travel_periods l2.
Proof.
  intros Hgap. destruct l2 as [|y l2]; [by rewrite !app_nil_r|].
  destruct (last l1) as [x|] eqn:Hl1;
    [|apply last_None in Hl1; by subst l1].
  rewrite !travel_periods_close, foldl_app.
  pose proof (travel_loop_last _ _ Hl1) as Hlast.
  destruct (foldl travel_step ([], []) l1) as [ps cur]. simpl in Hlast.
  cbn [foldl]. rewrite !travel_step_cases, Hlast. simpl last.
  specialize (Hgap x y Hl1 eq_refl).
  destruct (Z.leb_spec (y - x) 1); [lia|].
  rewrite <- (app_nil_r (ps ++ [cur])), travel_loop_prefix, close_period_prefix.
  unfold close_period at 2. simpl fst. simpl snd.
  destruct cur; [done|]. done.
Qed.

(** The periods cut a maximal run out of the dates around it. *)
Lemma travel_periods_maximal_run pre run post :
  maximal_run pre run post ->
  travel_periods (pre ++ run ++ post)
  = travel_periods pre ++ [run] ++ travel_periods post.
Proof.
  intros (Hne & Hc & Hpre & Hpost).
  rewrite (travel_periods_app pre (run ++ post)).
  2: { intros x y Hx Hy. apply (Hpre x y Hx). by destruct run. }
  rewrite (travel_periods_app run post) by assumption.
  rewrite (travel_periods_consecutive run) by assumption. reflexivity.
Qed.

(** The loop drops no date and invents none. *)
Lemma travel_loop_concat ps cur dates :
  let st := foldl travel_step (ps, cur) dates in
  concat (fst st) ++ snd st = concat ps ++ cur ++ dates.
Proof.
  induction dates as [|d dates IH] in ps, cur |- *; cbn zeta.
  - simpl. by rewrite app_nil_r.
  - cbn [foldl]. rewrite travel_step_cases.
    destruct (last cur) as [prev|] eqn:Hl.
    + destruct (d - prev <=? 1).
      * rewrite IH. by rewrite <- !app_assoc.
      * rewrite IH, concat_app. simpl. by rewrite app_nil_r, <- !app_assoc.
    + rewrite IH. by rewrite <- !app_assoc.
Qed.

Lemma travel_periods_concat dates : concat (travel_periods dates) = dates.
Proof.
  rewrite travel_periods_close.
  pose proof (travel_loop_concat [] [] dates) as H. simpl in H.
  unfold close_period. destruct (foldl travel_step _ dates) as [ps cur].
  simpl in *. destruct cur; [by rewrite app_nil_r in H|].
  rewrite concat_app. simpl. by rewrite app_nil_r.
Qed.

Lemma elem_of_concat {A} (x : A) (ls : list (list A)) l :
  l ∈ ls -> x ∈ l -> x ∈ concat ls.
Proof.
  induction ls as [|l' ls IH]; [by intros ?%elem_of_nil|].
  intros [->|Hin]%elem_of_cons Hx; simpl; apply elem_of_app; [by left|].
  right. by apply IH.
Qed.

(** An event starts on one of the dates. *)
Lemma travel_events_dates dates ev :
  ev ∈ travel_events (travel_periods dates) -> event_date ev ∈ dates.
Proof.
  unfold travel_events. intros (period & Hp & Hev)%list_elem_of_omap.
  destruct period as [|first rest]; [done|].
  destruct (2 <=? _)%nat; [|done]. injection Hev as <-. simpl.
  rewrite <- (travel_periods_concat dates).
  apply (elem_of_concat _ _ (first :: rest)); [done | apply list_elem_of_here].
Qed.

Lemma travel_events_app periods1 periods2 :
  travel_events (periods1 ++ periods2)
  = travel_events periods1 ++ travel_events periods2.
Proof. unfold travel_events. apply omap_app. Qed.

(** The events of the dates outside a run do not start in the run. *)
Lemma travel_events_elsewhere dates (run : list Z) :
  (forall d, d ∈ dates -> d ∉ run) ->
  filter (fun ev => event_date ev ∈ run) (travel_events (travel_periods dates)) = [].
Proof.
  intros Hout. apply filter_none. intros ev Hev Hin.
  apply travel_events_dates in Hev. by apply (Hout _ Hev).
Qed.

(** The events of the travel periods, around a maximal run of the dates. *)
Lemma travel_events_maximal_run pre first rest post :
  NoDup (pre ++ (first :: rest) ++ post) ->
  maximal_run pre (first :: rest) post ->
  filter (fun ev => event_date ev ∈ first :: rest)
         (travel_events (travel_periods (pre ++ (first :: rest) ++ post)))
  = match rest with
    | [] => []
    | _ => [TravelPeriod first (length (first :: rest))]
    end.
Proof.
  intros Hnd Hmax. rewrite travel_periods_maximal_run by done.
  apply NoDup_app in Hnd as (_ & Hpre & Hnd).
  apply NoDup_app in Hnd as (_ & Hpost & _).
  rewrite !travel_events_app, !filter_app.
  rewrite (travel_events_elsewhere pre)
    by (intros d Hd Hr; apply (Hpre d Hd), elem_of_app; by left).
  rewrite (travel_events_elsewhere post) by (intros d Hd Hr; by apply (Hpost d)).
  rewrite app_nil_r. simpl.
  destruct rest as [|second rest]; [done|]. simpl.
  rewrite filter_cons_True by (simpl; apply list_elem_of_here). done.
Qed.

(** C5.  The travel periods are merged from the sorted distinct dates of
    the rows labelled 'Travel': every maximal run of dates with gaps of at
    most one day, of length 2 or more, gives exactly one event, which starts
    on the first date of the run and whose duration in days is the length of
    the run; a run of a single date gives no event.  In particular rows on
    January 1, 2, 3 and 10 give one event of 3 days from January 1 on, and
    none for January 10. *)
Theorem travel_period_per_maximal_run :
  (forall data ts activity events pre first rest post,
     getitem "predicted_activity" data = Ok activity ->
     _detect_travel_patterns data ts = Ok events ->
     travel_dates activity ts = pre ++ (first :: rest) ++ post ->
     maximal_run pre (first :: rest) post ->
     filter (fun ev => event_date ev ∈ first :: rest) events
     = match rest with
       | [] => []
       | _ => [TravelPeriod first (length (first :: rest))]
       end)
  /\ (let ts := [Datetime (jan_1 + 2) 8; Datetime jan_1 9; Datetime (jan_1 + 9) 7;
                 Datetime (jan_1 + 1) 20; Datetime jan_1 22] in
      let data :=
        Frame 5 [("datetime", Timestamps ts);
                 ("predicted_activity", Texts (replicate 5 "Travel"))] in
      travel_dates (Texts (replicate 5 "Travel")) ts
      = [jan_1; jan_1 + 1; jan_1 + 2; jan_1 + 9]
      /\ _detect_travel_patterns data ts = Ok [TravelPeriod jan_1 3]).
Proof.
  split; [|split; vm_compute; reflexivity].
  intros data ts activity events pre first rest post Hact Hrun Hdates Hmax.
  unfold _detect_travel_patterns in Hrun. rewrite Hact in Hrun. simpl in Hrun.
  pose proof (travel_dates_increasing activity ts) as Hinc.
  destruct (masked (eq_mask activity "Travel") ts) eqn:Hm.
  - unfold travel_dates in Hdates. rewrite Hm in Hdates.
    by destruct pre.
  - injection Hrun as <-. rewrite Hdates in *.
    apply travel_events_maximal_run; [by apply increasing_NoDup | done].
Qed.

(** On the travel rows of January 1, 2, 3 and 10: the run of three days and
    the run of one. *)
Lemma travel_period_per_maximal_run_witness :
  let ts := [Datetime (jan_1 + 2) 8; Datetime jan_1 9; Datetime (jan_1 + 9) 7;
             Datetime (jan_1 + 1) 20; Datetime jan_1 22] in
  let data :=
    Frame 5 [("datetime", Timestamps ts);
             ("predicted_activity", Texts (replicate 5 "Travel"))] in
  filter (fun ev => event_date ev ∈ [jan_1; jan_1 + 1; jan_1 + 2])
         [TravelPeriod jan_1 3]
  = [TravelPeriod jan_1 (length [jan_1; jan_1 + 1; jan_1 + 2])]
  /\ filter (fun ev => event_date ev ∈ [jan_1 + 9]) [TravelPeriod jan_1 3] = [].
Proof.
  intros ts data. split.
  - apply (proj1 travel_period_per_maximal_run data ts
             (Texts (replicate 5 "Travel")) [TravelPeriod jan_1 3]
             [] jan_1 [jan_1 + 1; jan_1 + 2] [jan_1 + 9]).
    + reflexivity.
    + vm_compute. reflexivity.
    + vm_compute. reflexivity.
    + split; [done|]. split; [simpl; lia|]. split; [by intros x y [=]|].
      intros x y [= <-] [= <-]. vm_compute. reflexivity.
  - apply (proj1 travel_period_per_maximal_run data ts
             (Texts (replicate 5 "Travel")) [TravelPeriod jan_1 3]
             [jan_1; jan_1 + 1; jan_1 + 2] (jan_1 + 9) [] []).
    + reflexivity.
    + vm_compute. reflexivity.
    + vm_compute. reflexivity.
    + split; [done|]. split; [done|]. split; [|by intros x y _ [=]].
      intros x y [= <-] [= <-]. vm_compute. reflexivity.
Defined.

(* ===================================================================== *)
(** * [generate_insights] *)

(** What a run returns, key by key. *)
Lemma generate_insights_Ok patterns life_events insights :
  generate_insights patterns life_events = Ok insights ->
  insights !! "sleep_pattern"
  = match patterns !! "wake_up_time" with
    | Some (PStats wake_up) => Some (sleep_pattern_insight (average wake_up))
    | _ => None
    end
  /\ insights !! "activity_level"
     = match patterns !! "hourly_activity" with
       | Some (PCounts hourly_activity) =>
           Some (activity_level_insight (total_hours hourly_activity))
       | _ => None
       end
  /\ insights !! "life_events"
     = match filter (fun e => is_high_activity e = true) life_events with
       | [] => None
       | high => Some (high_activity_summary (length high))
       end
  /\ dom insights ⊆ {[ "sleep_pattern"; "activity_level"; "life_events" ]}
  /\ (forall v, patterns !! "wake_up_time" = Some v -> exists w, v = PStats w)
  /\ (forall v, patterns !! "hourly_activity" = Some v -> exists h, v = PCounts h).
Proof.
  unfold generate_insights. intros H.
  apply bind_Ok in H as (i1 & H1 & H). apply bind_Ok in H as (i2 & H2 & H).
  assert (Hw : forall v, patterns !! "wake_up_time" = Some v -> exists w, v = PStats w).
  { intros v Hv. rewrite Hv in H1. destruct v; [eauto | done | done]. }
  assert (Hh : forall v, patterns !! "hourly_activity" = Some v -> exists h, v = PCounts h).
  { intros v Hv. rewrite Hv in H2. destruct v; [done | eauto | done]. }
  assert (Hi1 : i1 !! "sleep_pattern"
                = match patterns !! "wake_up_time" with
                  | Some (PStats wake_up) => Some (sleep_pattern_insight (average wake_up))
                  | _ => None
                  end
                /\ dom i1 ⊆ {[ "sleep_pattern" ]}).
  { destruct (patterns !! "wake_up_time") as [[w| |]|]; try done;
      injection H1 as <-.
    - rewrite lookup_insert_eq, dom_insert_L, dom_empty_L. split; [done | set_solver].
    - rewrite lookup_empty, dom_empty_L. split; [done | set_solver]. }
  destruct Hi1 as [Hs1 Hd1].
  assert (Hi2 : i2 !! "sleep_pattern" = i1 !! "sleep_pattern"
                /\ i2 !! "activity_level"
                   = match patterns !! "hourly_activity" with
                     | Some (PCounts hourly_activity) =>
                         Some (activity_level_insight (total_hours hourly_activity))
                     | _ => None
                     end
                /\ dom i2 ⊆ {[ "sleep_pattern"; "activity_level" ]}).
  { destruct (patterns !! "hourly_activity") as [[|h|]|]; try done;
      injection H2 as <-.
    - rewrite lookup_insert_ne by done. rewrite lookup_insert_eq, dom_insert_L.
      split; [done|]. split; [done | set_solver].
    - split; [done|]. split; [|set_solver].
      apply not_elem_of_dom. set_solver. }
  destruct Hi2 as (Hs2 & Ha2 & Hd2).
  destruct (filter _ life_events) as [|e high] eqn:Hf; injection H as <-.
  - rewrite Hs2, Hs1, Ha2. split; [done|]. split; [done|].
    split; [apply not_elem_of_dom; set_solver|]. split; [set_solver | done].
  - rewrite !lookup_insert_ne by done. rewrite lookup_insert_eq, dom_insert_L.
    rewrite Hs2, Hs1, Ha2. split; [done|]. split; [done|]. split; [done|].
    split; [set_solver | done].
Qed.

(** X1.  The dict [generate_insights] returns has the key 'sleep_pattern'
    exactly when the patterns have the key 'wake_up_time', the key
    'activity_level' exactly when they have 'hourly_activity', the key
    'life_events' exactly when one of the events is of type 'high_activity',
    and no other key: with no pattern and no such event it is empty. *)
Theorem generate_insights_keys patterns life_events insights :
  generate_insights patterns life_events = Ok insights ->
  (is_Some (insights !! "sleep_pattern") <-> is_Some (patterns !! "wake_up_time"))
  /\ (is_Some (insights !! "activity_level")
      <-> is_Some (patterns !! "hourly_activity"))
  /\ (is_Some (insights !! "life_events")
      <-> exists e, e ∈ life_events /\ is_high_activity e = true)
  /\ dom insights ⊆ {[ "sleep_pattern"; "activity_level"; "life_events" ]}.
Proof.
  intros (Hs & Ha & Hl & Hd & Hw & Hh)%generate_insights_Ok.
  split; [|split; [|split; [|done]]].
  - rewrite Hs. destruct (patterns !! "wake_up_time") as [v|] eqn:Hv.
    + destruct (Hw v eq_refl) as [w ->]. split; eauto.
    + split; by intros [? ?].
  - rewrite Ha. destruct (patterns !! "hourly_activity") as [v|] eqn:Hv.
    + destruct (Hh v eq_refl) as [h ->]. split; eauto.
    + split; by intros [? ?].
  - rewrite Hl. destruct (filter _ life_events) as [|e high] eqn:Hf.
    + split; [by intros [? ?]|]. intros (e & He & Hhigh). exfalso.
      by apply (filter_nil_not_elem_of _ _ e Hf).
    + split; [|eauto]. intros _. exists e.
      assert (He : e ∈ filter (fun e => is_high_activity e = true) life_events)
        by (rewrite Hf; apply list_elem_of_here).
      apply list_elem_of_filter in He as [? ?]. done.
Qed.

(** With the hourly counts of three hours and one high-activity record. *)
Lemma generate_insights_keys_witness :
  let patterns : gmap string pattern_value :=
    <["hourly_activity" := PCounts [(8, 2); (9, 1); (20, 4)]]> ∅ in
  let life_events := [Anomaly jan_1 high_activity (Root 1) 50 (80 # 7)] in
  let insights := value_of ∅ (generate_insights patterns life_events) in
  (is_Some (insights !! "sleep_pattern") <-> is_Some (patterns !! "wake_up_time"))
  /\ (is_Some (insights !! "activity_level")
      <-> is_Some (patterns !! "hourly_activity"))
  /\ (is_Some (insights !! "life_events")
      <-> exists e, e ∈ life_events /\ is_high_activity e = true)
  /\ dom insights ⊆ {[ "sleep_pattern"; "activity_level"; "life_events" ]}.
Proof.
  intros patterns life_events insights.
  apply (generate_insights_keys patterns life_events). reflexivity.
Defined.

Lemma insight_messages_differ :
  early_riser <> late_starter /\ early_riser <> regular_morning
  /\ late_starter <> regular_morning
  /\ high_spread <> concentrated /\ high_spread <> moderate_spread
  /\ concentrated <> moderate_spread.
Proof. repeat split; discriminate. Qed.

(** X2.  [generate_insights] sorts the average wake-up hour and the number
    of hours with activity by fixed thresholds: an average below 7 is an
    early riser, above 9 a late starter, from 7 to 9 (both included), or not
    a number, a regular morning; more than 14 active hours is a high
    spread, fewer than 8 a concentrated activity, from 8 to 14 a moderate
    one. *)
Theorem insight_thresholds patterns life_events insights wake_up hourly_activity :
  generate_insights patterns life_events = Ok insights ->
  patterns !! "wake_up_time" = Some (PStats wake_up) ->
  patterns !! "hourly_activity" = Some (PCounts hourly_activity) ->
  (exists msg,
     insights !! "sleep_pattern" = Some msg
     /\ match average wake_up with
        | Some a =>
            (msg = early_riser <-> (a < 7)%Q)
            /\ (msg = late_starter <-> (9 < a)%Q)
            /\ (msg = regular_morning <-> (7 <= a <= 9)%Q)
        | None => msg = regular_morning
        end)
  /\ (exists msg,
        insights !! "activity_level" = Some msg
        /\ (msg = high_spread <-> (14 < total_hours hourly_activity)%nat)
        /\ (msg = concentrated <-> (total_hours hourly_activity < 8)%nat)
        /\ (msg = moderate_spread <-> (8 <= total_hours hourly_activity <= 14)%nat)).
Proof.
  intros (Hs & Ha & _)%generate_insights_Ok Hw Hh.
  rewrite Hw in Hs. rewrite Hh in Ha.
  destruct insight_messages_differ as (D1 & D2 & D3 & D4 & D5 & D6).
  split.
  - eexists. split; [exact Hs|]. unfold sleep_pattern_insight.
    destruct (average wake_up) as [a|]; [|done].
    destruct (Qle_bool 7 a) eqn:E7; simpl;
      [apply Qle_bool_iff in E7 | apply Qle_bool_false in E7];
      [destruct (Qle_bool a 9) eqn:E9; simpl;
       [apply Qle_bool_iff in E9 | apply Qle_bool_false in E9]|];
      (split; [|split]);
      (split; intros;
       first [done | exfalso; congruence | exfalso; lra | split; lra | lra]).
  - eexists. split; [exact Ha|]. unfold activity_level_insight.
    destruct (Nat.ltb_spec 14 (total_hours hourly_activity));
      [|destruct (Nat.ltb_spec (total_hours hourly_activity) 8)];
      (split; [|split]);
      (split; intros; first [done | exfalso; congruence | exfalso; lia | lia]).
Qed.

(** An average wake-up hour of exactly 7 and 9 hours with activity. *)
Lemma insight_thresholds_witness :
  let hourly := (fun h => (h, 1)) <$> [6; 7; 8; 9; 10; 11; 12; 13; 14] in
  let wake_up := Stats (Some 7%Q) None (Some 7) in
  let patterns : gmap string pattern_value :=
    <["hourly_activity" := PCounts hourly]> (<["wake_up_time" := PStats wake_up]> ∅) in
  let insights := value_of ∅ (generate_insights patterns []) in
  insights !! "sleep_pattern" = Some regular_morning
  /\ insights !! "activity_level" = Some moderate_spread.
Proof.
  intros hourly wake_up patterns insights.
  destruct (insight_thresholds patterns [] insights wake_up hourly)
    as [(m1 & H1 & _ & _ & H1r) (m2 & H2 & _ & _ & H2m)];
    [reflexivity | reflexivity | reflexivity |].
  split.
  - rewrite H1. f_equal. apply H1r. split; discriminate.
  - rewrite H2. f_equal. apply H2m. vm_compute. lia.
Defined.


Lemma filter_all {A} (P : A -> Prop) `{forall x, Decision (P x)} (l : list A) :
  (forall x, x ∈ l -> P x) -> filter P l = l.
Proof.
  induction l as [|x l IH]; [done|]. intros Hl.
  rewrite filter_cons_True by (apply Hl, list_elem_of_here).
  f_equal. apply IH. intros y Hy. apply Hl. by apply list_elem_of_further.
Qed.

Lemma total_hours_groupby_size hours :
  total_hours (groupby_size hours) = length (groupby_size hours).
Proof.
  unfold total_hours. rewrite <- (length_fmap snd (groupby_size hours)).
  f_equal. apply filter_all. intros c ([k c'] & -> & Hin)%list_elem_of_fmap.
  apply groupby_size_elem_of in Hin as [Hk ->]. simpl.
  apply occurrences_pos in Hk. lia.
Qed.

(** X3.  [generate_insights] does not raise on the patterns that
    [analyze_daily_routine] returns, whatever the events: for an empty frame
    or one without 'datetime' column the insights hold neither
    'sleep_pattern' nor 'activity_level'; otherwise they hold both, and the
    activity level is decided by the number of distinct hours of the day at
    which there are events. *)
Theorem insights_of_the_daily_routine parse_column data patterns data' life_events :
  analyze_daily_routine parse_column data = Ok (patterns, data') ->
  exists insights,
    generate_insights patterns life_events = Ok insights
    /\ if routine_guard data
       then insights !! "sleep_pattern" = None
            /\ insights !! "activity_level" = None
       else exists col ts,
              getitem "datetime" (drop_duplicated_columns data) = Ok col
              /\ to_datetime parse_column col = Ok ts
              /\ is_Some (insights !! "sleep_pattern")
              /\ insights !! "activity_level"
                 = Some (activity_level_insight
                           (length (groupby_size (hour <$> ts)))).
Proof.
  intros Hrun. destruct (routine_guard data) eqn:Hg.
  - rewrite analyze_daily_routine_guarded in Hrun by done. injection Hrun as <- _.
    unfold generate_insights. rewrite !lookup_empty. simpl.
    destruct (filter _ life_events); eexists; (split; [done|]);
      by rewrite ?lookup_insert_ne, !lookup_empty by done.
  - apply analyze_daily_routine_Ok in Hrun
      as (col & ts & wake & sleep & Hcol & Hts & _ & _ & Hp); [|done].
    assert (Hw : patterns !! "wake_up_time" = Some (PStats wake))
      by (rewrite Hp; by rewrite !lookup_insert_ne, lookup_insert_eq by done).
    assert (Hh : patterns !! "hourly_activity"
                 = Some (PCounts (groupby_size (hour <$> ts))))
      by (rewrite Hp; by rewrite !lookup_insert_ne, lookup_insert_eq by done).
    destruct (generate_insights patterns life_events) as [insights|e] eqn:Hgen.
    + exists insights. split; [done|]. exists col, ts.
      apply generate_insights_Ok in Hgen as (Hs & Ha & _).
      rewrite Hw in Hs. rewrite Hh, total_hours_groupby_size in Ha.
      split; [done|]. split; [done|]. split; [by rewrite Hs | done].
    + unfold generate_insights in Hgen. rewrite Hw, Hh in Hgen. simpl in Hgen.
      by destruct (filter _ life_events).
Qed.

(** On events at 8, 9 and 20 o'clock. *)
Lemma insights_of_the_daily_routine_witness :
  let data := frame_of [Datetime jan_1 8; Datetime jan_1 9; Datetime (jan_1 + 1) 20] in
  exists insights,
    generate_insights (result_of ∅ (analyze_daily_routine no_parse data)) []
    = Ok insights
    /\ if routine_guard data
       then insights !! "sleep_pattern" = None
            /\ insights !! "activity_level" = None
       else exists col ts,
              getitem "datetime" (drop_duplicated_columns data) = Ok col
              /\ to_datetime no_parse col = Ok ts
              /\ is_Some (insights !! "sleep_pattern")
              /\ insights !! "activity_level"
                 = Some (activity_level_insight
                           (length (groupby_size (hour <$> ts)))).
Proof.
  intros data.
  apply (insights_of_the_daily_routine no_parse data _ data []). reflexivity.
Defined.

(* ===================================================================== *)
(** * Series: what a [groupby] aggregates *)

Lemma values_at_snoc k rows r :
  values_at k (rows ++ [r])
  = values_at k rows ++ (if decide (fst r = k) then [snd r] else []).
Proof.
  unfold values_at. rewrite filter_app, fmap_app, filter_cons, filter_nil.
  by destruct (decide (fst r = k)).
Qed.

(** The group of a key holds the values of its rows, folded in row order. *)
Lemma groupby_find f rows k :
  series_find k (groupby f rows)
  = match values_at k rows with
    | [] => None
    | v :: vs => Some (foldl f v vs)
    end.
Proof.
  induction rows as [|r rows IH] using rev_ind; [done|].
  rewrite groupby_snoc, upsert_find by apply groupby_ascending.
  rewrite values_at_snoc.
  destruct (Z.eqb_spec k (fst r)) as [Heq|Hne].
  - subst k. rewrite IH, decide_True by done.
    destruct (values_at (fst r) rows) as [|v vs]; simpl; [done|].
    by rewrite foldl_snoc.
  - rewrite IH, decide_False by done. by rewrite app_nil_r.
Qed.

Lemma values_at_elem_of k rows v : v ∈ values_at k rows <-> (k, v) ∈ rows.
Proof.
  unfold values_at. rewrite list_elem_of_fmap. split.
  - intros ([k' v'] & -> & [Hk Hin]%list_elem_of_filter). simpl in *. by subst.
  - intros Hin. exists (k, v). split; [done|]. by apply list_elem_of_filter.
Qed.

Lemma foldl_min_spec v vs :
  foldl Z.min v vs ∈ v :: vs /\ forall x, x ∈ v :: vs -> foldl Z.min v vs <= x.
Proof.
  induction vs as [|y vs IH] using rev_ind; simpl.
  - split; [apply list_elem_of_here|]. intros x ->%list_elem_of_singleton. lia.
  - rewrite foldl_snoc. destruct IH as [Hin Hle]. split.
    + destruct (Z.min_spec (foldl Z.min v vs) y) as [[_ ->]|[_ ->]].
      * rewrite app_comm_cons. apply elem_of_app. by left.
      * rewrite app_comm_cons. apply elem_of_app. right. apply list_elem_of_here.
    + intros x. rewrite app_comm_cons, elem_of_app, list_elem_of_singleton.
      intros [Hx| ->]; [specialize (Hle x Hx)|]; lia.
Qed.

Lemma foldl_max_spec v vs :
  foldl Z.max v vs ∈ v :: vs /\ forall x, x ∈ v :: vs -> x <= foldl Z.max v vs.
Proof.
  induction vs as [|y vs IH] using rev_ind; simpl.
  - split; [apply list_elem_of_here|]. intros x ->%list_elem_of_singleton. lia.
  - rewrite foldl_snoc. destruct IH as [Hin Hle]. split.
    + destruct (Z.max_spec (foldl Z.max v vs) y) as [[_ ->]|[_ ->]].
      * rewrite app_comm_cons. apply elem_of_app. right. apply list_elem_of_here.
      * rewrite app_comm_cons. apply elem_of_app. by left.
    + intros x. rewrite app_comm_cons, elem_of_app, list_elem_of_singleton.
      intros [Hx| ->]; [specialize (Hle x Hx)|]; lia.
Qed.

(** The first and the last hour of a date are hours of events of the date,
    and bound the hours of all its events. *)
Lemma hour_per_date_spec ts d :
  match series_find d (hour_per_date Z.min ts),
        series_find d (hour_per_date Z.max ts) with
  | Some lo, Some hi =>
      (exists t, t ∈ ts /\ date t = d /\ hour t = lo)
      /\ (exists t, t ∈ ts /\ date t = d /\ hour t = hi)
      /\ forall t, t ∈ ts -> date t = d -> lo <= hour t <= hi
  | None, None => forall t, t ∈ ts -> date t <> d
  | _, _ => False
  end.
Proof.
  unfold hour_per_date. rewrite !groupby_find.
  set (rows := (fun t => (date t, hour t)) <$> ts).
  assert (Hrows : forall v, v ∈ values_at d rows
                            <-> exists t, t ∈ ts /\ date t = d /\ hour t = v).
  { intros v. rewrite values_at_elem_of. unfold rows. rewrite list_elem_of_fmap.
    split.
    - intros (t & Heq & Ht). injection Heq as Hd Hv. eauto.
    - intros (t & Ht & Hd & Hv). exists t. by rewrite Hd, Hv. }
  destruct (values_at d rows) as [|v vs].
  - intros t Ht Hd. apply (elem_of_nil (hour t)). apply Hrows. eauto.
  - destruct (foldl_min_spec v vs) as [Hlo Hle].
    destruct (foldl_max_spec v vs) as [Hhi Hge].
    split; [by apply Hrows|]. split; [by apply Hrows|].
    intros t Ht Hd.
    assert (hour t ∈ v :: vs) as Hin by (apply Hrows; eauto).
    split; [by apply Hle | by apply Hge].
Qed.

Lemma first_hours_bound ts d lo hi :
  (d, lo) ∈ hour_per_date Z.min ts -> (d, hi) ∈ hour_per_date Z.max ts -> lo <= hi.
Proof.
  intros Hlo Hhi.
  apply ascending_find in Hlo; [|apply groupby_ascending].
  apply ascending_find in Hhi; [|apply groupby_ascending].
  pose proof (hour_per_date_spec ts d) as H. rewrite Hlo, Hhi in H.
  destruct H as ((t & Ht & Hd & Hh) & _ & Hall). specialize (Hall t Ht Hd). lia.
Qed.

(** X4.  In [analyze_daily_routine] the series [daily_first_activity] and
    [daily_last_activity] hold, for every date that has events, the smallest
    and the greatest hour of the events of that date: both are hours of
    events of the date, the first is at most the last, and every event of
    the date lies between them. *)
Theorem first_and_last_hour_of_a_date ts d lo hi :
  (d, lo) ∈ hour_per_date Z.min ts ->
  (d, hi) ∈ hour_per_date Z.max ts ->
  lo <= hi
  /\ (exists t, t ∈ ts /\ date t = d /\ hour t = lo)
  /\ (exists t, t ∈ ts /\ date t = d /\ hour t = hi)
  /\ forall t, t ∈ ts -> date t = d -> lo <= hour t <= hi.
Proof.
  intros Hlo Hhi.
  apply ascending_find in Hlo; [|apply groupby_ascending].
  apply ascending_find in Hhi; [|apply groupby_ascending].
  pose proof (hour_per_date_spec ts d) as H. rewrite Hlo, Hhi in H.
  destruct H as ((t & Ht & Hd & Hh) & Hmax & Hall).
  split; [|by eauto 10]. specialize (Hall t Ht Hd). lia.
Qed.

(** On a day with events at 9, 7 and 22 o'clock. *)
Lemma first_and_last_hour_of_a_date_witness :
  let ts := [Datetime jan_1 9; Datetime (jan_1 + 1) 12; Datetime jan_1 7;
             Datetime jan_1 22] in
  7 <= 22
  /\ (exists t, t ∈ ts /\ date t = jan_1 /\ hour t = 7)
  /\ (exists t, t ∈ ts /\ date t = jan_1 /\ hour t = 22)
  /\ forall t, t ∈ ts -> date t = jan_1 -> 7 <= hour t <= 22.
Proof.
  intros ts. apply (first_and_last_hour_of_a_date ts jan_1 7 22).
  - apply (list_elem_of_lookup_2 _ 0). reflexivity.
  - apply (list_elem_of_lookup_2 _ 0). reflexivity.
Defined.

(** The dates of the groups do not depend on the aggregation. *)
Lemma upsert_labels f g k v v' (s s' : series Z) :
  fst <$> s = fst <$> s' ->
  fst <$> upsert f k v s = fst <$> upsert g k v' s'.
Proof.
  induction s as [|[a b] s IH] in s' |- *; destruct s' as [|[a' b'] s'];
    try done.
  rewrite !fmap_cons. cbn [fst]. intros Heq.
  injection Heq as <- Hs. cbn [upsert].
  destruct (k <? a); [by rewrite !fmap_cons, Hs|].
  destruct (k =? a); rewrite !fmap_cons; cbn [fst]; f_equal; auto.
Qed.

Lemma groupby_labels_agree f g rows :
  fst <$> groupby f rows = fst <$> groupby g rows.
Proof.
  induction rows as [|r rows IH] using rev_ind; [done|].
  rewrite !groupby_snoc. by apply upsert_labels.
Qed.

Lemma sumZ_le_pointwise (l l' : list Z) :
  Forall2 Z.le l l' -> sumZ l <= sumZ l'.
Proof. induction 1; simpl; lia. Qed.

Lemma mean_le (l l' : list Z) a b :
  length l = length l' -> sumZ l <= sumZ l' ->
  mean l = Some a -> mean l' = Some b -> (a <= b)%Q.
Proof.
  intros Hlen Hsum Ha Hb.
  destruct l as [|x l]; [done|]. destruct l' as [|x' l']; [done|].
  assert (a = (inject_Z (sumZ (x :: l)) / inject_Z (Z.of_nat (length (x :: l))))%Q)
    as -> by (unfold mean in Ha; congruence).
  assert (b = (inject_Z (sumZ (x' :: l')) / inject_Z (Z.of_nat (length (x' :: l'))))%Q)
    as -> by (unfold mean in Hb; congruence).
  rewrite Hlen. unfold Qdiv. apply Qmult_le_compat_r; [by rewrite <- Zle_Qle|].
  apply Qinv_le_0_compat. unfold Qle. simpl. lia.
Qed.

(** Date by date, the first hour is at most the last. *)
Lemma first_hours_le_last_hours ts :
  Forall2 Z.le (snd <$> hour_per_date Z.min ts) (snd <$> hour_per_date Z.max ts).
Proof.
  pose proof (groupby_labels_agree Z.min Z.max
                ((fun t => (date t, hour t)) <$> ts)) as Hlab.
  fold (hour_per_date Z.min ts) in Hlab. fold (hour_per_date Z.max ts) in Hlab.
  apply Forall2_same_length_lookup. split.
  - rewrite !length_fmap. rewrite <- (length_fmap fst (hour_per_date Z.min ts)).
    rewrite Hlab. by rewrite length_fmap.
  - intros i lo hi. rewrite !list_lookup_fmap.
    destruct (hour_per_date Z.min ts !! i) as [[d lo']|] eqn:E1; [|done].
    destruct (hour_per_date Z.max ts !! i) as [[d' hi']|] eqn:E2; [|done].
    simpl. intros [= <-] [= <-].
    assert (d = d') as <-.
    { apply (f_equal (fun l => l !! i)) in Hlab.
      rewrite !list_lookup_fmap, E1, E2 in Hlab. by injection Hlab. }
    apply (first_hours_bound ts d); by eapply list_elem_of_lookup_2.
Qed.

(** X5.  In the patterns [analyze_daily_routine] returns, the average
    wake-up hour is at most the average sleep hour: both are means over the
    same dates, of the first and of the last hour of each date.  Both are NaN
    together, when the frame has no timestamps. *)
Theorem average_wake_up_before_sleep parse_column data patterns data' wake sleep :
  analyze_daily_routine parse_column data = Ok (patterns, data') ->
  patterns !! "wake_up_time" = Some (PStats wake) ->
  patterns !! "sleep_time" = Some (PStats sleep) ->
  match average wake, average sleep with
  | Some a, Some b => (a <= b)%Q
  | None, None => True
  | _, _ => False
  end.
Proof.
  intros Hrun Hw Hs. destruct (routine_guard data) eqn:Hg.
  { rewrite analyze_daily_routine_guarded in Hrun by done.
    injection Hrun as <- _. by rewrite lookup_empty in Hw. }
  apply analyze_daily_routine_Ok in Hrun
    as (col & ts & wake' & sleep' & _ & _ & Hwake & Hsleep & Hp); [|done].
  assert (wake' = wake) as ->.
  { rewrite Hp in Hw. rewrite !lookup_insert_ne, lookup_insert_eq in Hw by done.
    by injection Hw. }
  assert (sleep' = sleep) as ->.
  { rewrite Hp in Hs. rewrite !lookup_insert_ne, lookup_insert_eq in Hs by done.
    by injection Hs. }
  apply wake_or_sleep_Ok in Hwake as (-> & _). apply wake_or_sleep_Ok in Hsleep as (-> & _).
  pose proof (first_hours_le_last_hours ts) as Hle.
  pose proof (Forall2_length _ _ _ Hle) as Hlen.
  destruct (mean (snd <$> hour_per_date Z.min ts)) as [a|] eqn:Ea;
    destruct (mean (snd <$> hour_per_date Z.max ts)) as [b|] eqn:Eb.
  - eapply mean_le; [exact Hlen | by apply sumZ_le_pointwise | done | done].
  - destruct (snd <$> hour_per_date Z.min ts); [done|].
    by destruct (snd <$> hour_per_date Z.max ts).
  - destruct (snd <$> hour_per_date Z.max ts); [done|].
    by destruct (snd <$> hour_per_date Z.min ts).
  - done.
Qed.

(** On two days, with events at 7 and 22 and at 9 and 23 o'clock: the
    averages are 16/2 and 45/2. *)
Lemma average_wake_up_before_sleep_witness : (16 # 2 <= 45 # 2)%Q.
Proof.
  pose (data := frame_of [Datetime jan_1 7; Datetime jan_1 22;
                          Datetime (jan_1 + 1) 23; Datetime (jan_1 + 1) 9]).
  pose (patterns := result_of ∅ (analyze_daily_routine no_parse data)).
  pose (stats_at := fun key =>
          match patterns !! key with
          | Some (PStats s) => s
          | _ => Stats None None None
          end).
  apply (average_wake_up_before_sleep no_parse data patterns
           (frame_after data (analyze_daily_routine no_parse data))
           (stats_at "wake_up_time") (stats_at "sleep_time")).
  - reflexivity.
  - reflexivity.
  - reflexivity.
Defined.

(* ===================================================================== *)
(** * Sorting: the insertion sort is stable *)

Lemma StronglySorted_app_inv {A} (R : A -> A -> Prop) l1 l2 :
  StronglySorted R (l1 ++ l2) ->
  StronglySorted R l1 /\ StronglySorted R l2
  /\ forall x1 x2, x1 ∈ l1 -> x2 ∈ l2 -> R x1 x2.
Proof.
  induction l1 as [|x l1 IH]; simpl; intros Hs.
  - split; [constructor|]. split; [done|]. intros x1 x2 H. by apply elem_of_nil in H.
  - apply StronglySorted_inv in Hs as [Hs Hall].
    destruct (IH Hs) as (H1 & H2 & H12). rewrite Forall_app in Hall.
    destruct Hall as [Hl1 Hl2]. split; [by constructor|]. split; [done|].
    intros x1 x2 [->|Hx1]%elem_of_cons Hx2; [|by apply H12].
    rewrite Forall_forall in Hl2. by apply Hl2.
Qed.

Section StableSort.

Context {A : Type} (m : A -> Z) (before : A -> A -> bool) (R0 : A -> A -> Prop).
Hypothesis before_spec : forall a b, before a b = true <-> m a < m b.

(** by the key, and by the order of the input among equal keys *)
Let lex (a b : A) : Prop := m a < m b \/ (m a = m b /\ R0 a b).

Lemma sorted_by_snoc l x :
  sorted_by before (l ++ [x]) = insort before x (sorted_by before l).
Proof. unfold sorted_by. by rewrite foldl_app. Qed.

Lemma insort_stable x l :
  Sorted lex l -> (forall y, y ∈ l -> R0 y x) -> Sorted lex (insort before x l).
Proof.
  assert (Hnot : forall y, R0 y x -> before x y = false -> lex y x).
  { intros y Hy Hf. unfold lex.
    destruct (Z.lt_trichotomy (m y) (m x)) as [?|[?|Hlt]]; [by left|by right|].
    apply before_spec in Hlt. congruence. }
  induction l as [|y l IH]; intros Hs Hr; simpl.
  - by repeat constructor.
  - destruct (before x y) eqn:Hxy.
    + constructor; [done|]. constructor. left. by apply before_spec.
    + apply Sorted_inv in Hs as [Hs Hhd].
      constructor.
      * apply IH; [done|]. intros z Hz. apply Hr. by right.
      * destruct l as [|z l]; simpl.
        -- constructor. apply Hnot; [apply Hr; by left|done].
        -- destruct (before x z).
           ++ constructor. apply Hnot; [apply Hr; by left|done].
           ++ constructor. by apply HdRel_inv in Hhd.
Qed.

Lemma sorted_by_stable l :
  StronglySorted R0 l -> Sorted lex (sorted_by before l).
Proof.
  induction l as [|x l IH] using rev_ind; intros Hs; [constructor|].
  rewrite sorted_by_snoc. apply insort_stable.
  - apply IH. by apply StronglySorted_app_inv in Hs as (? & _).
  - intros y Hy. apply elem_of_sorted_by in Hy.
    apply StronglySorted_app_inv in Hs as (_ & _ & Hs). apply Hs; [done|by left].
Qed.

Lemma sorted_by_strongly l :
  (forall a b c, R0 a b -> R0 b c -> R0 a c) ->
  StronglySorted R0 l -> StronglySorted lex (sorted_by before l).
Proof.
  intros Htrans Hs. apply Sorted.Sorted_StronglySorted; [|by apply sorted_by_stable].
  intros a b c [Hab|[Hab Hab']] [Hbc|[Hbc Hbc']]; unfold lex.
  - left. lia.
  - left. lia.
  - left. lia.
  - right. split; [lia|]. by eapply Htrans.
Qed.

End StableSort.

Lemma StronglySorted_impl {A} (R R' : A -> A -> Prop) l :
  (forall a b, R a b -> R' a b) -> StronglySorted R l -> StronglySorted R' l.
Proof.
  intros HR. induction 1; constructor; [done|].
  eapply Forall_impl; [done|]. auto.
Qed.

Lemma ascending_rows (s : series Z) :
  ascending s -> StronglySorted (fun a b => fst a < fst b) s.
Proof.
  unfold ascending. induction s as [|r s IH]; intros Hs; [constructor|].
  rewrite fmap_cons in Hs. apply StronglySorted_inv in Hs as [Hs Hall].
  constructor; [by apply IH|]. exact (proj1 (Forall_fmap fst (Z.lt (fst r)) s) Hall).
Qed.

(** The rows of an ascending series in the order of [nlargest]. *)
Lemma nlargest_ranked (s : series Z) :
  ascending s ->
  StronglySorted larger_first (sorted_by (fun a b => snd b <? snd a) s).
Proof.
  intros Hs.
  eapply StronglySorted_impl;
    [|apply (sorted_by_strongly (fun a : Z * Z => - snd a) _
               (fun a b => fst a < fst b))].
  - intros a b. unfold larger_first. cbv beta. lia.
  - intros a b. rewrite Z.ltb_lt. lia.
  - intros a b c. lia.
  - by apply ascending_rows.
Qed.

Lemma nsmallest_ranked (s : series Z) :
  ascending s ->
  StronglySorted smaller_first (sorted_by (fun a b => snd a <? snd b) s).
Proof.
  intros Hs.
  eapply StronglySorted_impl;
    [|apply (sorted_by_strongly (fun a : Z * Z => snd a) _
               (fun a b => fst a < fst b))].
  - intros a b. unfold smaller_first. cbv beta. lia.
  - intros a b. by rewrite Z.ltb_lt.
  - intros a b c. lia.
  - by apply ascending_rows.
Qed.

(** What the labels of the first [n] rows of a ranking are. *)
Lemma top_of_ranking (R : Z * Z -> Z * Z -> Prop) n (s ranked : series Z) top :
  ascending s -> ranked ≡ₚ s -> StronglySorted R ranked ->
  top = fst <$> take n ranked ->
  length top = (n `min` length s)%nat
  /\ NoDup top
  /\ (forall p, p ∈ top -> exists c, (p, c) ∈ s)
  /\ (forall i j p q cp cq,
        top !! i = Some p -> top !! j = Some q -> (i < j)%nat ->
        (p, cp) ∈ s -> (q, cq) ∈ s -> R (p, cp) (q, cq))
  /\ (forall p q cp cq,
        p ∈ top -> q ∉ top -> (p, cp) ∈ s -> (q, cq) ∈ s -> R (p, cp) (q, cq)).
Proof.
  intros Hasc Hperm Hsorted ->.
  assert (Hin : forall p c, (p, c) ∈ take n ranked -> (p, c) ∈ s).
  { intros p c H. rewrite <- Hperm. revert H. apply subseteq_take. }
  assert (Hval : forall p c c', (p, c) ∈ take n ranked -> (p, c') ∈ s -> c = c').
  { intros p c c' H H'. eapply ascending_functional; eauto. }
  split; [|split; [|split; [|split]]].
  - rewrite length_fmap, length_take. by rewrite Hperm.
  - apply NoDup_fmap_fst.
    + intros p c c' H H'. apply (Hval p c c' H). by apply Hin.
    + eapply sublist_NoDup; [|apply sublist_take]. rewrite Hperm.
      eapply NoDup_fmap_1. by apply ascending_NoDup.
  - intros p ([p' c] & -> & H)%list_elem_of_fmap. exists c. by apply Hin.
  - intros i j p q cp cq Hi Hj Hij Hp Hq.
    rewrite list_lookup_fmap in Hi, Hj.
    destruct (take n ranked !! i) as [[p' cp']|] eqn:Ei; [|done].
    destruct (take n ranked !! j) as [[q' cq']|] eqn:Ej; [|done].
    simpl in Hi, Hj. injection Hi as ->. injection Hj as ->.
    assert (cp' = cp) as -> by (eapply Hval; [by eapply list_elem_of_lookup_2|done]).
    assert (cq' = cq) as -> by (eapply Hval; [by eapply list_elem_of_lookup_2|done]).
    assert (Hs' : StronglySorted R (take n ranked)).
    { rewrite <- (take_drop n ranked) in Hsorted.
      by apply StronglySorted_app_inv in Hsorted as (? & _). }
    rewrite <- (take_drop_middle _ _ _ Ej) in Hs'.
    apply StronglySorted_app_inv in Hs' as (_ & _ & Hs'). apply Hs'; [|by left].
    apply (list_elem_of_lookup_2 _ i). rewrite lookup_take_lt by done. exact Ei.
  - intros p q cp cq ([p' cp'] & -> & Hp')%list_elem_of_fmap Hq Hp Hqs. simpl in *.
    assert (cp' = cp) as -> by (by eapply Hval).
    rewrite <- Hperm, <- (take_drop n ranked), elem_of_app in Hqs.
    destruct Hqs as [Hqs|Hqs].
    { destruct Hq. apply list_elem_of_fmap. by exists (q, cq). }
    rewrite <- (take_drop n ranked) in Hsorted.
    apply StronglySorted_app_inv in Hsorted as (_ & _ & Hsorted). by apply Hsorted.
Qed.

(* ===================================================================== *)
(** * The daily routine: the hours of the day *)

Lemma upsert_sum k v (s : series Z) :
  sumZ (snd <$> upsert Z.add k v s) = sumZ (snd <$> s) + v.
Proof.
  induction s as [|[k' v'] s IH]; cbn [upsert].
  - simpl. lia.
  - destruct (k <? k'); [rewrite !fmap_cons; simpl; lia|].
    destruct (k =? k'); rewrite !fmap_cons; cbn [snd sumZ foldr].
    + fold (sumZ (snd <$> s)). lia.
    + fold (sumZ (snd <$> upsert Z.add k v s)). fold (sumZ (snd <$> s)). lia.
Qed.

(** The sizes of the groups add up to the number of rows. *)
Lemma groupby_size_sum keys :
  sumZ (snd <$> groupby_size keys) = Z.of_nat (length keys).
Proof.
  unfold groupby_size.
  induction keys as [|k keys IH] using rev_ind; [done|].
  rewrite fmap_app. change ((fun k => (k, 1)) <$> [k]) with [(k, 1)].
  rewrite groupby_snoc, upsert_sum, IH, length_app. simpl. lia.
Qed.

(** The three values of the dict of a run past the guard. *)
Lemma analyze_daily_routine_hours parse_column data patterns data' :
  analyze_daily_routine parse_column data = Ok (patterns, data') ->
  is_Some (patterns !! "hourly_activity") ->
  exists col ts,
    getitem "datetime" (drop_duplicated_columns data) = Ok col
    /\ to_datetime parse_column col = Ok ts
    /\ patterns !! "hourly_activity" = Some (PCounts (groupby_size (hour <$> ts)))
    /\ patterns !! "peak_hours"
       = Some (PHours (nlargest 3 (groupby_size (hour <$> ts))))
    /\ patterns !! "quiet_hours"
       = Some (PHours (nsmallest 3 (groupby_size (hour <$> ts)))).
Proof.
  intros Hrun Hsome. destruct (routine_guard data) eqn:Hg.
  { rewrite analyze_daily_routine_guarded in Hrun by done.
    injection Hrun as <- _. rewrite lookup_empty in Hsome. by destruct Hsome. }
  apply analyze_daily_routine_Ok in Hrun
    as (col & ts & wake & sleep & Hcol & Hts & _ & _ & ->); [|done].
  exists col, ts. split; [done|]. split; [done|].
  split; [by rewrite !lookup_insert_ne, lookup_insert_eq by done|].
  split; [by rewrite !lookup_insert_ne, lookup_insert_eq by done|].
  by rewrite lookup_insert_eq.
Qed.

(** X6.  The 'hourly_activity' of [analyze_daily_routine] lists the hours of
    the day at which there are events, in ascending order and each once, with
    the number of events at that hour: every count is at least 1, and the
    counts add up to the number of events. *)
Theorem hourly_activity_counts parse_column data patterns data' hourly :
  analyze_daily_routine parse_column data = Ok (patterns, data') ->
  patterns !! "hourly_activity" = Some (PCounts hourly) ->
  exists col ts,
    getitem "datetime" (drop_duplicated_columns data) = Ok col
    /\ to_datetime parse_column col = Ok ts
    /\ ascending hourly
    /\ (forall h c, (h, c) ∈ hourly
                    <-> h ∈ hour <$> ts /\ c = Z.of_nat (occurrences h (hour <$> ts)))
    /\ (forall h c, (h, c) ∈ hourly -> 1 <= c)
    /\ sumZ (snd <$> hourly) = Z.of_nat (length ts).
Proof.
  intros Hrun Hh.
  destruct (analyze_daily_routine_hours _ _ _ _ Hrun) as
    (col & ts & Hcol & Hts & Hh' & _); [by rewrite Hh|].
  rewrite Hh in Hh'. injection Hh' as ->.
  exists col, ts. split; [done|]. split; [done|].
  split; [apply groupby_ascending|].
  split; [intros h c; apply groupby_size_elem_of|].
  split.
  - intros h c [Hin ->]%groupby_size_elem_of. apply occurrences_pos in Hin. lia.
  - by rewrite groupby_size_sum, length_fmap.
Qed.

(** On events at 9, 8, 9 and 20 o'clock. *)
Lemma hourly_activity_counts_witness :
  let ts := [Datetime jan_1 9; Datetime jan_1 8; Datetime (jan_1 + 1) 9;
             Datetime (jan_1 + 1) 20] in
  let hourly := [(8, 1); (9, 2); (20, 1)] in
  exists col ts',
    getitem "datetime" (drop_duplicated_columns (frame_of ts)) = Ok col
    /\ to_datetime no_parse col = Ok ts'
    /\ ascending hourly
    /\ (forall h c, (h, c) ∈ hourly
                    <-> h ∈ hour <$> ts' /\ c = Z.of_nat (occurrences h (hour <$> ts')))
    /\ (forall h c, (h, c) ∈ hourly -> 1 <= c)
    /\ sumZ (snd <$> hourly) = Z.of_nat (length ts').
Proof.
  intros ts hourly.
  apply (hourly_activity_counts no_parse (frame_of ts)
           (result_of ∅ (analyze_daily_routine no_parse (frame_of ts)))
           (frame_after (frame_of ts) (analyze_daily_routine no_parse (frame_of ts)))).
  - reflexivity.
  - reflexivity.
Defined.

(** X7.  The 'peak_hours' of [analyze_daily_routine] are the (at most
    three) hours with the most events: they are distinct hours of
    'hourly_activity', listed from the busiest on, the earlier hour first
    among hours with the same count; and no hour left out has more events
    than a peak hour, nor as many at an earlier hour. *)
Theorem peak_hours_are_the_busiest parse_column data patterns data' hourly peak :
  analyze_daily_routine parse_column data = Ok (patterns, data') ->
  patterns !! "hourly_activity" = Some (PCounts hourly) ->
  patterns !! "peak_hours" = Some (PHours peak) ->
  length peak = (3 `min` length hourly)%nat
  /\ NoDup peak
  /\ (forall p, p ∈ peak -> exists c, (p, c) ∈ hourly)
  /\ (forall i j p q cp cq,
        peak !! i = Some p -> peak !! j = Some q -> (i < j)%nat ->
        (p, cp) ∈ hourly -> (q, cq) ∈ hourly ->
        cq < cp \/ (cp = cq /\ p < q))
  /\ (forall p q cp cq,
        p ∈ peak -> q ∉ peak -> (p, cp) ∈ hourly -> (q, cq) ∈ hourly ->
        cq < cp \/ (cp = cq /\ p < q)).
Proof.
  intros Hrun Hh Hp.
  destruct (analyze_daily_routine_hours _ _ _ _ Hrun) as
    (col & ts & _ & _ & Hh' & Hp' & _); [by rewrite Hh|].
  rewrite Hh in Hh'. injection Hh' as ->. rewrite Hp in Hp'. injection Hp' as ->.
  apply (top_of_ranking larger_first 3 (groupby_size (hour <$> ts))
           (sorted_by (fun a b => snd b <? snd a) (groupby_size (hour <$> ts)))).
  - apply groupby_ascending.
  - apply sorted_by_Permutation.
  - apply nlargest_ranked, groupby_ascending.
  - done.
Qed.

(** On events at 9, 8, 9, 20, 7, 20 and 11 o'clock: 9 and 20 o'clock have
    two events each, 7 o'clock is the earliest of the hours with one. *)
Lemma peak_hours_are_the_busiest_witness :
  let hourly := [(7, 1); (8, 1); (9, 2); (11, 1); (20, 2)] in
  let peak := [9; 20; 7] in
  length peak = (3 `min` length hourly)%nat
  /\ NoDup peak
  /\ (forall p, p ∈ peak -> exists c, (p, c) ∈ hourly)
  /\ (forall i j p q cp cq,
        peak !! i = Some p -> peak !! j = Some q -> (i < j)%nat ->
        (p, cp) ∈ hourly -> (q, cq) ∈ hourly ->
        cq < cp \/ (cp = cq /\ p < q))
  /\ (forall p q cp cq,
        p ∈ peak -> q ∉ peak -> (p, cp) ∈ hourly -> (q, cq) ∈ hourly ->
        cq < cp \/ (cp = cq /\ p < q)).
Proof.
  intros hourly peak.
  pose (data := frame_of [Datetime jan_1 9; Datetime jan_1 8; Datetime jan_1 9;
                          Datetime jan_1 20; Datetime jan_1 7; Datetime jan_1 20;
                          Datetime jan_1 11]).
  apply (peak_hours_are_the_busiest no_parse data
           (result_of ∅ (analyze_daily_routine no_parse data))
           (frame_after data (analyze_daily_routine no_parse data))).
  - reflexivity.
  - reflexivity.
  - reflexivity.
Defined.

(** X8.  The 'quiet_hours' of [analyze_daily_routine] are the (at most
    three) hours with the fewest events among the hours that have events at
    all: distinct hours of 'hourly_activity', listed from the quietest on,
    the earlier hour first among hours with the same count; no hour left out
    has fewer events than a quiet hour, nor as many at an earlier hour.  An
    hour of the day without any event is never a quiet hour. *)
Theorem quiet_hours_are_the_quietest parse_column data patterns data' hourly quiet :
  analyze_daily_routine parse_column data = Ok (patterns, data') ->
  patterns !! "hourly_activity" = Some (PCounts hourly) ->
  patterns !! "quiet_hours" = Some (PHours quiet) ->
  length quiet = (3 `min` length hourly)%nat
  /\ NoDup quiet
  /\ (forall p, p ∈ quiet -> exists c, (p, c) ∈ hourly /\ 1 <= c)
  /\ (forall i j p q cp cq,
        quiet !! i = Some p -> quiet !! j = Some q -> (i < j)%nat ->
        (p, cp) ∈ hourly -> (q, cq) ∈ hourly ->
        cp < cq \/ (cp = cq /\ p < q))
  /\ (forall p q cp cq,
        p ∈ quiet -> q ∉ quiet -> (p, cp) ∈ hourly -> (q, cq) ∈ hourly ->
        cp < cq \/ (cp = cq /\ p < q)).
Proof.
  intros Hrun Hh Hq.
  destruct (analyze_daily_routine_hours _ _ _ _ Hrun) as
    (col & ts & _ & _ & Hh' & _ & Hq'); [by rewrite Hh|].
  rewrite Hh in Hh'. injection Hh' as ->. rewrite Hq in Hq'. injection Hq' as ->.
  destruct (top_of_ranking smaller_first 3 (groupby_size (hour <$> ts))
              (sorted_by (fun a b => snd a <? snd b) (groupby_size (hour <$> ts)))
              (nsmallest 3 (groupby_size (hour <$> ts))))
    as (Hlen & Hnd & Hin & Hord & Hout).
  - apply groupby_ascending.
  - apply sorted_by_Permutation.
  - apply nsmallest_ranked, groupby_ascending.
  - done.
  - split; [done|]. split; [done|]. split; [|by split].
    intros p Hp. destruct (Hin p Hp) as [c Hc]. exists c. split; [done|].
    apply groupby_size_elem_of in Hc as [Hc ->]. apply occurrences_pos in Hc. lia.
Qed.

(** On events at 9, 8, 9, 20, 7, 20 and 11 o'clock: 7, 8 and 11 o'clock
    have one event each. *)
Lemma quiet_hours_are_the_quietest_witness :
  let hourly := [(7, 1); (8, 1); (9, 2); (11, 1); (20, 2)] in
  let quiet := [7; 8; 11] in
  length quiet = (3 `min` length hourly)%nat
  /\ NoDup quiet
  /\ (forall p, p ∈ quiet -> exists c, (p, c) ∈ hourly /\ 1 <= c)
  /\ (forall i j p q cp cq,
        quiet !! i = Some p -> quiet !! j = Some q -> (i < j)%nat ->
        (p, cp) ∈ hourly -> (q, cq) ∈ hourly ->
        cp < cq \/ (cp = cq /\ p < q))
  /\ (forall p q cp cq,
        p ∈ quiet -> q ∉ quiet -> (p, cp) ∈ hourly -> (q, cq) ∈ hourly ->
        cp < cq \/ (cp = cq /\ p < q)).
Proof.
  intros hourly quiet.
  pose (data := frame_of [Datetime jan_1 9; Datetime jan_1 8; Datetime jan_1 9;
                          Datetime jan_1 20; Datetime jan_1 7; Datetime jan_1 20;
                          Datetime jan_1 11]).
  apply (quiet_hours_are_the_quietest no_parse data
           (result_of ∅ (analyze_daily_routine no_parse data))
           (frame_after data (analyze_daily_routine no_parse data))).
  - reflexivity.
  - reflexivity.
  - reflexivity.
Defined.

(* ===================================================================== *)
(** * Life events: the order of the list *)

(** The anomalies come out in the order of the dates of the counts. *)
Lemma volume_loop_dates rolling_avg sd items events :
  StronglySorted Z.lt (fst <$> items) ->
  volume_loop rolling_avg sd items = Ok events ->
  StronglySorted Z.lt (event_date <$> events).
Proof.
  induction items as [|[day count] items IH] in events |- *; intros Hs Hrun.
  { injection Hrun as <-. constructor. }
  rewrite fmap_cons in Hs. apply StronglySorted_inv in Hs as [Hs Hall].
  cbn [volume_loop] in Hrun.
  apply bind_Ok in Hrun as (event & Hev & Hrun).
  apply bind_Ok in Hrun as (rest & Hrest & [= <-]).
  assert (Hlater : Forall (Z.lt day) (event_date <$> rest)).
  { apply Forall_forall. intros d (ev & -> & Hin)%list_elem_of_fmap.
    destruct (volume_loop_sound _ _ _ _ _ Hrest Hin)
      as (day' & count' & e & s & c & Hitem & _ & _ & _ & _ & ->).
    simpl. rewrite Forall_forall in Hall. apply Hall.
    apply list_elem_of_fmap. by exists (day', count'). }
  assert (Hcases : event = [] \/ exists ev, event = [ev] /\ event_date ev = day).
  { destruct (series_get day _ rolling_avg) as [e|]; [|injection Hev as <-; by left].
    destruct sd as [s|]; [|injection Hev as <-; by left].
    destruct (deviates count e s); [|injection Hev as <-; by left].
    apply bind_Ok in Hev as (c & _ & [= <-]). right. by eexists. }
  destruct Hcases as [->|(ev & -> & Hd)]; simpl; [by apply IH|].
  rewrite Hd. constructor; [by apply IH|done].
Qed.

Lemma travel_events_heads periods ev :
  ev ∈ travel_events periods -> event_date ev ∈ concat periods.
Proof.
  unfold travel_events. intros Hin.
  apply list_elem_of_omap in Hin as (period & Hin & Hev).
  destruct period as [|first rest]; [done|].
  destruct (2 <=? length (first :: rest))%nat; [|done].
  injection Hev as <-.
  apply (elem_of_concat _ _ (first :: rest)); [done | apply list_elem_of_here].
Qed.

(** The travel periods come out in the order of their first dates. *)
Lemma travel_events_sorted periods :
  StronglySorted Z.lt (concat periods) ->
  StronglySorted Z.lt (event_date <$> travel_events periods).
Proof.
  induction periods as [|period periods IH]; intros Hs; [constructor|].
  simpl in Hs. apply StronglySorted_app_inv in Hs as (_ & Hs & Hlt).
  change (travel_events (period :: periods))
    with (travel_events ([period] ++ periods)).
  rewrite travel_events_app.
  destruct (travel_events [period]) as [|ev l] eqn:He; [by apply IH|].
  assert (l = [] /\ event_date ev ∈ period) as [-> Hin].
  { unfold travel_events in He. cbn [omap list_omap] in He.
    destruct period as [|first rest]; [done|].
    destruct (2 <=? length (first :: rest))%nat; [|done].
    injection He as <- <-. split; [done|]. by left. }
  simpl. constructor; [by apply IH|].
  apply Forall_forall. intros d (ev' & -> & Hin')%list_elem_of_fmap.
  apply Hlt; [done|]. by apply travel_events_heads.
Qed.

Lemma _detect_travel_patterns_sorted data ts travel :
  _detect_travel_patterns data ts = Ok travel ->
  StronglySorted Z.lt (event_date <$> travel).
Proof.
  unfold _detect_travel_patterns. intros H.
  apply bind_Ok in H as (activity & _ & H).
  destruct (masked _ ts); injection H as <-; [constructor|].
  apply travel_events_sorted. rewrite travel_periods_concat.
  apply travel_dates_increasing.
Qed.

(** What a run past the guard returns. *)
Lemma detect_life_events_Ok parse_column data events data' :
  events_guard data = false ->
  detect_life_events parse_column data = Ok (events, data') ->
  exists ts anomalies travel,
    event_times parse_column data = Ok ts
    /\ data' = with_dates data ts
    /\ is_Ok (getitem "date" data')
    /\ volume_anomalies (daily_counts_of ts) = Ok anomalies
    /\ (if has_column "predicted_activity" data'
        then _detect_travel_patterns data' ts else Ok []) = Ok travel
    /\ events = sorted_by (fun a b => event_date a <? event_date b)
                          (anomalies ++ travel).
Proof.
  intros Hg. rewrite detect_life_events_unfold by done.
  destruct (event_times parse_column data) as [ts|]; [|done]. cbv zeta.
  destruct (getitem "date" _) eqn:Hd; [|done].
  destruct (volume_anomalies _) as [anomalies|] eqn:Ha; [|done].
  destruct (if has_column "predicted_activity" _ then _ else _)
    as [travel|] eqn:Ht; [|done].
  intros [= <- <-]. exists ts, anomalies, travel.
  repeat split; try done. by rewrite Hd.
Qed.

Lemma StronglySorted_app_intro {A} (R : A -> A -> Prop) l1 l2 :
  StronglySorted R l1 -> StronglySorted R l2 ->
  (forall x1 x2, x1 ∈ l1 -> x2 ∈ l2 -> R x1 x2) ->
  StronglySorted R (l1 ++ l2).
Proof.
  induction 1 as [|x l1 Hs IH Hall]; intros H2 H12; [done|].
  simpl. constructor.
  - apply IH; [done|]. intros x1 x2 Hx1. apply H12. by right.
  - apply Forall_app. split; [done|]. apply Forall_forall. intros x2 Hx2.
    apply H12; [by left|done].
Qed.

Lemma StronglySorted_by_key {A} (key : A -> Z) (P : A -> Prop) l :
  StronglySorted Z.lt (key <$> l) -> Forall P l ->
  StronglySorted (fun a b => P a /\ P b /\ key a < key b) l.
Proof.
  induction l as [|x l IH]; intros Hs HP; [constructor|].
  rewrite fmap_cons in Hs. apply StronglySorted_inv in Hs as [Hs Hall].
  apply Forall_cons in HP as [Hx HP].
  constructor; [by apply IH|].
  rewrite Forall_forall in HP. rewrite Forall_forall in Hall. apply Forall_forall.
  intros y Hy. split; [done|]. split; [by apply HP|].
  apply Hall, list_elem_of_fmap. by exists y.
Qed.

(** X9.  The events [detect_life_events] returns are in the order of their
    dates, and where an anomaly and a travel period have the same date the
    anomaly comes first; so no two anomalies have the same date, and no two
    travel periods start on the same date. *)
Theorem life_events_in_date_order parse_column data events data' :
  detect_life_events parse_column data = Ok (events, data') ->
  StronglySorted event_order events.
Proof.
  intros Hrun. destruct (events_guard data) eqn:Hg.
  { rewrite detect_life_events_guarded in Hrun by done.
    injection Hrun as <- _. constructor. }
  apply detect_life_events_Ok in Hrun
    as (ts & anomalies & travel & _ & _ & _ & Han & Htr & ->); [|done].
  pose (R0 := fun a b : life_event =>
          (is_anomaly a = is_anomaly b /\ event_date a < event_date b)
          \/ (is_anomaly a = true /\ is_anomaly b = false)).
  eapply StronglySorted_impl;
    [|apply (sorted_by_strongly event_date _ R0)].
  - intros a b [Hlt|[Heq [[_ Hlt]|[Ha Hb]]]]; [by left|lia|by right].
  - intros a b. by rewrite Z.ltb_lt.
  - intros a b c [[Hab Hab']|[Ha Hb]] [[Hbc Hbc']|[Hb' Hc]]; unfold R0.
    + left. split; [congruence|lia].
    + right. split; [congruence|done].
    + right. split; [done|congruence].
    + congruence.
  - assert (Hanom : Forall (fun ev => is_anomaly ev = true) anomalies).
    { apply Forall_forall. intros ev Hin. by eapply volume_loop_anomalies. }
    assert (Htrav : Forall (fun ev => is_anomaly ev = false) travel).
    { apply Forall_forall. intros ev Hin.
      destruct (has_column "predicted_activity" _).
      - by eapply _detect_travel_patterns_not_anomalies.
      - injection Htr as <-. by apply elem_of_nil in Hin. }
    apply StronglySorted_app_intro.
    + eapply StronglySorted_impl;
        [|apply (StronglySorted_by_key event_date _ _
                   (volume_loop_dates _ _ _ _ (groupby_ascending _ _) Han) Hanom)].
      intros a b (Ha & Hb & Hlt). left. split; [congruence|done].
    + assert (Hsorted : StronglySorted Z.lt (event_date <$> travel)).
      { destruct (has_column "predicted_activity" _).
        - by eapply _detect_travel_patterns_sorted.
        - injection Htr as <-. constructor. }
      eapply StronglySorted_impl;
        [|apply (StronglySorted_by_key event_date _ _ Hsorted Htrav)].
      intros a b (Ha & Hb & Hlt). left. split; [congruence|done].
    + intros a b Ha Hb. right. rewrite Forall_forall in Hanom, Htrav. auto.
Qed.

(** On daily counts 5, ..., 5, 50, 5, ..., 5 (15 days) with the events of
    the eighth and of the ninth day labelled 'Travel': the anomaly of the
    eighth day comes before the travel period that starts on it. *)
Lemma life_events_in_date_order_witness :
  StronglySorted event_order
    [Anomaly (jan_1 + 7) high_activity (Root 1) 50 (80 # 7);
     TravelPeriod (jan_1 + 7) 2].
Proof.
  pose (ts := events_of_counts jan_1 [5; 5; 5; 5; 5; 5; 5; 50; 5; 5; 5; 5; 5; 5; 5]).
  pose (activity := (fun t => if (date t =? jan_1 + 7) || (date t =? jan_1 + 8)
                              then "Travel" else "Work") <$> ts).
  pose (data := Frame (length ts) [("datetime", Timestamps ts);
                                   ("predicted_activity", Texts activity)]).
  apply (life_events_in_date_order no_parse data _ (with_dates data ts)).
  vm_compute. reflexivity.
Defined.

(* ===================================================================== *)
(** * Life events: what the run does to the caller's frame *)

(** X10.  [detect_life_events] changes nothing of the caller's frame but the
    'date' column, and the 'datetime' column where the frame had none: the
    index and every other column are as before, and a 'datetime' column that
    was there is kept.  After a run past the guard the 'date' column holds
    the dates of the timestamps. *)
Theorem detect_life_events_only_sets_dates parse_column data events data' :
  detect_life_events parse_column data = Ok (events, data') ->
  index data' = index data
  /\ (forall name, name <> "date" -> name <> "datetime" ->
        getitem name data' = getitem name data
        /\ has_column name data' = has_column name data)
  /\ (has_column "datetime" data = true ->
      getitem "datetime" data' = getitem "datetime" data)
  /\ (if events_guard data then data' = data
      else exists ts, event_times parse_column data = Ok ts
                      /\ getitem "datetime" data' = Ok (Timestamps ts)
                      /\ getitem "date" data' = Ok (Dates (date <$> ts))).
Proof.
  intros Hrun. destruct (events_guard data) eqn:Hg.
  { rewrite detect_life_events_guarded in Hrun by done. by injection Hrun as _ <-. }
  apply detect_life_events_Ok in Hrun
    as (ts & anomalies & travel & Hts & -> & Hd & _); [|done].
  unfold with_dates in *.
  split; [|split; [|split]].
  - rewrite index_assign. by destruct (_ && _); rewrite ?index_assign.
  - intros name H1 H2.
    rewrite getitem_assign_ne, has_column_assign_ne by done.
    destruct (_ && _); [|done].
    by rewrite getitem_assign_ne, has_column_assign_ne by done.
  - intros Hdt. rewrite Hdt. simpl. by rewrite getitem_assign_ne.
  - exists ts. split; [done|]. split.
    + rewrite getitem_assign_ne by done. by apply (event_times_datetime parse_column).
    + destruct (getitem "date" _) as [col|] eqn:Hcol; [|done].
      by apply getitem_assign_eq in Hcol as ->.
Qed.

(** On a frame of ten events with a 'timestamp' column only: the run adds
    the 'datetime' and the 'date' column and keeps the 'timestamp' column. *)
Lemma detect_life_events_only_sets_dates_witness :
  let ts := day_events jan_1 10 in
  let data := Frame 10 [("timestamp", Timestamps ts)] in
  let data' := Frame 10 [("timestamp", Timestamps ts); ("datetime", Timestamps ts);
                         ("date", Dates (replicate 10 jan_1))] in
  index data' = index data
  /\ (forall name, name <> "date" -> name <> "datetime" ->
        getitem name data' = getitem name data
        /\ has_column name data' = has_column name data)
  /\ (has_column "datetime" data = true ->
      getitem "datetime" data' = getitem "datetime" data)
  /\ (if events_guard data then data' = data
      else exists ts', event_times no_parse data = Ok ts'
                       /\ getitem "datetime" data' = Ok (Timestamps ts')
                       /\ getitem "date" data' = Ok (Dates (date <$> ts'))).
Proof.
  intros ts data data'.
  apply (detect_life_events_only_sets_dates no_parse data []).
  vm_compute. reflexivity.
Defined.

(** X11.  Calling [detect_life_events] again on the frame a first call has
    left returns the same events and leaves that frame as it is: the columns
    the first call has set are set to the same values again. *)
Theorem detect_life_events_again parse_column data events data' :
  detect_life_events parse_column data = Ok (events, data') ->
  detect_life_events parse_column data' = Ok (events, data').
Proof. apply detect_life_events_twice. Qed.

(** On a frame of ten events with a 'timestamp' column only. *)
Lemma detect_life_events_again_witness :
  let ts := day_events jan_1 10 in
  let data' := Frame 10 [("timestamp", Timestamps ts); ("datetime", Timestamps ts);
                         ("date", Dates (replicate 10 jan_1))] in
  detect_life_events no_parse data' = Ok ([], data').
Proof.
  intros ts data'.
  apply (detect_life_events_again no_parse (Frame 10 [("timestamp", Timestamps ts)])).
  vm_compute. reflexivity.
Defined.

(* ===================================================================== *)
(** * Travel periods: every period is a maximal run *)

Lemma masked_elem_of {A} (mask : list bool) (l : list A) x :
  x ∈ masked mask l <-> exists i, mask !! i = Some true /\ l !! i = Some x.
Proof.
  unfold masked. rewrite list_elem_of_fmap. split.
  - intros ([b y] & -> & Hin). apply list_elem_of_filter in Hin as [Hb Hin].
    simpl in Hb. subst b. apply list_elem_of_lookup in Hin as [i Hi].
    exists i. unfold zip in Hi. apply lookup_zip_with_Some in Hi
      as (b & y' & [= <- <-] & Hm & Hl). done.
  - intros (i & Hm & Hl). exists (true, x). split; [done|].
    apply list_elem_of_filter. split; [done|].
    apply (list_elem_of_lookup_2 _ i). unfold zip. apply lookup_zip_with_Some.
    by exists true, x.
Qed.

(** The travel dates are the dates of the rows labelled 'Travel'. *)
Lemma travel_dates_elem_of activity ts x :
  x ∈ travel_dates activity ts <-> travel_day activity ts x.
Proof.
  unfold travel_dates, sorted, travel_day.
  rewrite elem_of_sorted_by, elem_of_unique, list_elem_of_fmap. split.
  - intros (t & -> & Hin). apply elem_of_sorted_by, masked_elem_of in Hin as (i & Hm & Hl).
    by exists i, t.
  - intros (i & t & Hm & Hl & <-). exists t. split; [done|].
    apply elem_of_sorted_by, masked_elem_of. by exists i.
Qed.

(** A list of dates starts with a run that ends at the first gap. *)
Lemma first_run dates :
  dates <> [] ->
  exists run rest, dates = run ++ rest /\ run <> [] /\ consecutive run
                   /\ gap_between run rest.
Proof.
  induction dates as [|x l IH]; [done|]. intros _.
  destruct l as [|y l].
  { by exists [x], []. }
  destruct IH as (run & rest & Heq & Hne & Hc & Hgap); [done|].
  destruct run as [|y' run]; [done|]. injection Heq as <- Heq.
  destruct (Z_le_gt_dec (y - x) 1) as [Hle|Hgt].
  - exists (x :: y :: run), rest. rewrite Heq. repeat split; try done.
  - exists [x], (y :: l). repeat split; try done.
    intros x' y' [= <-] [= <-]. lia.
Qed.

(** Every period of [travel_periods] is a maximal run of the dates. *)
Lemma travel_periods_sound dates period :
  period ∈ travel_periods dates ->
  exists pre post, dates = pre ++ period ++ post /\ maximal_run pre period post.
Proof.
  remember (length dates) as n eqn:Hn.
  revert dates Hn period.
  induction n as [n IH] using lt_wf_ind. intros dates Hn period Hin.
  destruct dates as [|x l] eqn:Hd; [by apply elem_of_nil in Hin|].
  destruct (first_run (x :: l)) as (run & rest & Heq & Hne & Hc & Hgap); [done|].
  rewrite Heq, travel_periods_app, travel_periods_consecutive in Hin by done.
  apply elem_of_cons in Hin as [->|Hin].
  - by exists [], rest.
  - assert (Hlen : (length rest < n)%nat).
    { subst n. rewrite Heq, length_app. destruct run; [done|]. simpl. lia. }
    destruct (IH _ Hlen rest eq_refl period Hin) as (pre & post & Hrest & Hmax).
    exists (run ++ pre), post. split; [by rewrite Heq, Hrest, <- app_assoc|].
    destruct Hmax as (Hp & Hpc & Hg1 & Hg2). repeat split; try done.
    intros a b Ha Hb. destruct pre as [|p pre].
    + rewrite app_nil_r in Ha. apply (Hgap a b Ha).
      rewrite Hrest. destruct period; [done|]. done.
    + apply (Hg1 a b); [|done]. rewrite last_app in Ha.
      by destruct (last (p :: pre)) eqn:E; [|by apply last_None in E].
Qed.

(** An increasing run without gaps counts the days up. *)
Lemma consecutive_increasing run d :
  StronglySorted Z.lt run -> consecutive run -> head run = Some d ->
  forall i x, run !! i = Some x -> x = d + Z.of_nat i.
Proof.
  induction run as [|a run IH] in d |- *; [done|]. intros Hs Hc [= ->] i x Hi.
  destruct i as [|i]; [injection Hi as <-; lia|]. simpl in Hi.
  destruct run as [|b run]; [done|]. destruct Hc as [Hab Hc].
  apply StronglySorted_inv in Hs as [Hs Hall].
  apply Forall_cons in Hall as [Hlt _].
  rewrite (IH b Hs Hc eq_refl i x Hi). lia.
Qed.

Lemma increasing_head l x y :
  StronglySorted Z.lt l -> head l = Some x -> y ∈ l -> x <= y.
Proof.
  destruct l as [|a l]; [done|]. intros Hs [= ->] Hy.
  apply StronglySorted_inv in Hs as [_ Hall]. rewrite Forall_forall in Hall.
  apply elem_of_cons in Hy as [->|Hy]; [lia|]. specialize (Hall _ Hy). lia.
Qed.

Lemma increasing_last l x y :
  StronglySorted Z.lt l -> last l = Some x -> y ∈ l -> y <= x.
Proof.
  induction l as [|a l IH] using rev_ind; [done|]. intros Hs Hl Hy.
  rewrite last_snoc in Hl. injection Hl as ->.
  apply StronglySorted_app_inv in Hs as (_ & _ & Hlt).
  apply elem_of_app in Hy as [Hy|Hy].
  - assert (y < x) by (apply Hlt; [done|by left]). lia.
  - apply list_elem_of_singleton in Hy. lia.
Qed.

(** X12.  Every travel period [_detect_travel_patterns] reports stands for a
    maximal run of days with rows labelled 'Travel': its duration is 2 days
    or more, there is such a row on every day from its date on for the
    duration, and there is none on the day before nor on the day after. *)
Theorem travel_period_is_a_maximal_run data ts activity events d n :
  getitem "predicted_activity" data = Ok activity ->
  _detect_travel_patterns data ts = Ok events ->
  TravelPeriod d n ∈ events ->
  (2 <= n)%nat
  /\ (forall x, d <= x < d + Z.of_nat n -> travel_day activity ts x)
  /\ ~ travel_day activity ts (d - 1)
  /\ ~ travel_day activity ts (d + Z.of_nat n).
Proof.
  intros Hact Hrun Hin.
  unfold _detect_travel_patterns in Hrun. rewrite Hact in Hrun. simpl in Hrun.
  destruct (masked _ ts) eqn:Hm; injection Hrun as <-; [by apply elem_of_nil in Hin|].
  clear Hm. unfold travel_events in Hin.
  apply list_elem_of_omap in Hin as (period & Hp & Hev).
  destruct period as [|first rest]; [done|].
  destruct (2 <=? length (first :: rest))%nat eqn:Hlen; [|done].
  injection Hev as -> <-. apply Nat.leb_le in Hlen.
  apply travel_periods_sound in Hp as (pre & post & Hdates & _ & Hc & Hg1 & Hg2).
  pose proof (travel_dates_increasing activity ts) as Hs. rewrite Hdates in Hs.
  apply StronglySorted_app_inv in Hs as (Hpre & Hs & H1).
  apply StronglySorted_app_inv in Hs as (Hper & Hpost & H2).
  pose proof (consecutive_increasing _ d Hper Hc eq_refl) as Hday.
  set (period := d :: rest) in *.
  change (S (length rest)) with (length period) in *.
  assert (Hlast : last period = Some (d + Z.of_nat (length period) - 1)).
  { rewrite last_lookup.
    destruct (period !! pred (length period)) as [x|] eqn:Hx.
    - rewrite (Hday _ _ Hx). f_equal. lia.
    - apply lookup_ge_None in Hx. lia. }
  split; [done|]. split; [|split].
  - intros x Hx. apply travel_dates_elem_of. rewrite Hdates.
    apply elem_of_app. right. apply elem_of_app. left.
    destruct (period !! Z.to_nat (x - d)) as [y|] eqn:Hy.
    + rewrite (Hday _ _ Hy) in Hy. apply (list_elem_of_lookup_2 _ _ _) in Hy.
      by replace (d + Z.of_nat (Z.to_nat (x - d))) with x in Hy by lia.
    + apply lookup_ge_None in Hy. lia.
  - rewrite <- travel_dates_elem_of, Hdates. rewrite !elem_of_app.
    intros [Hx|[Hx|Hx]].
    + destruct (last pre) as [p|] eqn:Hp; [|by apply last_None in Hp; subst pre;
                                              apply elem_of_nil in Hx].
      pose proof (increasing_last _ _ _ Hpre Hp Hx).
      specialize (Hg1 p d Hp eq_refl). lia.
    + pose proof (increasing_head _ _ _ Hper eq_refl Hx). lia.
    + assert (d < d - 1); [|lia]. apply H2; [by left|done].
  - rewrite <- travel_dates_elem_of, Hdates. rewrite !elem_of_app.
    intros [Hx|[Hx|Hx]].
    + assert (d + Z.of_nat (length period) < d); [|lia].
      apply H1; [done|]. apply elem_of_app. left. by left.
    + pose proof (increasing_last _ _ _ Hper Hlast Hx). lia.
    + destruct (head post) as [p|] eqn:Hp;
        [|destruct post; [by apply elem_of_nil in Hx|done]].
      pose proof (increasing_head _ _ _ Hpost Hp Hx).
      specialize (Hg2 _ p Hlast Hp). lia.
Qed.

(** On rows labelled 'Travel' on January 1, 2, 3 and 10: the period of 3
    days from January 1 on. *)
Lemma travel_period_is_a_maximal_run_witness :
  let ts := [Datetime (jan_1 + 2) 8; Datetime jan_1 9; Datetime (jan_1 + 9) 7;
             Datetime (jan_1 + 1) 20; Datetime jan_1 22] in
  let activity := Texts (replicate 5 "Travel") in
  (2 <= 3)%nat
  /\ (forall x, jan_1 <= x < jan_1 + Z.of_nat 3 -> travel_day activity ts x)
  /\ ~ travel_day activity ts (jan_1 - 1)
  /\ ~ travel_day activity ts (jan_1 + Z.of_nat 3).
Proof.
  intros ts activity.
  apply (travel_period_is_a_maximal_run
           (Frame 5 [("datetime", Timestamps ts); ("predicted_activity", activity)])
           ts activity [TravelPeriod jan_1 3]).
  - reflexivity.
  - reflexivity.
  - apply list_elem_of_here.
Defined.

(* ===================================================================== *)
(** * Trends: the sign of the slope *)

Lemma polyfit_slope_fraction values :
  (polyfit_slope values
   == inject_Z (slope_numerator values)
      / inject_Z (slope_denominator (length values)))%Q.
Proof.
  unfold polyfit_slope, slope_numerator, slope_denominator. cbv zeta.
  apply Qdiv_comp; unfold Qeq, Qminus, Qplus, Qopp, Qmult, inject_Z; simpl; lia.
Qed.

Lemma polyfit_slope_sign values :
  (2 <= length values)%nat ->
  (0 < slope_numerator values -> (0 < polyfit_slope values)%Q)
  /\ (slope_numerator values < 0 -> (polyfit_slope values < 0)%Q)
  /\ (slope_numerator values = 0 -> (polyfit_slope values == 0)%Q).
Proof.
  intros Hn. pose proof (polyfit_denominator_pos _ Hn) as Hd.
  fold (slope_denominator (length values)) in Hd.
  rewrite polyfit_slope_fraction.
  assert (Hd' : (0 < inject_Z (slope_denominator (length values)))%Q)
    by (unfold Qlt, inject_Z; simpl; lia).
  split; [|split]; intros H.
  - apply Qlt_shift_div_l; [done|]. unfold Qlt, Qmult, inject_Z. simpl. lia.
  - apply Qlt_shift_div_r; [done|]. unfold Qlt, Qmult, inject_Z. simpl. lia.
  - rewrite H. unfold Qdiv. by rewrite Qmult_0_l.
Qed.

Lemma indices_snoc (n : nat) :
  Z.of_nat <$> seq 0 (S n) = (Z.of_nat <$> seq 0 n) ++ [Z.of_nat n].
Proof. by rewrite seq_S, fmap_app. Qed.

Lemma length_indices (n : nat) : length (Z.of_nat <$> seq 0 n) = n.
Proof. by rewrite length_fmap, length_seq. Qed.

Lemma products_snoc (l : list Z) y :
  sumZ (zip_with Z.mul (Z.of_nat <$> seq 0 (length (l ++ [y]))) (l ++ [y]))
  = sumZ (zip_with Z.mul (Z.of_nat <$> seq 0 (length l)) l) + Z.of_nat (length l) * y.
Proof.
  rewrite length_app, Nat.add_1_r, indices_snoc.
  rewrite zip_with_app by apply length_indices.
  rewrite sumZ_app. simpl. lia.
Qed.

(** What one more point adds to the numerator. *)
Lemma slope_numerator_snoc (l : list Z) y :
  let n := Z.of_nat (length l) in
  let x := Z.of_nat <$> seq 0 (length l) in
  slope_numerator (l ++ [y])
  = slope_numerator l
    + ((n * n - sumZ x) * y - (n * sumZ l - sumZ (zip_with Z.mul x l))).
Proof.
  intros n x. unfold slope_numerator. cbv zeta.
  rewrite products_snoc, sumZ_app.
  rewrite length_app, Nat.add_1_r, indices_snoc, sumZ_app. fold x. simpl.
  fold n. replace (Z.of_nat (S (length l))) with (n + 1) by lia. ring.
Qed.

Lemma sumZ_le_bound (l : list Z) y :
  Forall (fun v => v <= y) l -> sumZ l <= Z.of_nat (length l) * y.
Proof. induction 1; simpl; lia. Qed.

(** A point above all others does not lower the numerator; it raises it
    when it is above the first point. *)
Lemma weighted_sum_bound (l : list Z) y :
  Forall (fun v => v <= y) l ->
  let n := Z.of_nat (length l) in
  let x := Z.of_nat <$> seq 0 (length l) in
  n * sumZ l - sumZ (zip_with Z.mul x l) <= (n * n - sumZ x) * y.
Proof.
  induction l as [|z l IH] using rev_ind; intros Hall; [simpl; lia|].
  apply Forall_app in Hall as [Hall Hz]. apply Forall_cons in Hz as [Hz _].
  specialize (IH Hall). cbv zeta in *.
  pose proof (sumZ_le_bound l y Hall) as Hsum.
  rewrite products_snoc, sumZ_app.
  rewrite length_app, Nat.add_1_r, indices_snoc, sumZ_app. simpl.
  set (n := Z.of_nat (length l)) in *.
  replace (Z.of_nat (S (length l))) with (n + 1) by lia.
  set (sx := sumZ (Z.of_nat <$> seq 0 (length l))) in *.
  set (sxy := sumZ (zip_with Z.mul (Z.of_nat <$> seq 0 (length l)) l)) in *.
  set (sy := sumZ l) in *. nia.
Qed.

Lemma weighted_sum_bound_strict (l : list Z) y y0 :
  head l = Some y0 ->
  Forall (fun v => v <= y) l ->
  let n := Z.of_nat (length l) in
  let x := Z.of_nat <$> seq 0 (length l) in
  n * sumZ l - sumZ (zip_with Z.mul x l) <= (n * n - sumZ x) * y - n * (y - y0).
Proof.
  induction l as [|z l IH] using rev_ind; intros Hhd Hall; [done|].
  apply Forall_app in Hall as [Hall Hz]. apply Forall_cons in Hz as [Hz _].
  cbv zeta in *.
  destruct l as [|a l].
  { simpl in *. injection Hhd as ->. lia. }
  injection Hhd as ->. specialize (IH eq_refl Hall).
  assert (Hsum : sumZ (y0 :: l) <= y0 + (Z.of_nat (length (y0 :: l)) - 1) * y).
  { apply Forall_cons in Hall as [_ Hall].
    pose proof (sumZ_le_bound l y Hall). simpl. lia. }
  rewrite products_snoc, sumZ_app.
  rewrite length_app, Nat.add_1_r, indices_snoc, sumZ_app.
  change (sumZ [z]) with (z + 0). change (sumZ [Z.of_nat (length (y0 :: l))])
    with (Z.of_nat (length (y0 :: l)) + 0).
  set (n := Z.of_nat (length (y0 :: l))) in *.
  replace (Z.of_nat (S (length (y0 :: l)))) with (n + 1) by lia.
  set (sx := sumZ (Z.of_nat <$> seq 0 (length (y0 :: l)))) in *.
  set (sxy := sumZ (zip_with Z.mul (Z.of_nat <$> seq 0 (length (y0 :: l)))
                             (y0 :: l))) in *.
  set (sy := sumZ (y0 :: l)) in *. nia.
Qed.

Lemma sorted_snoc_inv (l : list Z) y :
  StronglySorted Z.le (l ++ [y]) ->
  StronglySorted Z.le l /\ Forall (fun v => v <= y) l.
Proof.
  intros (Hs & _ & Hle)%StronglySorted_app_inv. split; [done|].
  apply Forall_forall. intros v Hv. apply Hle; [done|by left].
Qed.

Lemma slope_numerator_nonneg (l : list Z) :
  StronglySorted Z.le l -> 0 <= slope_numerator l.
Proof.
  induction l as [|y l IH] using rev_ind; intros Hs; [done|].
  apply sorted_snoc_inv in Hs as [Hs Hall].
  rewrite slope_numerator_snoc. specialize (IH Hs).
  pose proof (weighted_sum_bound l y Hall). cbv zeta in *. lia.
Qed.

Lemma slope_numerator_pos (l : list Z) lo hi :
  StronglySorted Z.le l -> head l = Some lo -> last l = Some hi -> lo < hi ->
  0 < slope_numerator l.
Proof.
  intros Hs Hlo Hhi Hlt.
  destruct l as [|y l _] using rev_ind; [done|].
  rewrite last_snoc in Hhi. injection Hhi as ->.
  apply sorted_snoc_inv in Hs as [Hs Hall].
  destruct l as [|a l]; [simpl in Hlo; injection Hlo as ->; lia|].
  injection Hlo as ->.
  rewrite slope_numerator_snoc.
  pose proof (slope_numerator_nonneg _ Hs).
  pose proof (weighted_sum_bound_strict (lo :: l) hi lo eq_refl Hall) as Hb.
  cbv zeta in *.
  assert (0 < Z.of_nat (length (lo :: l)) * (hi - lo)) by (simpl; nia).
  lia.
Qed.

Lemma sumZ_opp (l : list Z) : sumZ (Z.opp <$> l) = - sumZ l.
Proof. induction l as [|y l IH]; [done|]. rewrite fmap_cons. simpl. fold (sumZ (Z.opp <$> l)). fold (sumZ l). lia. Qed.

Lemma products_opp (x l : list Z) :
  sumZ (zip_with Z.mul x (Z.opp <$> l)) = - sumZ (zip_with Z.mul x l).
Proof.
  induction l as [|y l IH] in x |- *; destruct x as [|i x]; try done.
  rewrite fmap_cons. simpl.
  fold (sumZ (zip_with Z.mul x (Z.opp <$> l))). fold (sumZ (zip_with Z.mul x l)).
  rewrite IH. lia.
Qed.

Lemma slope_numerator_opp (l : list Z) :
  slope_numerator (Z.opp <$> l) = - slope_numerator l.
Proof.
  unfold slope_numerator. cbv zeta.
  rewrite length_fmap, products_opp, sumZ_opp. lia.
Qed.

Lemma sorted_opp (l : list Z) :
  StronglySorted Z.ge l -> StronglySorted Z.le (Z.opp <$> l).
Proof.
  induction 1 as [|y l Hs IH Hall]; [constructor|].
  rewrite fmap_cons. constructor; [done|].
  apply Forall_fmap. eapply Forall_impl; [done|]. simpl. lia.
Qed.

Lemma slope_numerator_neg (l : list Z) hi lo :
  StronglySorted Z.ge l -> head l = Some hi -> last l = Some lo -> lo < hi ->
  slope_numerator l < 0.
Proof.
  intros Hs Hhi Hlo Hlt.
  pose proof (slope_numerator_pos (Z.opp <$> l) (- hi) (- lo) (sorted_opp _ Hs)) as H.
  rewrite slope_numerator_opp in H.
  assert (0 < - slope_numerator l); [|lia].
  apply H; [| |lia].
  - by destruct l as [|? ?]; [|injection Hhi as ->].
  - by rewrite fmap_last, Hlo.
Qed.

Lemma sumZ_line a b (xs : list Z) :
  sumZ ((fun i => a + b * i) <$> xs) = a * Z.of_nat (length xs) + b * sumZ xs.
Proof.
  induction xs as [|i xs IH]; [simpl; lia|]. rewrite fmap_cons.
  cbn [sumZ foldr length]. fold (sumZ ((fun i => a + b * i) <$> xs)).
  fold (sumZ xs). rewrite IH. lia.
Qed.

Lemma products_line a b (xs : list Z) :
  sumZ (zip_with Z.mul xs ((fun i => a + b * i) <$> xs))
  = a * sumZ xs + b * sumZ ((fun i => i * i) <$> xs).
Proof.
  induction xs as [|i xs IH]; [simpl; lia|]. rewrite !fmap_cons.
  cbn [zip_with sumZ foldr].
  fold (sumZ (zip_with Z.mul xs ((fun i => a + b * i) <$> xs))).
  fold (sumZ xs). fold (sumZ ((fun i => i * i) <$> xs)). rewrite IH. lia.
Qed.

Lemma slope_numerator_line a b (n : nat) :
  slope_numerator ((fun i => a + b * i) <$> (Z.of_nat <$> seq 0 n))
  = b * slope_denominator n.
Proof.
  unfold slope_numerator, slope_denominator. cbv zeta.
  rewrite length_fmap, length_indices, products_line, sumZ_line, length_indices.
  ring.
Qed.

Lemma magnitude_of_nonneg values : (0 <= magnitude_of values)%Q.
Proof.
  unfold magnitude_of. rewrite <- (Zle_Qle 0). 
  induction values as [|v values IH]; [done|].
  rewrite fmap_cons. cbn [sumZ foldr]. fold (sumZ (Z.abs <$> values)). lia.
Qed.

Lemma within_rounding_refl scale x : (0 <= scale)%Q -> within_rounding scale x x.
Proof.
  intros H. unfold within_rounding, rounding_margin.
  assert (Heq : (Qabs (x - x) == 0)%Q).
  { assert (Hz : (x - x == 0)%Q) by ring. by rewrite Hz. }
  rewrite Heq. apply Qmult_le_0_compat; [done | exact H].
Qed.

(** In exact arithmetic the least squares slope of the points of a line is
    the slope of the line. *)
Lemma polyfit_slope_line (a b : Z) (n : nat) :
  (2 <= n)%nat ->
  Qeq (polyfit_slope ((fun i => a + b * i) <$> (Z.of_nat <$> seq 0 n))) (inject_Z b).
Proof.
  intros Hge.
  rewrite polyfit_slope_fraction, slope_numerator_line, length_fmap, length_indices.
  pose proof (polyfit_denominator_pos _ Hge) as Hd.
  fold (slope_denominator n) in Hd.
  rewrite inject_Z_mult. unfold Qdiv. rewrite <- Qmult_assoc, Qmult_inv_r, Qmult_1_r; [done|].
  unfold Qeq, inject_Z. simpl. lia.
Qed.

(** X13.  [_calculate_trend] gives fewer than two values the trend 0, and
    the points of a line their slope up to the rounding of the floats: the
    values [a + b * i] for [i = 0 .. n-1] of an integer array, two or more,
    have a trend within rounding of [b], whatever [a]; the trend of a series
    that does not move is within rounding of 0. *)
Theorem trend_of_a_line (a b : Z) (n : nat) :
  let values := (fun i => a + b * i) <$> (Z.of_nat <$> seq 0 n) in
  Forall int64 values ->
  if (n <? 2)%nat then _calculate_trend values = 0%Q
  else within_rounding (magnitude_of values) (_calculate_trend values) (inject_Z b).
Proof.
  intros values _. unfold _calculate_trend.
  replace (length values) with n by (unfold values; by rewrite length_fmap, length_indices).
  destruct (Nat.ltb_spec n 2) as [Hlt|Hge]; [done|].
  unfold within_rounding.
  assert (Heq : Qeq (Qabs (polyfit_slope values - inject_Z b)) 0).
  { unfold values. rewrite (polyfit_slope_line a b n Hge).
    assert (Hz : (inject_Z b - inject_Z b == 0)%Q) by ring. by rewrite Hz. }
  rewrite Heq. apply Qmult_le_0_compat; [done | apply magnitude_of_nonneg].
Qed.

(** On the values 3 and 7, and on the values 5, 5, 5. *)
Lemma trend_of_a_line_witness :
  within_rounding (magnitude_of [3; 7]) (_calculate_trend [3; 7]) (inject_Z 4)
  /\ within_rounding (magnitude_of [5; 5; 5]) (_calculate_trend [5; 5; 5]) (inject_Z 0).
Proof.
  split.
  - apply (trend_of_a_line 3 4 2).
    simpl. repeat (constructor; [unfold int64; lia|]). constructor.
  - apply (trend_of_a_line 5 0 3).
    simpl. repeat (constructor; [unfold int64; lia|]). constructor.
Defined.

Lemma trend_direction_cases q :
  ((0 < q)%Q -> trend_direction q = "increasing")
  /\ ((q < 0)%Q -> trend_direction q = "decreasing")
  /\ ((q == 0)%Q -> trend_direction q = "stable").
Proof.
  unfold trend_direction.
  destruct (Qle_bool q 0) eqn:H1;
    [apply Qle_bool_iff in H1 | apply Qle_bool_false in H1];
    (destruct (Qle_bool 0 q) eqn:H2;
     [apply Qle_bool_iff in H2 | apply Qle_bool_false in H2]);
    simpl; (split; [|split]); intros H; try done; exfalso; lra.
Qed.

(** The entries for the overall trend of a series of three weeks or more. *)
Lemma overall_trends_lookup weekly_counts :
  (3 <= length weekly_counts)%nat ->
  overall_trends weekly_counts !! "overall_trend"
  = Some (Slope (polyfit_slope (snd <$> weekly_counts)))
  /\ overall_trends weekly_counts !! "trend_direction"
     = Some (Direction (trend_direction (polyfit_slope (snd <$> weekly_counts)))).
Proof.
  intros Hn. unfold overall_trends.
  destruct (Nat.ltb_spec 2 (length weekly_counts)); [|lia].
  rewrite _calculate_trend_polyfit by (rewrite length_fmap; lia).
  split; [by rewrite lookup_insert_ne, lookup_insert_eq|by rewrite lookup_insert_eq].
Qed.

Lemma activity_trends_overall data trends data' ts :
  empty data = false ->
  _analyze_activity_trends data = Ok (trends, data') ->
  getitem "datetime" data = Ok (Timestamps ts) ->
  trends !! "overall_trend" = overall_trends (weekly_counts_of ts) !! "overall_trend"
  /\ trends !! "trend_direction"
     = overall_trends (weekly_counts_of ts) !! "trend_direction".
Proof.
  intros He Hrun Hts.
  apply _analyze_activity_trends_Ok in Hrun
    as (ts' & activities & Hts' & _ & _ & ->); [|done].
  rewrite Hts in Hts'. injection Hts' as <-.
  by rewrite !lookup_insert_ne by done.
Qed.

(** X14.  [_analyze_activity_trends] reports weekly counts that never fall
    and end above where they start, over three weeks or more, with a
    positive 'overall_trend' and the 'trend_direction' 'increasing'. *)
Theorem rising_weeks_are_increasing data trends data' ts lo hi :
  empty data = false ->
  _analyze_activity_trends data = Ok (trends, data') ->
  getitem "datetime" data = Ok (Timestamps ts) ->
  (3 <= length (weekly_counts_of ts))%nat ->
  StronglySorted Z.le (snd <$> weekly_counts_of ts) ->
  head (snd <$> weekly_counts_of ts) = Some lo ->
  last (snd <$> weekly_counts_of ts) = Some hi ->
  lo < hi ->
  (exists slope, trends !! "overall_trend" = Some (Slope slope) /\ (0 < slope)%Q)
  /\ trends !! "trend_direction" = Some (Direction "increasing").
Proof.
  intros He Hrun Hts Hn Hs Hlo Hhi Hlt.
  destruct (activity_trends_overall _ _ _ _ He Hrun Hts) as [-> ->].
  destruct (overall_trends_lookup _ Hn) as [-> ->].
  assert (Hpos : (0 < polyfit_slope (snd <$> weekly_counts_of ts))%Q).
  { apply polyfit_slope_sign; [rewrite length_fmap; lia|].
    by eapply slope_numerator_pos. }
  split; [by eexists|]. f_equal. f_equal. by apply trend_direction_cases.
Qed.

(** On three weeks with 1, 2 and 3 events. *)
Lemma rising_weeks_are_increasing_witness :
  let ts := events_of_counts jan_1 [1; 0; 0; 0; 0; 0; 0; 2; 0; 0; 0; 0; 0; 0; 3] in
  let data := Frame 6 [("datetime", Timestamps ts);
                       ("predicted_activity", Texts (replicate 6 "Work"))] in
  let trends := result_of ∅ (_analyze_activity_trends data) in
  (exists slope, trends !! "overall_trend" = Some (Slope slope) /\ (0 < slope)%Q)
  /\ trends !! "trend_direction" = Some (Direction "increasing").
Proof.
  intros ts data trends.
  apply (rising_weeks_are_increasing data trends
           (frame_after data (_analyze_activity_trends data)) ts 1 3).
  - reflexivity.
  - reflexivity.
  - reflexivity.
  - vm_compute. lia.
  - change (StronglySorted Z.le [1; 2; 3]). repeat constructor; lia.
  - reflexivity.
  - reflexivity.
  - lia.
Defined.

(** X15.  [_analyze_activity_trends] reports weekly counts that never rise
    and end below where they start, over three weeks or more, with a
    negative 'overall_trend' and the 'trend_direction' 'decreasing'. *)
Theorem falling_weeks_are_decreasing data trends data' ts hi lo :
  empty data = false ->
  _analyze_activity_trends data = Ok (trends, data') ->
  getitem "datetime" data = Ok (Timestamps ts) ->
  (3 <= length (weekly_counts_of ts))%nat ->
  StronglySorted Z.ge (snd <$> weekly_counts_of ts) ->
  head (snd <$> weekly_counts_of ts) = Some hi ->
  last (snd <$> weekly_counts_of ts) = Some lo ->
  lo < hi ->
  (exists slope, trends !! "overall_trend" = Some (Slope slope) /\ (slope < 0)%Q)
  /\ trends !! "trend_direction" = Some (Direction "decreasing").
Proof.
  intros He Hrun Hts Hn Hs Hhi Hlo Hlt.
  destruct (activity_trends_overall _ _ _ _ He Hrun Hts) as [-> ->].
  destruct (overall_trends_lookup _ Hn) as [-> ->].
  assert (Hneg : (polyfit_slope (snd <$> weekly_counts_of ts) < 0)%Q).
  { apply polyfit_slope_sign; [rewrite length_fmap; lia|].
    by eapply slope_numerator_neg. }
  split; [by eexists|]. f_equal. f_equal. by apply trend_direction_cases.
Qed.

(** On three weeks with 3, 2 and 1 events. *)
Lemma falling_weeks_are_decreasing_witness :
  let ts := events_of_counts jan_1 [3; 0; 0; 0; 0; 0; 0; 2; 0; 0; 0; 0; 0; 0; 1] in
  let data := Frame 6 [("datetime", Timestamps ts);
                       ("predicted_activity", Texts (replicate 6 "Work"))] in
  let trends := result_of ∅ (_analyze_activity_trends data) in
  (exists slope, trends !! "overall_trend" = Some (Slope slope) /\ (slope < 0)%Q)
  /\ trends !! "trend_direction" = Some (Direction "decreasing").
Proof.
  intros ts data trends.
  apply (falling_weeks_are_decreasing data trends
           (frame_after data (_analyze_activity_trends data)) ts 3 1).
  - reflexivity.
  - reflexivity.
  - reflexivity.
  - vm_compute. lia.
  - change (StronglySorted Z.ge [3; 2; 1]). repeat constructor; lia.
  - reflexivity.
  - reflexivity.
  - lia.
Defined.

(* ===================================================================== *)
(** * The daily timeline: the shape of a run *)

Lemma mapM_Ok {A B} (f : A -> outcome B) l r :
  mapM f l = Ok r <-> Forall2 (fun x y => f x = Ok y) l r.
Proof.
  induction l as [|x l IH] in r |- *; simpl.
  - split; [intros [= <-]; constructor | by inversion 1].
  - split.
    + intros H. apply bind_Ok in H as (y & Hy & H).
      apply bind_Ok in H as (ys & Hys & [= <-]). constructor; [done|by apply IH].
    + inversion 1 as [|? y ? ys Hy Hys]; subst.
      apply IH in Hys. by rewrite Hy, Hys.
Qed.

Lemma first_occurrences_labels seen cols c :
  c ∈ first_occurrences seen cols -> c ∈ cols.
Proof.
  induction cols as [|c' cols IH] in seen |- *; simpl; [done|].
  destruct (existsb _ seen).
  - intros H. right. by eapply IH.
  - intros [->|H]%elem_of_cons; [by left|]. right. by eapply IH.
Qed.

Lemma first_occurrences_once seen cols name :
  (length (filter (fun c => fst c = name) (first_occurrences seen cols)) <= 1)%nat
  /\ (name ∈ seen -> filter (fun c => fst c = name) (first_occurrences seen cols) = []).
Proof.
  induction cols as [|c cols IH] in seen |- *; simpl; [split; [lia|done]|].
  destruct (existsb (String.eqb (fst c)) seen) eqn:Hex; [apply IH|].
  rewrite filter_cons. destruct (decide (fst c = name)) as [Heq|Hne].
  - destruct (IH (fst c :: seen)) as [_ Hnil].
    rewrite Hnil by (rewrite Heq; by left). split; [simpl; lia|].
    intros Hin. exfalso.
    assert (existsb (String.eqb (fst c)) seen = true); [|congruence].
    apply existsb_exists. exists name. split; [by apply list_elem_of_In|].
    by apply String.eqb_eq.
  - destruct (IH (fst c :: seen)) as [Hle Hnil]. split; [done|].
    intros Hin. apply Hnil. by right.
Qed.

(** After the duplicated columns are dropped a label that is a column gives
    a series. *)
Lemma getitem_deduplicated name data :
  has_column name (drop_duplicated_columns data) = true ->
  exists col, getitem name (drop_duplicated_columns data) = Ok col.
Proof.
  intros Hh. apply has_column_spec in Hh as (c & Hc & Hn).
  unfold getitem, drop_duplicated_columns in *. simpl in *.
  destruct (first_occurrences_once [] (columns data) name) as [Hle _].
  destruct (filter _ (first_occurrences [] (columns data))) as [|c1 [|c2 l]] eqn:Hf.
  - assert (c ∈ filter (fun c => fst c = name) (first_occurrences [] (columns data)))
      by (by apply list_elem_of_filter).
    rewrite Hf in H. by apply elem_of_nil in H.
  - by eexists.
  - simpl in Hle. lia.
Qed.

Lemma mapM_ext {A B} (f g : A -> outcome B) l :
  (forall x, f x = g x) -> mapM f l = mapM g l.
Proof. intros H. induction l as [|x l IH]; simpl; [done|]. by rewrite H, IH. Qed.

(** The entry of a day reads the frame for its 'predicted_activity' column
    only. *)
Lemma day_entry_ext data1 data2 ts d :
  has_column "predicted_activity" data1 = has_column "predicted_activity" data2 ->
  getitem "predicted_activity" data1 = getitem "predicted_activity" data2 ->
  day_entry data1 ts d = day_entry data2 ts d.
Proof. intros H1 H2. unfold day_entry. by rewrite H1, H2. Qed.

Lemma day_entry_own_columns data ts d c1 c2 c3 :
  day_entry (assign "hour" c3 (assign "date" c2 (assign "datetime" c1 data))) ts d
  = day_entry data ts d.
Proof.
  apply day_entry_ext.
  - by rewrite !has_column_assign_ne.
  - by rewrite !getitem_assign_ne.
Qed.

(** A run: the timestamps are read, and every date that has events gets its
    entry, in the order of the dates. *)
Lemma _create_daily_timeline_unfold parse_column data :
  _create_daily_timeline parse_column data
  = match timeline_times parse_column data with
    | Raise e => Raise e
    | Ok None => Ok []
    | Ok (Some ts) =>
        mapM (day_entry (drop_duplicated_columns data) ts)
             (sorted (unique (date <$> ts)))
    end.
Proof.
  unfold _create_daily_timeline, timeline_times. cbv zeta.
  set (D := drop_duplicated_columns data).
  destruct (has_column "datetime" D) eqn:Hdt; simpl.
  - destruct (getitem "datetime" D) as [col|]; simpl; [|done].
    destruct (to_datetime parse_column col) as [ts|]; simpl; [|done].
    apply mapM_ext. intros d. apply day_entry_own_columns.
  - destruct (has_column "timestamp" D) eqn:Hts; simpl; [|done].
    destruct (getitem "timestamp" D) as [col|]; simpl; [|done].
    destruct (to_datetime parse_column col) as [ts|]; simpl; [|done].
    rewrite getitem_assign_new by done. simpl.
    apply mapM_ext. intros d. rewrite day_entry_own_columns.
    apply day_entry_ext;
      [by rewrite has_column_assign_ne | by rewrite getitem_assign_ne].
Qed.

(** The rows of a day. *)
Lemma masked_date_mask {A} (f : datetime -> A) ts d :
  masked (date_mask ts d) (f <$> ts) = f <$> events_on d ts.
Proof.
  unfold masked, date_mask, events_on.
  induction ts as [|t ts IH]; [done|].
  rewrite !fmap_cons. cbn [zip zip_with]. rewrite !filter_cons. cbn [fst].
  destruct (Z.eqb_spec (date t) d) as [Heq|Hne].
  - rewrite decide_True by done. rewrite (decide_True (P := date t = d)) by done.
    rewrite !fmap_cons. cbn [snd]. f_equal. apply IH.
  - rewrite decide_False by done. rewrite (decide_False (P := date t = d)) by done.
    apply IH.
Qed.

Lemma masked_date_mask_id ts d : masked (date_mask ts d) ts = events_on d ts.
Proof.
  pose proof (masked_date_mask (fun t => t) ts d) as H.
  by rewrite !list_fmap_id in H.
Qed.

(** The dates of the loop are the dates of the per-date counts. *)
Lemma increasing_ext (l1 l2 : list Z) :
  StronglySorted Z.lt l1 -> StronglySorted Z.lt l2 ->
  (forall x, x ∈ l1 <-> x ∈ l2) -> l1 = l2.
Proof.
  induction l1 as [|a l1 IH] in l2 |- *; intros H1 H2 Hiff.
  - destruct l2 as [|b l2]; [done|].
    pose proof (proj2 (Hiff b) (list_elem_of_here _ _)) as H. by apply elem_of_nil in H.
  - destruct l2 as [|b l2].
    + pose proof (proj1 (Hiff a) (list_elem_of_here _ _)) as H. by apply elem_of_nil in H.
    + apply StronglySorted_inv in H1 as [H1 Ha].
      apply StronglySorted_inv in H2 as [H2 Hb].
      rewrite Forall_forall in Ha. rewrite Forall_forall in Hb.
      assert (a = b) as <-.
      { pose proof (proj1 (Hiff a) (list_elem_of_here _ _)) as Hab.
        pose proof (proj2 (Hiff b) (list_elem_of_here _ _)) as Hba.
        apply elem_of_cons in Hab as [?|Hab]; [done|].
        apply elem_of_cons in Hba as [?|Hba]; [done|].
        specialize (Ha _ Hba). specialize (Hb _ Hab). lia. }
      f_equal. apply IH; [done|done|]. intros x. split; intros Hx.
      * pose proof (proj1 (Hiff x) (list_elem_of_further _ _ _ Hx)) as H.
        apply elem_of_cons in H as [->|H]; [|done]. specialize (Ha _ Hx). lia.
      * pose proof (proj2 (Hiff x) (list_elem_of_further _ _ _ Hx)) as H.
        apply elem_of_cons in H as [->|H]; [|done]. specialize (Hb _ Hx). lia.
Qed.

Lemma sorted_unique_increasing (l : list Z) : StronglySorted Z.lt (sorted (unique l)).
Proof.
  apply sorted_lt_of_NoDup; [apply sorted_le|].
  unfold sorted. rewrite sorted_by_Permutation. apply NoDup_unique.
Qed.

Lemma elem_of_sorted_unique (l : list Z) x : x ∈ sorted (unique l) <-> x ∈ l.
Proof. unfold sorted. by rewrite elem_of_sorted_by, elem_of_unique. Qed.

Lemma sorted_unique_groupby_size (l : list Z) :
  sorted (unique l) = fst <$> groupby_size l.
Proof.
  apply increasing_ext.
  - apply sorted_unique_increasing.
  - apply groupby_ascending.
  - intros x. rewrite elem_of_sorted_unique. unfold groupby_size.
    rewrite groupby_labels, <- list_fmap_compose. unfold compose. simpl.
    by rewrite list_fmap_id.
Qed.

Lemma occurrences_dates ts d :
  occurrences d (date <$> ts) = length (events_on d ts).
Proof.
  unfold occurrences, events_on.
  induction ts as [|t ts IH]; [done|]. rewrite fmap_cons, !filter_cons.
  destruct (decide (date t = d)); simpl; by rewrite IH.
Qed.

(** The entry of a day, field by field. *)
Lemma day_entry_Ok data ts d entry :
  day_entry data ts d = Ok entry ->
  fst entry = d
  /\ total_activities (snd entry) = Z.of_nat (length (events_on d ts))
  /\ active_hours (snd entry) = nunique (hour <$> events_on d ts)
  /\ first_activity (snd entry) = series_min (hour <$> events_on d ts)
  /\ last_activity (snd entry) = series_max (hour <$> events_on d ts).
Proof.
  unfold day_entry. cbv zeta. intros H.
  apply bind_Ok in H as (day_labels & _ & [= <-]). simpl.
  by rewrite masked_date_mask, masked_date_mask_id.
Qed.

(** What a run on timestamps [ts] returns, entry by entry. *)
Lemma daily_timeline_entries parse_column data days ts :
  _create_daily_timeline parse_column data = Ok days ->
  timeline_times parse_column data = Ok (Some ts) ->
  fst <$> days = sorted (unique (date <$> ts))
  /\ forall d s, (d, s) ∈ days ->
       day_entry (drop_duplicated_columns data) ts d = Ok (d, s).
Proof.
  intros Hrun Hts. rewrite _create_daily_timeline_unfold, Hts in Hrun.
  apply mapM_Ok in Hrun.
  split.
  - induction Hrun as [|d [d' s] dates days Hd _ IH]; [done|].
    rewrite fmap_cons. apply day_entry_Ok in Hd as [Hd _]. simpl in *.
    by rewrite Hd, IH.
  - intros d s Hin. apply list_elem_of_lookup in Hin as [i Hi].
    destruct (Forall2_lookup_r _ _ _ _ _ Hrun Hi) as (d' & _ & Hd).
    pose proof (day_entry_Ok _ _ _ _ Hd) as [Heq _]. simpl in Heq. by subst d'.
Qed.

Lemma events_on_nonempty ts d : d ∈ date <$> ts -> (1 <= length (events_on d ts))%nat.
Proof.
  intros (t & -> & Hin)%list_elem_of_fmap.
  assert (Ht : t ∈ events_on (date t) ts) by (by apply list_elem_of_filter).
  destruct (events_on (date t) ts); [by apply elem_of_nil in Ht|simpl; lia].
Qed.

(** X16.  The daily timeline of [_create_daily_timeline] has one entry for
    each date on which the frame has events and no other, in ascending order
    of the dates; the 'total_activities' of an entry is the number of events
    of its date, which is 1 or more, and the totals of all entries add up to
    the number of events: every row is counted on exactly one day. *)
Theorem daily_timeline_days parse_column data days ts :
  _create_daily_timeline parse_column data = Ok days ->
  timeline_times parse_column data = Ok (Some ts) ->
  ascending days
  /\ (forall d, d ∈ fst <$> days <-> d ∈ date <$> ts)
  /\ (forall d s, (d, s) ∈ days ->
        total_activities s = Z.of_nat (length (events_on d ts))
        /\ 1 <= total_activities s)
  /\ sumZ ((fun entry => total_activities (snd entry)) <$> days)
     = Z.of_nat (length ts).
Proof.
  intros Hrun Hts.
  destruct (daily_timeline_entries _ _ _ _ Hrun Hts) as [Hdates Hentries].
  assert (Htotal : forall d s, (d, s) ∈ days ->
            total_activities s = Z.of_nat (length (events_on d ts))).
  { intros d s Hin. by apply Hentries, day_entry_Ok in Hin as (_ & ? & _). }
  split; [|split; [|split]].
  - unfold ascending. rewrite Hdates. apply sorted_unique_increasing.
  - intros d. by rewrite Hdates, elem_of_sorted_unique.
  - intros d s Hin. split; [by apply Htotal|]. rewrite (Htotal d s Hin).
    assert (Hd : d ∈ date <$> ts).
    { rewrite <- elem_of_sorted_unique, <- Hdates. apply list_elem_of_fmap.
      by exists (d, s). }
    pose proof (events_on_nonempty ts d Hd). lia.
  - rewrite <- (length_fmap date ts), <- groupby_size_sum.
    f_equal. rewrite sorted_unique_groupby_size in Hdates.
    apply list_eq_same_length with (length days);
      [by rewrite length_fmap, <- (length_fmap fst (groupby_size _)), <- Hdates,
            length_fmap
      |by rewrite length_fmap|].
    intros i x y Hi Hx Hy. rewrite list_lookup_fmap in Hx.
    rewrite list_lookup_fmap in Hy.
    destruct (days !! i) as [[d s]|] eqn:Hds; [|done].
    destruct (groupby_size (date <$> ts) !! i) as [[d' c]|] eqn:Hdc; [|done].
    simpl in Hx, Hy. injection Hx as <-. injection Hy as <-.
    assert (d = d') as <-.
    { apply (f_equal (fun l => l !! i)) in Hdates.
      rewrite !list_lookup_fmap, Hds, Hdc in Hdates. by injection Hdates. }
    rewrite (Htotal d s) by (by eapply list_elem_of_lookup_2).
    apply list_elem_of_lookup_2, groupby_size_elem_of in Hdc as [_ ->].
    by rewrite occurrences_dates.
Qed.

(** On the frame of events at 9, 7 and 22 o'clock on January 1 and at noon
    on January 2. *)
Lemma daily_timeline_days_witness :
  let ts := [Datetime jan_1 9; Datetime (jan_1 + 1) 12; Datetime jan_1 7;
             Datetime jan_1 22] in
  let days := value_of [] (_create_daily_timeline no_parse (frame_of ts)) in
  ascending days
  /\ (forall d, d ∈ fst <$> days <-> d ∈ date <$> ts)
  /\ (forall d s, (d, s) ∈ days ->
        total_activities s = Z.of_nat (length (events_on d ts))
        /\ 1 <= total_activities s)
  /\ sumZ ((fun entry => total_activities (snd entry)) <$> days)
     = Z.of_nat (length ts).
Proof.
  intros ts days.
  apply (daily_timeline_days no_parse (frame_of ts)).
  - reflexivity.
  - reflexivity.
Defined.

(* ===================================================================== *)
(** * The daily timeline: the hours of a day *)

Lemma series_min_max_spec (l : list Z) :
  l <> [] ->
  exists lo hi, series_min l = Some lo /\ series_max l = Some hi
                /\ lo ∈ l /\ hi ∈ l /\ forall x, x ∈ l -> lo <= x <= hi.
Proof.
  destruct l as [|v vs]; [done|]. intros _.
  destruct (foldl_min_spec v vs) as [Hmin1 Hmin2].
  destruct (foldl_max_spec v vs) as [Hmax1 Hmax2].
  exists (foldl Z.min v vs), (foldl Z.max v vs). repeat split; auto.
Qed.

Lemma length_unique `{EqDecision A} (l : list A) : (length (unique l) <= length l)%nat.
Proof.
  induction l as [|x l IH]; [done|]. simpl.
  pose proof (length_filter (fun y => y ≠ x) (unique l)). lia.
Qed.

(** Distinct integers of a range are no more than the range holds. *)
Lemma NoDup_range_length (l : list Z) lo hi :
  l <> [] -> NoDup l -> (forall x, x ∈ l -> lo <= x <= hi) ->
  Z.of_nat (length l) <= hi - lo + 1.
Proof.
  intros Hne Hnd Hin. destruct l as [|y l]; [done|].
  assert (lo <= hi) by (specialize (Hin y (list_elem_of_here _ _)); lia).
  assert (Hsub : y :: l ⊆+ seqZ lo (hi - lo + 1)).
  { apply NoDup_submseteq; [done|]. intros x Hx. apply elem_of_seqZ.
    specialize (Hin x Hx). lia. }
  apply submseteq_length in Hsub. rewrite length_seqZ in Hsub. lia.
Qed.

(** X17.  In every entry of the daily timeline 'first_activity' and
    'last_activity' are the smallest and the greatest hour of the events of
    the date: both are hours of events of that date, the first is at most
    the last, and every event of the date lies between them.  'active_hours'
    counts the distinct hours: it is at least 1, at most the number of
    events of the date, and at most the hours from the first to the last. *)
Theorem daily_timeline_hours parse_column data days ts d s :
  _create_daily_timeline parse_column data = Ok days ->
  timeline_times parse_column data = Ok (Some ts) ->
  (d, s) ∈ days ->
  exists lo hi,
    first_activity s = Some lo /\ last_activity s = Some hi
    /\ lo <= hi
    /\ (exists t, t ∈ ts /\ date t = d /\ hour t = lo)
    /\ (exists t, t ∈ ts /\ date t = d /\ hour t = hi)
    /\ (forall t, t ∈ ts -> date t = d -> lo <= hour t <= hi)
    /\ (1 <= active_hours s)%nat
    /\ Z.of_nat (active_hours s) <= total_activities s
    /\ Z.of_nat (active_hours s) <= hi - lo + 1.
Proof.
  intros Hrun Hts Hin.
  destruct (daily_timeline_entries _ _ _ _ Hrun Hts) as [Hdates Hentries].
  destruct (day_entry_Ok _ _ _ _ (Hentries d s Hin))
    as (_ & Htotal & Hactive & Hfirst & Hlast). simpl in *.
  assert (Hd : d ∈ date <$> ts).
  { rewrite <- elem_of_sorted_unique, <- Hdates. apply list_elem_of_fmap.
    by exists (d, s). }
  pose proof (events_on_nonempty ts d Hd) as Hne.
  set (hours := hour <$> events_on d ts) in *.
  assert (Hhours : hours <> []).
  { unfold hours. destruct (events_on d ts); [simpl in Hne; lia|done]. }
  destruct (series_min_max_spec hours Hhours)
    as (lo & hi & Hlo & Hhi & Hlo_in & Hhi_in & Hbounds).
  assert (Hhour : forall x, x ∈ hours <-> exists t, t ∈ ts /\ date t = d /\ hour t = x).
  { intros x. unfold hours, events_on. rewrite list_elem_of_fmap. split.
    - intros (t & -> & [? ?]%list_elem_of_filter). by exists t.
    - intros (t & ? & ? & <-). exists t. split; [done|]. by apply list_elem_of_filter. }
  exists lo, hi. rewrite Hfirst, Hlast, Hactive, Htotal.
  split; [done|]. split; [done|].
  split; [specialize (Hbounds lo Hlo_in); lia|].
  split; [by apply Hhour|]. split; [by apply Hhour|].
  split; [intros t Ht Hdt; apply Hbounds, Hhour; by exists t|].
  unfold nunique. split; [|split].
  - destruct hours; [done|]. simpl. lia.
  - pose proof (length_unique hours) as Hle. unfold hours in Hle at 2.
    rewrite length_fmap in Hle. lia.
  - apply NoDup_range_length.
    + by destruct hours.
    + apply NoDup_unique.
    + intros x Hx. by apply Hbounds, elem_of_unique.
Qed.

(** On the frame of events at 9, 7, 9 and 22 o'clock on January 1. *)
Lemma daily_timeline_hours_witness :
  let ts := [Datetime jan_1 9; Datetime jan_1 7; Datetime jan_1 9;
             Datetime jan_1 22] in
  let s := DaySummary 4 3 (Some 7) (Some 22) ∅ ∅ in
  exists lo hi,
    first_activity s = Some lo /\ last_activity s = Some hi
    /\ lo <= hi
    /\ (exists t, t ∈ ts /\ date t = jan_1 /\ hour t = lo)
    /\ (exists t, t ∈ ts /\ date t = jan_1 /\ hour t = hi)
    /\ (forall t, t ∈ ts -> date t = jan_1 -> lo <= hour t <= hi)
    /\ (1 <= active_hours s)%nat
    /\ Z.of_nat (active_hours s) <= total_activities s
    /\ Z.of_nat (active_hours s) <= hi - lo + 1.
Proof.
  intros ts s.
  apply (daily_timeline_hours no_parse (frame_of ts) [(jan_1, s)] ts jan_1 s).
  - reflexivity.
  - reflexivity.
  - apply list_elem_of_here.
Defined.

(* ===================================================================== *)
(** * Frames: the first column of every label *)

(** Of the columns of a label the first is kept, if the label has not been
    seen. *)
Lemma first_occurrences_filter seen cols name :
  filter (fun c => fst c = name) (first_occurrences seen cols)
  = if decide (name ∈ seen) then []
    else take 1 (filter (fun c => fst c = name) cols).
Proof.
  induction cols as [|c cols IH] in seen |- *; simpl.
  { by destruct (decide (name ∈ seen)). }
  destruct (existsb (String.eqb (fst c)) seen) eqn:Hex.
  - rewrite IH. destruct (decide (name ∈ seen)) as [|Hn]; [done|].
    rewrite filter_cons. destruct (decide (fst c = name)) as [Heq|]; [|done].
    exfalso. apply Hn. apply existsb_exists in Hex as (x & Hx & Heqb).
    apply String.eqb_eq in Heqb. apply list_elem_of_In in Hx. congruence.
  - assert (Hc : fst c ∉ seen).
    { intros Hin. assert (existsb (String.eqb (fst c)) seen = true); [|congruence].
      apply existsb_exists. exists (fst c). split; [by apply list_elem_of_In|].
      by apply String.eqb_eq. }
    rewrite !filter_cons, IH. destruct (decide (fst c = name)) as [Heq|Hne].
    + rewrite decide_True by (rewrite Heq; by left).
      rewrite decide_False by (by rewrite <- Heq). done.
    + destruct (decide (name ∈ seen)) as [Hin|Hn].
      * by rewrite decide_True by (by right).
      * rewrite decide_False; [done|]. intros [?|?]%elem_of_cons; [congruence|done].
Qed.

Lemma getitem_drop_duplicated name data :
  getitem name (drop_duplicated_columns data)
  = match filter (fun c => fst c = name) (columns data) with
    | [] => Raise KeyError
    | c :: _ => Ok (snd c)
    end.
Proof.
  unfold getitem, drop_duplicated_columns. simpl.
  rewrite first_occurrences_filter, decide_False by apply not_elem_of_nil.
  by destruct (filter _ (columns data)) as [|c [|c' l]].
Qed.

Lemma has_column_filter name data :
  has_column name data
  = negb (bool_decide (filter (fun c => fst c = name) (columns data) = [])).
Proof.
  destruct (has_column name data) eqn:Hh.
  - apply has_column_spec in Hh as (c & Hc & Hn).
    rewrite bool_decide_eq_false_2; [done|]. intros Hf.
    assert (c ∈ filter (fun c => fst c = name) (columns data))
      by (by apply list_elem_of_filter).
    rewrite Hf in H. by apply elem_of_nil in H.
  - rewrite bool_decide_eq_true_2; [done|].
    destruct (filter _ _) as [|c l] eqn:E; [done|].
    assert (Hc : c ∈ filter (fun c => fst c = name) (columns data))
      by (rewrite E; apply list_elem_of_here).
    apply list_elem_of_filter in Hc as [Hn Hc].
    assert (has_column name data = true) by (apply has_column_spec; eauto).
    congruence.
Qed.

Lemma has_column_drop_duplicated name data :
  has_column name (drop_duplicated_columns data) = has_column name data.
Proof.
  rewrite !has_column_filter. unfold drop_duplicated_columns. simpl.
  rewrite first_occurrences_filter, decide_False by apply not_elem_of_nil.
  by destruct (filter _ (columns data)).
Qed.

Lemma empty_drop_duplicated data :
  empty (drop_duplicated_columns data) = empty data.
Proof.
  unfold empty, drop_duplicated_columns. simpl.
  destruct (index data); [done|]. by destruct (columns data) as [|c l].
Qed.

(** A column that is read as a series is its own first occurrence. *)
Lemma getitem_drop_duplicated_Ok name data col :
  getitem name data = Ok col -> getitem name (drop_duplicated_columns data) = Ok col.
Proof.
  rewrite getitem_drop_duplicated. unfold getitem.
  destruct (filter _ (columns data)) as [|c [|c' l]]; by try done.
Qed.

(* ===================================================================== *)
(** * The daily timeline and the daily routine *)

Lemma values_at_hours ts d :
  values_at d ((fun t => (date t, hour t)) <$> ts) = hour <$> events_on d ts.
Proof.
  unfold values_at, events_on. induction ts as [|t ts IH]; [done|].
  rewrite fmap_cons, !filter_cons. simpl.
  destruct (decide (date t = d)); [rewrite !fmap_cons; simpl; by f_equal|done].
Qed.

Lemma hour_per_date_dates agg ts :
  fst <$> hour_per_date agg ts = sorted (unique (date <$> ts)).
Proof.
  symmetry. apply increasing_ext.
  - apply sorted_unique_increasing.
  - apply groupby_ascending.
  - intros x. rewrite elem_of_sorted_unique. unfold hour_per_date.
    rewrite groupby_labels, <- list_fmap_compose. done.
Qed.

(** The first and the last hours of the entries are the per-date minima and
    maxima of [analyze_daily_routine]. *)
Lemma daily_timeline_hour_per_date parse_column data days ts :
  _create_daily_timeline parse_column data = Ok days ->
  timeline_times parse_column data = Ok (Some ts) ->
  (fun e => first_activity (snd e)) <$> days = Some <$> (snd <$> hour_per_date Z.min ts)
  /\ (fun e => last_activity (snd e)) <$> days = Some <$> (snd <$> hour_per_date Z.max ts).
Proof.
  intros Hrun Hts.
  destruct (daily_timeline_entries _ _ _ _ Hrun Hts) as [Hdates Hentries].
  assert (Hgen : forall agg (field : day_summary -> option Z) (pick : list Z -> option Z),
            (forall v vs, pick (v :: vs) = Some (foldl agg v vs)) ->
            (forall d s, (d, s) ∈ days -> field s = pick (hour <$> events_on d ts)) ->
            (fun e => field (snd e)) <$> days = Some <$> (snd <$> hour_per_date agg ts)).
  { intros agg field pick Hpick Hfield.
    pose proof (hour_per_date_dates agg ts) as Hd. rewrite <- Hdates in Hd.
    apply list_eq_same_length with (length days);
      [by rewrite !length_fmap, <- (length_fmap fst), Hd, length_fmap
      |by rewrite length_fmap|].
    intros i x y Hi Hx Hy. rewrite list_lookup_fmap in Hx.
    rewrite !list_lookup_fmap in Hy.
    destruct (days !! i) as [[d s]|] eqn:Hds; [|done].
    destruct (hour_per_date agg ts !! i) as [[d' v]|] eqn:Hdv; [|done].
    simpl in Hx, Hy. injection Hx as <-. injection Hy as <-.
    assert (d' = d) as ->.
    { apply (f_equal (fun l => l !! i)) in Hd.
      rewrite !list_lookup_fmap, Hds, Hdv in Hd. by injection Hd. }
    rewrite (Hfield d s) by (by eapply list_elem_of_lookup_2).
    apply list_elem_of_lookup_2, ascending_find in Hdv; [|apply groupby_ascending].
    unfold hour_per_date in Hdv. rewrite groupby_find, values_at_hours in Hdv.
    destruct (hour <$> events_on d ts) as [|v' vs]; [done|].
    rewrite Hpick. done. }
  split.
  - apply (Hgen Z.min first_activity series_min); [done|].
    intros d s Hin. by apply Hentries, day_entry_Ok in Hin as (_ & _ & _ & ? & _).
  - apply (Hgen Z.max last_activity series_max); [done|].
    intros d s Hin. by apply Hentries, day_entry_Ok in Hin as (_ & _ & _ & _ & ?).
Qed.

(** Past the guard of [analyze_daily_routine] the timeline reads the same
    timestamps. *)
Lemma timeline_times_datetime parse_column data col ts :
  has_column "datetime" data = true ->
  getitem "datetime" (drop_duplicated_columns data) = Ok col ->
  to_datetime parse_column col = Ok ts ->
  timeline_times parse_column data = Ok (Some ts).
Proof.
  intros Hh Hcol Hts. unfold timeline_times. cbv zeta.
  by rewrite has_column_drop_duplicated, Hh, Hcol; simpl; rewrite Hts.
Qed.

(** X18.  The two analyses agree on a frame: the wake-up statistics of
    [analyze_daily_routine] are the mean and the standard deviation of the
    'first_activity' hours of the entries of the daily timeline, and the
    sleep statistics those of the 'last_activity' hours. *)
Theorem routine_statistics_of_the_timeline
    parse_column data patterns data' days wake sleep :
  analyze_daily_routine parse_column data = Ok (patterns, data') ->
  _create_daily_timeline parse_column data = Ok days ->
  patterns !! "wake_up_time" = Some (PStats wake) ->
  patterns !! "sleep_time" = Some (PStats sleep) ->
  exists firsts lasts,
    (fun e => first_activity (snd e)) <$> days = Some <$> firsts
    /\ (fun e => last_activity (snd e)) <$> days = Some <$> lasts
    /\ average wake = mean firsts /\ std_dev wake = std firsts
    /\ average sleep = mean lasts /\ std_dev sleep = std lasts.
Proof.
  intros Hrun Hdays Hw Hs. destruct (routine_guard data) eqn:Hg.
  { rewrite analyze_daily_routine_guarded in Hrun by done.
    injection Hrun as <- _. by rewrite lookup_empty in Hw. }
  apply analyze_daily_routine_Ok in Hrun
    as (col & ts & wake' & sleep' & Hcol & Hts & Hwake & Hsleep & Hp); [|done].
  assert (wake' = wake) as ->.
  { rewrite Hp in Hw. rewrite !lookup_insert_ne, lookup_insert_eq in Hw by done.
    by injection Hw. }
  assert (sleep' = sleep) as ->.
  { rewrite Hp in Hs. rewrite !lookup_insert_ne, lookup_insert_eq in Hs by done.
    by injection Hs. }
  apply wake_or_sleep_Ok in Hwake as (Hw1 & Hw2 & _).
  apply wake_or_sleep_Ok in Hsleep as (Hs1 & Hs2 & _).
  assert (Hh : has_column "datetime" data = true).
  { unfold routine_guard in Hg. apply orb_false_iff in Hg as [_ Hg].
    by apply negb_false_iff in Hg. }
  pose proof (timeline_times_datetime _ _ _ _ Hh Hcol Hts) as Htimes.
  destruct (daily_timeline_hour_per_date _ _ _ _ Hdays Htimes) as [Hf Hl].
  by exists (snd <$> hour_per_date Z.min ts), (snd <$> hour_per_date Z.max ts).
Qed.

(** On two days, with events at 7 and 22 and at 9 and 23 o'clock. *)
Lemma routine_statistics_of_the_timeline_witness :
  let data := frame_of [Datetime jan_1 7; Datetime jan_1 22;
                        Datetime (jan_1 + 1) 23; Datetime (jan_1 + 1) 9] in
  let patterns := result_of ∅ (analyze_daily_routine no_parse data) in
  let days := value_of [] (_create_daily_timeline no_parse data) in
  let stats_at := fun key => match patterns !! key with
                             | Some (PStats s) => s
                             | _ => Stats None None None
                             end in
  exists firsts lasts,
    (fun e => first_activity (snd e)) <$> days = Some <$> firsts
    /\ (fun e => last_activity (snd e)) <$> days = Some <$> lasts
    /\ average (stats_at "wake_up_time") = mean firsts
    /\ std_dev (stats_at "wake_up_time") = std firsts
    /\ average (stats_at "sleep_time") = mean lasts
    /\ std_dev (stats_at "sleep_time") = std lasts.
Proof.
  intros data patterns days stats_at.
  apply (routine_statistics_of_the_timeline no_parse data patterns
           (frame_after data (analyze_daily_routine no_parse data))).
  - reflexivity.
  - reflexivity.
  - reflexivity.
  - reflexivity.
Defined.

(* ===================================================================== *)
(** * The timeline dict *)

Lemma first_occurrences_fresh seen cols c :
  c ∈ first_occurrences seen cols -> fst c ∉ seen.
Proof.
  induction cols as [|c' cols IH] in seen |- *; simpl; [by intros ?%elem_of_nil|].
  destruct (existsb (String.eqb (fst c')) seen) eqn:Hex; [apply IH|].
  intros [->|Hin]%elem_of_cons.
  - intros Hin. assert (existsb (String.eqb (fst c')) seen = true); [|congruence].
    apply existsb_exists. exists (fst c'). split; [by apply list_elem_of_In|].
    by apply String.eqb_eq.
  - intros Hs. apply (IH _ Hin). by right.
Qed.

Lemma first_occurrences_NoDup seen cols :
  NoDup (fst <$> first_occurrences seen cols).
Proof.
  induction cols as [|c cols IH] in seen |- *; simpl; [constructor|].
  destruct (existsb (String.eqb (fst c)) seen); [apply IH|].
  rewrite fmap_cons. constructor; [|apply IH].
  intros (c' & Heq & Hin)%list_elem_of_fmap.
  apply first_occurrences_fresh in Hin. apply Hin. rewrite <- Heq. by left.
Qed.

Lemma first_occurrences_distinct seen cols :
  NoDup (fst <$> cols) -> (forall c, c ∈ cols -> fst c ∉ seen) ->
  first_occurrences seen cols = cols.
Proof.
  induction cols as [|c cols IH] in seen |- *; [done|].
  rewrite fmap_cons. intros [Hc Hnd]%NoDup_cons Hfresh. simpl.
  destruct (existsb (String.eqb (fst c)) seen) eqn:Hex.
  - exfalso. apply (Hfresh c); [by left|].
    apply existsb_exists in Hex as (x & Hx & Heqb).
    apply String.eqb_eq in Heqb. apply list_elem_of_In in Hx. congruence.
  - f_equal. apply IH; [done|]. intros c' Hin [Heq|Hs]%elem_of_cons.
    + apply Hc. apply list_elem_of_fmap. by exists c'.
    + by apply (Hfresh c'); [right|].
Qed.

(** Dropping the duplicated columns a second time drops nothing. *)
Lemma drop_duplicated_columns_idem data :
  drop_duplicated_columns (drop_duplicated_columns data)
  = drop_duplicated_columns data.
Proof.
  unfold drop_duplicated_columns. simpl. f_equal.
  apply first_occurrences_distinct; [apply first_occurrences_NoDup|].
  intros c _. apply not_elem_of_nil.
Qed.

Lemma _create_daily_timeline_deduplicated parse_column data :
  _create_daily_timeline parse_column (drop_duplicated_columns data)
  = _create_daily_timeline parse_column data.
Proof.
  rewrite !_create_daily_timeline_unfold. unfold timeline_times. cbv zeta.
  by rewrite drop_duplicated_columns_idem.
Qed.

Lemma build_activity_timeline_unfold {other} parse_column data :
  build_activity_timeline (other := other) parse_column data
  = if empty data then Ok ∅
    else match _create_daily_timeline parse_column data with
         | Ok days => Ok (<["daily_timeline" := DailyTimeline days]> ∅)
         | Raise e => Raise e
         end.
Proof.
  unfold build_activity_timeline. cbv zeta.
  rewrite empty_drop_duplicated, _create_daily_timeline_deduplicated.
  destruct (empty data); [done|]. by destruct (_create_daily_timeline _ _).
Qed.

(** X19.  The dict [build_activity_timeline] returns is empty for an empty
    frame and has the one key 'daily_timeline' otherwise; it has none of the
    keys [create_visualization] reads, so that [create_visualization]
    returns no figure for it and calls none of the methods that draw one. *)
Theorem timeline_gets_no_visualization {other figure : Type}
    parse_column (truth_value : other -> bool)
    (heatmap trend_chart events_timeline : timeline_value other -> outcome figure)
    data timeline :
  build_activity_timeline parse_column data = Ok timeline ->
  create_visualization truth_value heatmap trend_chart events_timeline timeline
  = Ok ∅
  /\ if empty data then timeline = ∅
     else exists days, _create_daily_timeline parse_column data = Ok days
                       /\ timeline = <["daily_timeline" := DailyTimeline days]> ∅.
Proof.
  rewrite build_activity_timeline_unfold. intros Hrun.
  assert (Hkeys : forall key, key <> "daily_timeline" -> timeline !! key = None).
  { intros key Hkey. destruct (empty data); [by injection Hrun as <-|].
    destruct (_create_daily_timeline _ _); [|done]. injection Hrun as <-.
    by rewrite lookup_insert_ne. }
  split.
  - unfold create_visualization, add_chart. by rewrite !Hkeys.
  - destruct (empty data); [by injection Hrun as <-|].
    destruct (_create_daily_timeline _ _) as [days|]; [|done].
    injection Hrun as <-. by exists days.
Qed.

(** On a frame of three events, with methods that would raise if they were
    called. *)
Lemma timeline_gets_no_visualization_witness :
  let data := frame_of [Datetime jan_1 8; Datetime jan_1 9; Datetime (jan_1 + 1) 20] in
  let timeline : gmap string (timeline_value unit) :=
    value_of ∅ (build_activity_timeline no_parse data) in
  let chart := fun _ : timeline_value unit => @Raise unit NotModelled in
  create_visualization (fun _ => true) chart chart chart timeline = Ok ∅
  /\ if empty data then timeline = ∅
     else exists days, _create_daily_timeline no_parse data = Ok days
                       /\ timeline = <["daily_timeline" := DailyTimeline days]> ∅.
Proof.
  intros data timeline chart.
  apply (timeline_gets_no_visualization no_parse (fun _ => true) chart chart chart data).
  reflexivity.
Defined.

(* ===================================================================== *)
(** * The timeline of the frame [detect_life_events] has left *)

(** The timeline reads three columns of the frame. *)
Lemma _create_daily_timeline_ext parse_column data1 data2 :
  (forall name, name ∈ ["datetime"; "timestamp"; "predicted_activity"] ->
     filter (fun c => fst c = name) (columns data1)
     = filter (fun c => fst c = name) (columns data2)) ->
  _create_daily_timeline parse_column data1 = _create_daily_timeline parse_column data2.
Proof.
  intros Hsame.
  assert (Hget : forall name, name ∈ ["datetime"; "timestamp"; "predicted_activity"] ->
            getitem name (drop_duplicated_columns data1)
            = getitem name (drop_duplicated_columns data2)).
  { intros name Hn. by rewrite !getitem_drop_duplicated, Hsame. }
  assert (Hhas : forall name, name ∈ ["datetime"; "timestamp"; "predicted_activity"] ->
            has_column name (drop_duplicated_columns data1)
            = has_column name (drop_duplicated_columns data2)).
  { intros name Hn. by rewrite !has_column_drop_duplicated, !has_column_filter, Hsame. }
  rewrite !_create_daily_timeline_unfold. unfold timeline_times. cbv zeta.
  rewrite (Hhas "datetime"), (Hhas "timestamp"), (Hget "datetime"), (Hget "timestamp")
    by set_solver.
  destruct (if has_column "datetime" (drop_duplicated_columns data2) then _ else _)
    as [[ts|]|]; try done.
  apply mapM_ext. intros d. apply day_entry_ext; [apply Hhas|apply Hget]; set_solver.
Qed.

Lemma filter_label_assign_new name col data :
  has_column name data = false ->
  filter (fun c => fst c = name) (columns (assign name col data)) = [(name, col)].
Proof.
  intros Hh. unfold assign. rewrite Hh. simpl.
  rewrite filter_app, filter_cons, decide_True, filter_nil by done.
  rewrite has_column_filter in Hh. apply negb_false_iff, bool_decide_eq_true in Hh.
  by rewrite Hh.
Qed.

(** X20.  The frame [detect_life_events] has left gives the same dict in
    [build_activity_timeline] as the frame before the call: the 'date' and
    'datetime' columns the call has set do not change the timeline. *)
Theorem timeline_after_life_events {other} parse_column data events data' :
  detect_life_events parse_column data = Ok (events, data') ->
  build_activity_timeline (other := other) parse_column data'
  = build_activity_timeline parse_column data.
Proof.
  intros Hrun. destruct (events_guard data) eqn:Hg.
  { rewrite detect_life_events_guarded in Hrun by done. by injection Hrun as _ <-. }
  apply detect_life_events_Ok in Hrun as (ts & _ & _ & Hts & -> & _); [|done].
  assert (He : empty data = false).
  { unfold events_guard in Hg. by apply orb_false_iff in Hg as [? _]. }
  rewrite !build_activity_timeline_unfold. unfold with_dates.
  rewrite nonempty_assign, He;
    [|destruct (_ && _); [by apply nonempty_assign|done]].
  assert (_create_daily_timeline parse_column
            (assign "date" (Dates (date <$> ts))
               (if negb (has_column "datetime" data) && has_column "timestamp" data
                then assign "datetime" (Timestamps ts) data else data))
          = _create_daily_timeline parse_column data) as ->; [|done].
  unfold event_times in Hts.
  destruct (negb (has_column "datetime" data) && has_column "timestamp" data) eqn:Hc.
  - apply andb_true_iff in Hc as [Hdt Htm]. apply negb_true_iff in Hdt.
    apply bind_Ok in Hts as (col & Hcol & Hts).
    rewrite !_create_daily_timeline_unfold.
    assert (timeline_times parse_column data = Ok (Some ts)) as ->.
    { unfold timeline_times. cbv zeta.
      rewrite !has_column_drop_duplicated, Hdt, Htm.
      rewrite (getitem_drop_duplicated_Ok _ _ _ Hcol). simpl. by rewrite Hts. }
    assert (timeline_times parse_column
              (assign "date" (Dates (date <$> ts))
                 (assign "datetime" (Timestamps ts) data)) = Ok (Some ts)) as ->.
    { unfold timeline_times. cbv zeta.
      rewrite has_column_drop_duplicated, has_column_assign_ne, has_column_assign_eq
        by done.
      rewrite getitem_drop_duplicated, filter_label_assign, filter_label_assign_new
        by done. done. }
    apply mapM_ext. intros d. apply day_entry_ext.
    + by rewrite !has_column_drop_duplicated, !has_column_assign_ne.
    + by rewrite !getitem_drop_duplicated, !filter_label_assign.
  - apply _create_daily_timeline_ext. intros name Hn.
    apply filter_label_assign. set_solver.
Qed.

(** On a frame of ten events with a 'timestamp' column only. *)
Lemma timeline_after_life_events_witness :
  let ts := day_events jan_1 10 in
  let data := Frame 10 [("timestamp", Timestamps ts)] in
  let data' := Frame 10 [("timestamp", Timestamps ts); ("datetime", Timestamps ts);
                         ("date", Dates (replicate 10 jan_1))] in
  build_activity_timeline (other := unit) no_parse data'
  = build_activity_timeline no_parse data.
Proof.
  intros ts data data'.
  apply (timeline_after_life_events no_parse data []).
  vm_compute. reflexivity.
Defined.

(* ===================================================================== *)
(** * The daily timeline: the labels of a day *)

Lemma value_counts_snoc l a :
  value_counts (l ++ [a])
  = <[a := default 0 (value_counts l !! a) + 1]> (value_counts l).
Proof. unfold value_counts. by rewrite foldl_app. Qed.

(** A label is counted as often as it occurs; a label that does not occur
    is no key. *)
Lemma value_counts_lookup l a :
  value_counts l !! a
  = match length (filter (fun x => x = a) l) with
    | O => None
    | n => Some (Z.of_nat n)
    end.
Proof.
  induction l as [|b l IH] using rev_ind; [done|].
  rewrite value_counts_snoc, filter_app, length_app, filter_cons, filter_nil.
  destruct (decide (b = a)) as [->|Hne].
  - rewrite lookup_insert_eq, IH. simpl.
    destruct (length (filter _ l)) as [|n]; simpl; f_equal; lia.
  - rewrite lookup_insert_ne, IH by done. simpl. by rewrite Nat.add_0_r.
Qed.

Lemma lists_by_key_snoc rows r :
  lists_by_key (rows ++ [r])
  = <[fst r := default [] (lists_by_key rows !! fst r) ++ [snd r]]> (lists_by_key rows).
Proof. unfold lists_by_key. by rewrite foldl_app. Qed.

(** A key holds the values of its rows, in the order of the rows; a key
    without rows is no key. *)
Lemma lists_by_key_lookup rows k :
  lists_by_key rows !! k
  = match snd <$> filter (fun r => fst r = k) rows with
    | [] => None
    | values => Some values
    end.
Proof.
  induction rows as [|r rows IH] using rev_ind; [done|].
  rewrite lists_by_key_snoc, filter_app, fmap_app, filter_cons, filter_nil.
  destruct (decide (fst r = k)) as [->|Hne].
  - rewrite lookup_insert_eq, IH. simpl.
    by destruct (snd <$> filter _ rows).
  - rewrite lookup_insert_ne, IH by done. simpl. by rewrite app_nil_r.
Qed.

(** The labels and the hours of the rows of a day. *)
Lemma masked_labels ts d (l : list string) :
  masked (date_mask ts d) l = snd <$> day_rows d ts l.
Proof.
  unfold masked, date_mask, day_rows.
  induction ts as [|t ts IH] in l |- *; [done|]. destruct l as [|a l]; [done|].
  rewrite fmap_cons. cbn [zip zip_with]. rewrite !filter_cons. cbn [fst].
  destruct (Z.eqb_spec (date t) d) as [Heq|Hne].
  - rewrite decide_True by done. rewrite (decide_True (P := date t = d)) by done.
    rewrite !fmap_cons. cbn [snd]. f_equal. apply IH.
  - rewrite decide_False by done. rewrite (decide_False (P := date t = d)) by done.
    apply IH.
Qed.

Lemma masked_hours_labels ts d (l : list string) :
  zip (masked (date_mask ts d) (hour <$> ts)) (masked (date_mask ts d) l)
  = (fun r => (hour (fst r), snd r)) <$> day_rows d ts l.
Proof.
  unfold masked, date_mask, day_rows.
  induction ts as [|t ts IH] in l |- *; [done|].
  destruct l as [|a l].
  { rewrite !zip_with_nil_r, !filter_nil. cbn [fmap list_fmap].
    apply zip_with_nil_r. }
  rewrite !fmap_cons. cbn [zip zip_with]. rewrite !filter_cons. cbn [fst].
  destruct (Z.eqb_spec (date t) d) as [Heq|Hne].
  - rewrite decide_True by done. rewrite (decide_True (P := date t = d)) by done.
    rewrite !fmap_cons. cbn [snd zip zip_with fst]. f_equal. apply IH.
  - rewrite decide_False by done. rewrite (decide_False (P := date t = d)) by done.
    apply IH.
Qed.

Lemma filter_fmap {A B} (f : A -> B) (P : B -> Prop) `{forall y, Decision (P y)}
    (l : list A) :
  filter P (f <$> l) = f <$> filter (fun x => P (f x)) l.
Proof.
  induction l as [|x l IH]; [done|]. rewrite fmap_cons, !filter_cons.
  destruct (decide (P (f x))); [rewrite fmap_cons|]; by rewrite IH.
Qed.

(** The labels part of the entry of a day. *)
Lemma day_entry_labels data ts d entry :
  day_entry data ts d = Ok entry ->
  if has_column "predicted_activity" data
  then exists l,
         getitem "predicted_activity" data = Ok (Texts l)
         /\ activities (snd entry) = value_counts (snd <$> day_rows d ts l)
         /\ hourly_breakdown (snd entry)
            = lists_by_key ((fun r => (hour (fst r), snd r)) <$> day_rows d ts l)
  else activities (snd entry) = ∅ /\ hourly_breakdown (snd entry) = ∅.
Proof.
  unfold day_entry. cbv zeta. intros H.
  apply bind_Ok in H as (day_labels & Hl & [= <-]). simpl.
  destruct (has_column "predicted_activity" data).
  - apply bind_Ok in Hl as (col & Hcol & Hl).
    apply bind_Ok in Hl as (l & Hlab & [= <-]).
    destruct col; try done. injection Hlab as ->.
    exists l. by rewrite masked_hours_labels, masked_labels.
  - by injection Hl as <-.
Qed.

(** X21.  In an entry of the daily timeline, when the frame has no
    'predicted_activity' column, 'activities' and 'hourly_breakdown' are
    empty dicts.  When it has one, 'activities' maps every label of the rows
    of the date to the number of those rows that carry it, and holds no label
    without such a row; 'hourly_breakdown' maps every hour at which the date
    has rows to the labels of those rows, in the order of the rows, and holds
    no other hour. *)
Theorem daily_timeline_labels parse_column data days ts d s :
  _create_daily_timeline parse_column data = Ok days ->
  timeline_times parse_column data = Ok (Some ts) ->
  (d, s) ∈ days ->
  if has_column "predicted_activity" data
  then exists l,
         getitem "predicted_activity" (drop_duplicated_columns data) = Ok (Texts l)
         /\ (forall a,
               activities s !! a
               = match length (filter (fun r => snd r = a) (day_rows d ts l)) with
                 | O => None
                 | n => Some (Z.of_nat n)
                 end)
         /\ (forall h,
               hourly_breakdown s !! h
               = match snd <$> filter (fun r => hour (fst r) = h) (day_rows d ts l) with
                 | [] => None
                 | labels_of_the_hour => Some labels_of_the_hour
                 end)
  else activities s = ∅ /\ hourly_breakdown s = ∅.
Proof.
  intros Hrun Hts Hin.
  destruct (daily_timeline_entries _ _ _ _ Hrun Hts) as [_ Hentries].
  pose proof (day_entry_labels _ _ _ _ (Hentries d s Hin)) as Hl.
  rewrite has_column_drop_duplicated in Hl. simpl in Hl.
  destruct (has_column "predicted_activity" data); [|done].
  destruct Hl as (l & Hcol & -> & ->). exists l. split; [done|]. split.
  - intros a. rewrite value_counts_lookup.
    by rewrite (filter_fmap snd (fun x => x = a)), length_fmap.
  - intros h. rewrite lists_by_key_lookup.
    rewrite (filter_fmap _ (fun r : Z * string => fst r = h)).
    by rewrite <- list_fmap_compose.
Qed.

(** On a day with a 'Work' row at 9, a 'Travel' row at 9 and a 'Work' row at
    20 o'clock. *)
Lemma daily_timeline_labels_witness :
  let ts := [Datetime jan_1 9; Datetime jan_1 9; Datetime jan_1 20] in
  let l := ["Work"; "Travel"; "Work"] in
  let data := Frame 3 [("datetime", Timestamps ts); ("predicted_activity", Texts l)] in
  let s := DaySummary 3 2 (Some 9) (Some 20)
             (<["Travel" := 1]> (<["Work" := 2]> ∅))
             (<[20 := ["Work"]]> (<[9 := ["Work"; "Travel"]]> ∅)) in
  if has_column "predicted_activity" data
  then exists l,
         getitem "predicted_activity" (drop_duplicated_columns data) = Ok (Texts l)
         /\ (forall a,
               activities s !! a
               = match length (filter (fun r => snd r = a) (day_rows jan_1 ts l)) with
                 | O => None
                 | n => Some (Z.of_nat n)
                 end)
         /\ (forall h,
               hourly_breakdown s !! h
               = match snd <$> filter (fun r => hour (fst r) = h) (day_rows jan_1 ts l) with
                 | [] => None
                 | labels_of_the_hour => Some labels_of_the_hour
                 end)
  else activities s = ∅ /\ hourly_breakdown s = ∅.
Proof.
  intros ts l data s.
  apply (daily_timeline_labels no_parse data [(jan_1, s)] ts jan_1 s).
  - vm_compute. reflexivity.
  - reflexivity.
  - apply list_elem_of_here.
Defined.

Lemma sum_of_counts_delete (counts : gmap string Z) a c :
  counts !! a = Some c -> sum_of_counts counts = c + sum_of_counts (delete a counts).
Proof.
  intros Ha. unfold sum_of_counts.
  apply (map_fold_delete_L (fun _ c total => c + total)); [|done].
  intros. lia.
Qed.

(** The counts add up to the number of labels. *)
Lemma value_counts_sum l : sum_of_counts (value_counts l) = Z.of_nat (length l).
Proof.
  induction l as [|a l IH] using rev_ind; [done|].
  rewrite value_counts_snoc, length_app. simpl.
  rewrite (sum_of_counts_delete _ a _ (lookup_insert_eq _ _ _)), delete_insert_eq.
  destruct (value_counts l !! a) as [c|] eqn:Ha; simpl.
  - rewrite (sum_of_counts_delete _ a c Ha) in IH. lia.
  - rewrite delete_id by done. lia.
Qed.

Lemma day_rows_events d ts (l : list string) :
  (length ts <= length l)%nat -> fst <$> day_rows d ts l = events_on d ts.
Proof.
  intros Hlen. unfold day_rows, events_on.
  rewrite <- (fst_zip ts l) at 2 by done.
  by rewrite (filter_fmap fst (fun t => date t = d)).
Qed.

(** X22.  In an entry of the daily timeline of a frame whose
    'predicted_activity' column (as long as the index, as the columns of a
    frame are) holds a label in every row, the counts of 'activities' add up
    to 'total_activities': every row of the date is counted under exactly
    one label.  (A row without a label, NaN or None, is outside the
    statement: [value_counts()] does not count it.) *)
Theorem daily_timeline_activities_total parse_column data days ts l d s :
  _create_daily_timeline parse_column data = Ok days ->
  timeline_times parse_column data = Ok (Some ts) ->
  getitem "predicted_activity" (drop_duplicated_columns data) = Ok (Texts l) ->
  length l = length ts ->
  (d, s) ∈ days ->
  sum_of_counts (activities s) = total_activities s.
Proof.
  intros Hrun Hts Hcol Hlen Hin.
  destruct (daily_timeline_entries _ _ _ _ Hrun Hts) as [_ Hentries].
  pose proof (day_entry_labels _ _ _ _ (Hentries d s Hin)) as Hl.
  destruct (day_entry_Ok _ _ _ _ (Hentries d s Hin)) as (_ & Htotal & _).
  rewrite (getitem_Ok_has_column _ _ _ Hcol) in Hl.
  destruct Hl as (l' & Hcol' & Hact & _). rewrite Hcol in Hcol'.
  injection Hcol' as <-. simpl in *.
  rewrite Hact, Htotal, value_counts_sum, length_fmap.
  by rewrite <- (day_rows_events d ts l), length_fmap by lia.
Qed.

(** On a day with a 'Work' row at 9, a 'Travel' row at 9 and a 'Work' row at
    20 o'clock. *)
Lemma daily_timeline_activities_total_witness :
  let s := DaySummary 3 2 (Some 9) (Some 20)
             (<["Travel" := 1]> (<["Work" := 2]> ∅))
             (<[20 := ["Work"]]> (<[9 := ["Work"; "Travel"]]> ∅)) in
  sum_of_counts (activities s) = total_activities s.
Proof.
  intros s.
  pose (ts := [Datetime jan_1 9; Datetime jan_1 9; Datetime jan_1 20]).
  pose (l := ["Work"; "Travel"; "Work"]).
  pose (data := Frame 3 [("datetime", Timestamps ts); ("predicted_activity", Texts l)]).
  apply (daily_timeline_activities_total no_parse data [(jan_1, s)] ts l jan_1 s).
  - vm_compute. reflexivity.
  - reflexivity.
  - reflexivity.
  - reflexivity.
  - apply list_elem_of_here.
Defined.

(* ===================================================================== *)
(** * Travel periods in the timeline *)


(** The days of a period: a period of the travel dates counts the days up
    from its first date, and is a maximal run of the dates. *)
Lemma travel_period_days activity ts first rest :
  first :: rest ∈ travel_periods (travel_dates activity ts) ->
  last (first :: rest) = Some (first + Z.of_nat (length (first :: rest)) - 1)
  /\ (forall x, first <= x < first + Z.of_nat (length (first :: rest)) ->
        x ∈ first :: rest)
  /\ (forall x, x ∈ first :: rest -> x ∈ travel_dates activity ts).
Proof.
  intros Hp.
  apply travel_periods_sound in Hp as (pre & post & Hdates & _ & Hc & _ & _).
  pose proof (travel_dates_increasing activity ts) as Hs. rewrite Hdates in Hs.
  apply StronglySorted_app_inv in Hs as (_ & Hs & _).
  apply StronglySorted_app_inv in Hs as (Hper & _ & _).
  pose proof (consecutive_increasing _ first Hper Hc eq_refl) as Hday.
  set (period := first :: rest) in *.
  split; [|split].
  - rewrite last_lookup.
    destruct (period !! pred (length period)) as [x|] eqn:Hx.
    + rewrite (Hday _ _ Hx). f_equal. unfold period. simpl. lia.
    + apply lookup_ge_None in Hx. unfold period in Hx. simpl in Hx. lia.
  - intros x Hx.
    destruct (period !! Z.to_nat (x - first)) as [y|] eqn:Hy.
    + rewrite (Hday _ _ Hy) in Hy. apply (list_elem_of_lookup_2 _ _ _) in Hy.
      by replace (first + Z.of_nat (Z.to_nat (x - first))) with x in Hy by lia.
    + apply lookup_ge_None in Hy. lia.
  - intros x Hx. rewrite Hdates. apply elem_of_app. right. apply elem_of_app. by left.
Qed.


(** X24.  Every travel event of [_detect_travel_from_timeline] lasts 2 days
    or more, its 'end_date' is its date plus its severity (the number of
    days) minus one day, and there is a row labelled 'Travel' on every day
    from its date to its end date. *)
Theorem timeline_travel_event_days data ts activity events d n end_date :
  getitem "predicted_activity" data = Ok activity ->
  _detect_travel_from_timeline data ts = Ok events ->
  TravelEvent d n end_date ∈ events ->
  (2 <= n)%nat
  /\ end_date = d + Z.of_nat n - 1
  /\ forall x, d <= x <= end_date -> travel_day activity ts x.
Proof.
  intros Hact Hrun Hin. unfold _detect_travel_from_timeline in Hrun.
  rewrite (getitem_Ok_has_column _ _ _ Hact), Hact in Hrun. simpl in Hrun.
  destruct (masked _ ts) eqn:Hm; injection Hrun as <-; [by apply elem_of_nil in Hin|].
  clear Hm. unfold timeline_travel_events in Hin.
  apply list_elem_of_omap in Hin as (period & Hp & Hev).
  destruct period as [|first rest]; [done|].
  destruct (last (first :: rest)) as [e|] eqn:Hlast; [|done].
  destruct (2 <=? length (first :: rest))%nat eqn:Hlen; [|done].
  injection Hev as -> <- <-. apply Nat.leb_le in Hlen.
  destruct (travel_period_days _ _ _ _ Hp) as (Hend & Hdays & Htravel).
  rewrite Hlast in Hend. injection Hend as ->.
  split; [done|]. split; [done|].
  intros x Hx. apply travel_dates_elem_of, Htravel, Hdays.
  cbn [length] in *. lia.
Qed.

(** On rows labelled 'Travel' on January 1, 2, 3 and 10. *)
Lemma timeline_travel_event_days_witness :
  let ts := [Datetime (jan_1 + 2) 8; Datetime jan_1 9; Datetime (jan_1 + 9) 7;
             Datetime (jan_1 + 1) 20; Datetime jan_1 22] in
  let activity := Texts (replicate 5 "Travel") in
  (2 <= 3)%nat
  /\ jan_1 + 2 = jan_1 + Z.of_nat 3 - 1
  /\ forall x, jan_1 <= x <= jan_1 + 2 -> travel_day activity ts x.
Proof.
  intros ts activity.
  apply (timeline_travel_event_days
           (Frame 5 [("datetime", Timestamps ts); ("predicted_activity", activity)])
           ts activity [TravelEvent jan_1 3 (jan_1 + 2)]).
  - reflexivity.
  - reflexivity.
  - apply list_elem_of_here.
Defined.

(* ===================================================================== *)
(** * The gaps of a day's timeline *)

Section ActivityGapsFacts.

Context {A : Type}.
Variable strptime : string -> option Z.

Abbreviation entries := (list (timeline_entry A)).

Lemma parse_time_Ok time minutes :
  parse_time strptime time = Ok minutes <-> strptime time = Some minutes.
Proof.
  unfold parse_time. destruct (strptime time); split; intros H; by inversion H.
Qed.

(** One turn of the loop. *)
Lemma gaps_loop_cons activity next rest (enhanced : entries) :
  gaps_loop strptime activity (next :: rest) = Ok enhanced ->
  exists current_time next_time enhanced',
    strptime (entry_time activity) = Some current_time
    /\ strptime (entry_time next) = Some next_time
    /\ gaps_loop strptime next rest = Ok enhanced'
    /\ enhanced = activity ::
                  (if negb (Qle_bool (gap_hours current_time next_time) 2)
                   then [Gap (gap_hours current_time next_time)] else [])
                  ++ enhanced'.
Proof.
  cbn [gaps_loop]. intros H.
  apply bind_Ok in H as (current_time & Hc & H).
  apply bind_Ok in H as (next_time & Hn & H).
  apply bind_Ok in H as (enhanced' & He & [= <-]).
  exists current_time, next_time, enhanced'.
  rewrite <- !parse_time_Ok. repeat split; try done.
  by destruct (negb _).
Qed.

Lemma gaps_loop_head activity rest (enhanced : entries) :
  gaps_loop strptime activity rest = Ok enhanced -> head enhanced = Some activity.
Proof.
  destruct rest as [|next rest]; [by intros [= <-]|].
  intros (? & ? & ? & _ & _ & _ & ->)%gaps_loop_cons. done.
Qed.

(** The hours of a gap: more than two exactly when the times are more than
    120 minutes apart. *)
Lemma gap_hours_over_two current_time next_time :
  negb (Qle_bool (gap_hours current_time next_time) 2) = true
  <-> 120 < next_time - current_time.
Proof.
  rewrite negb_true_iff, Qle_bool_false. unfold gap_hours, Qlt, Qdiv, Qmult, Qinv.
  simpl. lia.
Qed.

(** What the loop returns, for entries of which the first is an activity. *)
Lemma gaps_loop_spec activity rest (enhanced : entries) :
  gaps_loop strptime activity rest = Ok enhanced ->
  filter (fun e => is_gap e = false) enhanced
  = filter (fun e => is_gap e = false) (activity :: rest)
  /\ last enhanced = last (activity :: rest)
  /\ (forall e, e ∈ activity :: rest -> rest <> [] -> is_Some (strptime (entry_time e)))
  /\ (forall g, Gap g ∈ enhanced -> Gap g ∈ activity :: rest \/ (2 < g)%Q).
Proof.
  induction rest as [|next rest IH] in activity, enhanced |- *.
  { intros [= <-]. repeat split; try done. intros g Hg. by left. }
  intros (ct & nt & enhanced' & Hct & Hnt & Hloop & ->)%gaps_loop_cons.
  destruct (IH _ _ Hloop) as (Hfilter & Hlast & Hparse & Hgaps).
  pose proof (gaps_loop_head _ _ _ Hloop) as Hhead.
  split; [|split; [|split]].
  - rewrite !filter_cons, filter_app, Hfilter, !filter_cons.
    destruct (negb _); [rewrite filter_cons; simpl|]; done.
  - destruct enhanced' as [|e enhanced']; [done|].
    destruct (negb _); simpl in *; rewrite ?last_cons_cons; by rewrite Hlast.
  - intros e [->|He]%elem_of_cons _; [by eexists|].
    destruct rest as [|next' rest].
    + apply list_elem_of_singleton in He as ->. by eexists.
    + by apply Hparse.
  - intros g [Heq|Hin]%elem_of_cons; [left; rewrite Heq; by left|].
    apply elem_of_app in Hin as [Hin|Hin].
    + destruct (negb _) eqn:Hgap; [|by apply elem_of_nil in Hin].
      apply list_elem_of_singleton in Hin. injection Hin as ->. right.
      apply negb_true_iff, Qle_bool_false in Hgap. done.
    + destruct (Hgaps g Hin) as [?|?]; [left; by right|by right].
Qed.

Lemma gaps_loop_no_adjacent_gaps activity rest (enhanced : entries) :
  Forall (fun e => is_gap e = false) (activity :: rest) ->
  gaps_loop strptime activity rest = Ok enhanced ->
  no_adjacent_gaps enhanced.
Proof.
  induction rest as [|next rest IH] in activity, enhanced |- *; intros Hall.
  { by intros [= <-]. }
  intros (ct & nt & enhanced' & _ & _ & Hloop & ->)%gaps_loop_cons.
  apply Forall_cons in Hall as [Ha Hall].
  pose proof (IH _ _ Hall Hloop) as Hrest.
  pose proof (gaps_loop_head _ _ _ Hloop) as Hhead.
  destruct enhanced' as [|e enhanced']; [done|]. injection Hhead as ->.
  apply Forall_cons in Hall as [Hn _].
  destruct (negb _); simpl; auto.
Qed.

Lemma gaps_loop_raises activity rest e :
  gaps_loop (A := A) strptime activity rest = Raise e -> e = ValueError.
Proof.
  induction rest as [|next rest IH] in activity |- *; [done|].
  cbn [gaps_loop]. unfold parse_time.
  destruct (strptime (entry_time activity)); simpl; [|by intros [= <-]].
  destruct (strptime (entry_time next)); simpl; [|by intros [= <-]].
  destruct (gaps_loop strptime next rest) eqn:Hloop; simpl; [done|].
  intros [= <-]. by eapply IH.
Qed.

(** X25.  [_add_activity_gaps] keeps the activities of the timeline, in
    their order, and only inserts dicts for gaps between them: without the
    gaps the list it returns is the timeline again; it starts and ends with
    the entries the timeline starts and ends with; no two gaps follow each
    other; and every gap it inserts is longer than 2 hours. *)
Theorem activity_gaps_keep_the_activities (timeline enhanced : entries) :
  _add_activity_gaps strptime timeline = Ok enhanced ->
  Forall (fun e => is_gap e = false) timeline ->
  filter (fun e => is_gap e = false) enhanced = timeline
  /\ head enhanced = head timeline
  /\ last enhanced = last timeline
  /\ no_adjacent_gaps enhanced
  /\ forall g, Gap g ∈ enhanced -> (2 < g)%Q.
Proof.
  intros Hrun Hall. unfold _add_activity_gaps in Hrun.
  assert (Hid : filter (fun e : timeline_entry A => is_gap e = false) timeline = timeline).
  { apply filter_all. by apply Forall_forall. }
  assert (Hnone : forall g, @Gap A g ∉ timeline).
  { intros g Hg. rewrite Forall_forall in Hall. by specialize (Hall _ Hg). }
  destruct (length timeline <? 2)%nat eqn:Hlen.
  { injection Hrun as <-. repeat split; try done.
    - destruct timeline as [|e1 [|e2 l]]; done.
    - intros g Hg. by destruct (Hnone g). }
  destruct timeline as [|activity rest]; [done|].
  destruct (gaps_loop_spec _ _ _ Hrun) as (Hfilter & Hlast & _ & Hgaps).
  split; [by rewrite Hfilter|]. split; [by eapply gaps_loop_head|].
  split; [done|]. split; [by eapply gaps_loop_no_adjacent_gaps|].
  intros g Hg. destruct (Hgaps g Hg) as [Hin|?]; [by destruct (Hnone g)|done].
Qed.

(** X26.  [_add_activity_gaps] reads the time of every entry of a timeline
    of two entries or more, and the dict of a gap has the time 'gap', which
    is not a time: called again on a list it has returned, the method raises
    a [ValueError] when the list holds a gap, and returns the list as it is
    when it holds none. *)
Theorem activity_gaps_not_twice (timeline enhanced : entries) :
  strptime "gap" = None ->
  Forall (fun e => is_gap e = false) timeline ->
  _add_activity_gaps strptime timeline = Ok enhanced ->
  _add_activity_gaps strptime enhanced
  = if existsb is_gap enhanced then Raise ValueError else Ok enhanced.
Proof.
  intros Hgap Hall Hrun.
  assert (Hid : filter (fun e : timeline_entry A => is_gap e = false) timeline = timeline).
  { apply filter_all. by apply Forall_forall. }
  assert (Hfilter : filter (fun e => is_gap e = false) enhanced = timeline).
  { unfold _add_activity_gaps in Hrun.
    destruct (length timeline <? 2)%nat; [by injection Hrun as <-|].
    destruct timeline as [|activity rest]; [by injection Hrun as <-|].
    destruct (gaps_loop_spec _ _ _ Hrun) as (-> & _). done. }
  destruct (existsb is_gap enhanced) eqn:Hex.
  - apply existsb_exists in Hex as (e & He & Hg). apply list_elem_of_In in He.
    destruct e as [|g]; [done|]. clear Hg.
    assert (Hlen : (length timeline <? 2)%nat = false).
    { destruct (length timeline <? 2)%nat eqn:Hlen; [|done].
      unfold _add_activity_gaps in Hrun. rewrite Hlen in Hrun. injection Hrun as <-.
      rewrite Forall_forall in Hall. by specialize (Hall _ He). }
    assert (Hlen' : (length enhanced <? 2)%nat = false).
    { apply Nat.ltb_ge. apply Nat.ltb_ge in Hlen.
      rewrite <- Hfilter in Hlen.
      pose proof (length_filter (fun e => is_gap e = false) enhanced). lia. }
    unfold _add_activity_gaps. rewrite Hlen'.
    destruct enhanced as [|e1 rest1]; [done|].
    destruct rest1 as [|e2 rest2]; [done|].
    destruct (gaps_loop strptime e1 (e2 :: rest2)) as [again|e] eqn:Hagain.
    + destruct (gaps_loop_spec _ _ _ Hagain) as (_ & _ & Hparse & _).
      destruct (Hparse _ He) as [minutes Hm]; [done|]. simpl in Hm. congruence.
    + by rewrite (gaps_loop_raises _ _ _ Hagain).
  - assert (enhanced = timeline) as ->; [|done].
    rewrite <- Hfilter. symmetry. apply filter_all. intros e He.
    destruct (is_gap e) eqn:Hg; [|done].
    assert (existsb is_gap enhanced = true); [|congruence].
    apply existsb_exists. exists e. split; [by apply list_elem_of_In|done].
Qed.

End ActivityGapsFacts.

(** On activities at 9:00, 10:30 and 14:00: a gap of three and a half hours
    is inserted before the last. *)
Lemma activity_gaps_keep_the_activities_witness :
  let timeline := [Activity "09:00" "Work"; Activity "10:30" "Travel";
                   Activity "14:00" "Work"] in
  let enhanced := [Activity "09:00" "Work"; Activity "10:30" "Travel";
                   Gap (12600 # 3600); Activity "14:00" "Work"] in
  filter (fun e => is_gap e = false) enhanced = timeline
  /\ head enhanced = head timeline
  /\ last enhanced = last timeline
  /\ no_adjacent_gaps enhanced
  /\ forall g, Gap g ∈ enhanced -> (2 < g)%Q.
Proof.
  intros timeline enhanced.
  pose (table := fun time : string =>
          if String.eqb time "09:00" then Some 540
          else if String.eqb time "10:30" then Some 630
          else if String.eqb time "14:00" then Some 840 else None).
  apply (activity_gaps_keep_the_activities table timeline enhanced).
  - reflexivity.
  - repeat constructor.
Defined.

(** On the same activities: the second call raises. *)
Lemma activity_gaps_not_twice_witness :
  let table := fun time : string =>
          if String.eqb time "09:00" then Some 540
          else if String.eqb time "10:30" then Some 630
          else if String.eqb time "14:00" then Some 840 else None in
  let enhanced := [Activity "09:00" "Work"; Activity "10:30" "Travel";
                   Gap (12600 # 3600); Activity "14:00" "Work"] in
  _add_activity_gaps table enhanced
  = if existsb is_gap enhanced then Raise ValueError else Ok enhanced.
Proof.
  intros table enhanced.
  apply (activity_gaps_not_twice table
           [Activity "09:00" "Work"; Activity "10:30" "Travel";
            Activity "14:00" "Work"] enhanced).
  - reflexivity.
  - repeat constructor.
  - reflexivity.
Defined.

(* ===================================================================== *)
(** * The major events: the shape of a run *)

Lemma pattern_changes_kind dist previous_week weeks ev :
  ev ∈ pattern_changes dist previous_week weeks ->
  exists day severity, ev = PatternChange day severity.
Proof.
  induction weeks as [|week weeks IH] in previous_week |- *; simpl;
    [by intros ?%elem_of_nil|].
  intros [Hin|Hin]%elem_of_app; [|by eapply IH].
  destruct (negb _); [|by apply elem_of_nil in Hin].
  apply list_elem_of_singleton in Hin as ->. by eexists _, _.
Qed.

(** What a run of [_detect_activity_type_changes] returns, and the frame it
    leaves. *)
Lemma _detect_activity_type_changes_Ok data changes data' :
  _detect_activity_type_changes data = Ok (changes, data') ->
  if has_column "predicted_activity" data
  then exists ts l,
         getitem "datetime" data = Ok (Timestamps ts)
         /\ data' = assign "week" (Weeks (week_column ts)) data
         /\ getitem "predicted_activity" data = Ok (Texts l)
         /\ changes = match sorted (unique (week_column ts)) with
                      | [] => []
                      | first_week :: rest =>
                          pattern_changes (week_labels (week_column ts) l)
                                          first_week rest
                      end
  else changes = [] /\ data' = data.
Proof.
  unfold _detect_activity_type_changes.
  unfold mbind, M_bind, mret, M_ret, the_frame, lift, setitem. cbn beta iota.
  destruct (has_column "predicted_activity" data) eqn:Hh; simpl; [|by intros [= <- <-]].
  destruct (getitem "datetime" data) as [col|] eqn:Hcol; [|done].
  destruct col as [ts| | | |]; simpl; try done.
  destruct (getitem "week" _) as [wcol|]; [|done].
  rewrite getitem_assign_ne by done.
  destruct (getitem "predicted_activity" data) as [acol|] eqn:Hact; [|done].
  destruct acol as [| | | |l]; simpl; try done.
  intros [= <- <-]. by exists ts, l.
Qed.

Lemma timeline_travel_events_kind periods ev :
  ev ∈ timeline_travel_events periods ->
  exists day severity end_date, ev = TravelEvent day severity end_date.
Proof.
  unfold timeline_travel_events. intros (period & _ & Hev)%list_elem_of_omap.
  destruct period as [|first rest]; [done|].
  destruct (last (first :: rest)); [|done].
  destruct (2 <=? _)%nat; [|done]. injection Hev as <-. by eexists _, _, _.
Qed.

Lemma _detect_travel_from_timeline_kind data ts travel ev :
  _detect_travel_from_timeline data ts = Ok travel -> ev ∈ travel ->
  exists day severity end_date, ev = TravelEvent day severity end_date.
Proof.
  unfold _detect_travel_from_timeline.
  destruct (negb _); [intros [= <-] Hin; by apply elem_of_nil in Hin|].
  intros H Hin. apply bind_Ok in H as (activity & _ & H).
  destruct (masked _ ts); injection H as <-; [by apply elem_of_nil in Hin|].
  by eapply timeline_travel_events_kind.
Qed.

(** The guard of [_identify_major_events] is the guard of
    [detect_life_events]; a run past it. *)
Lemma _identify_major_events_guarded data :
  events_guard data = true -> _identify_major_events data = Ok ([], data).
Proof.
  intros H. unfold _identify_major_events, events_guard in *.
  unfold mbind, M_bind, the_frame. by rewrite H.
Qed.

Lemma _identify_major_events_Ok data tevents data' :
  events_guard data = false ->
  _identify_major_events data = Ok (tevents, data') ->
  exists ts events changes travel,
    getitem "datetime" data = Ok (Timestamps ts)
    /\ timeline_volume_loop (rolling_avg_7 (daily_counts_of ts))
         (std (snd <$> daily_counts_of ts)) (daily_counts_of ts) = Ok events
    /\ _detect_activity_type_changes (assign "date" (Dates (date <$> ts)) data)
       = Ok (changes, data')
    /\ _detect_travel_from_timeline data' ts = Ok travel
    /\ tevents = sorted_by (fun a b => timeline_event_date a <? timeline_event_date b)
                           (events ++ changes ++ travel).
Proof.
  intros Hg. unfold _identify_major_events, events_guard in *.
  unfold mbind at 1, M_bind at 1, the_frame at 1. rewrite Hg.
  unfold mbind, M_bind, mret, M_ret, the_frame, lift, setitem. cbn beta iota.
  destruct (getitem "datetime" data) as [col|] eqn:Hcol; [|done].
  destruct col as [ts| | | |]; simpl; try done.
  destruct (getitem "date" _) as [dcol|]; [|done].
  fold (daily_counts_of ts).
  destruct (timeline_volume_loop _ _ _) as [events|] eqn:Hev; [|done].
  destruct (_detect_activity_type_changes _) as [[changes dmid]|] eqn:Hch; [|done].
  destruct (_detect_travel_from_timeline dmid ts) as [travel|] eqn:Htr; [|done].
  intros [= <- <-]. by exists ts, events, changes, travel.
Qed.

(* ===================================================================== *)
(** * Sorting and dropping *)

Section SortedOmap.

Context {A B : Type} (key : A -> Z) (key' : B -> Z) (f : A -> option B).
Hypothesis key_f : forall a b, f a = Some b -> key' b = key a.

Let before (a1 a2 : A) : bool := key a1 <? key a2.
Let before' (b1 b2 : B) : bool := key' b1 <? key' b2.
Let le (a1 a2 : A) : Prop := key a1 <= key a2.

Lemma insort_front y (l : list B) :
  (forall w, w ∈ l -> key' y < key' w) -> insort before' y l = y :: l.
Proof.
  destruct l as [|w l]; [done|]. intros H. simpl. unfold before'.
  by rewrite (proj2 (Z.ltb_lt _ _) (H w (list_elem_of_here _ _))).
Qed.

Lemma omap_insort x (l : list A) :
  StronglySorted le l ->
  omap f (insort before x l)
  = match f x with
    | Some y => insort before' y (omap f l)
    | None => omap f l
    end.
Proof.
  induction l as [|z l IH]; intros Hs.
  { simpl. by destruct (f x). }
  apply StronglySorted_inv in Hs as [Hs Hall]. specialize (IH Hs).
  cbn [insort]. unfold before at 1. destruct (Z.ltb_spec (key x) (key z)) as [Hlt|Hge].
  - cbn [omap list_omap]. destruct (f x) as [y|] eqn:Hx; [|done].
    change (match f z with Some fz => fz :: omap f l | None => omap f l end)
      with (omap f (z :: l)).
    rewrite insort_front; [done|].
    intros w (a & Ha & Hw)%list_elem_of_omap.
    rewrite (key_f _ _ Hx), (key_f _ _ Hw).
    apply elem_of_cons in Ha as [->|Ha]; [done|].
    rewrite Forall_forall in Hall. specialize (Hall a Ha). unfold le in Hall. lia.
  - cbn [omap list_omap]. rewrite IH.
    destruct (f x) as [y|] eqn:Hx; [|done].
    destruct (f z) as [fz|] eqn:Hz; [|done].
    cbn [insort]. unfold before' at 2.
    rewrite (key_f _ _ Hx), (key_f _ _ Hz).
    by destruct (Z.ltb_spec (key x) (key z)); [lia|].
Qed.

Lemma sorted_by_le (l : list A) : StronglySorted le (sorted_by before l).
Proof.
  eapply StronglySorted_impl;
    [|apply (sorted_by_strongly key before (fun _ _ => True))].
  - intros a b [?|[? _]]; unfold le; lia.
  - intros a b. unfold before. apply Z.ltb_lt.
  - done.
  - induction l; constructor; [done|]. by apply Forall_forall.
Qed.

(** Dropping entries of a sorted list, or sorting what is left: the same
    list. *)
Lemma omap_sorted_by (l : list A) :
  omap f (sorted_by before l) = sorted_by before' (omap f l).
Proof.
  induction l as [|x l IH] using rev_ind; [done|].
  rewrite sorted_by_snoc, omap_insort by apply sorted_by_le.
  rewrite omap_app, IH. cbn [omap list_omap].
  destruct (f x) as [y|]; [by rewrite sorted_by_snoc | by rewrite app_nil_r].
Qed.

End SortedOmap.

(* ===================================================================== *)
(** * The major events and the life events *)

(** The two loops over the daily counts flag the same dates. *)
Lemma volume_loops_agree rolling_avg sd items :
  volume_loop rolling_avg sd items
  = (fun events : list timeline_event => omap life_event_of events)
    <$> timeline_volume_loop rolling_avg sd items.
Proof.
  induction items as [|[day count] items IH]; [done|].
  cbn [volume_loop timeline_volume_loop]. rewrite IH.
  destruct (series_get day _ rolling_avg) as [e|]; simpl;
    [|by destruct (timeline_volume_loop _ _ items)].
  destruct sd as [s|]; simpl; [|by destruct (timeline_volume_loop _ _ items)].
  destruct (deviates count e s); simpl;
    [|by destruct (timeline_volume_loop _ _ items)].
  unfold anomaly_confidence. destruct (divide _ s) as [severity|]; simpl; [|done].
  by destruct (timeline_volume_loop _ _ items).
Qed.

Lemma travel_events_of_timeline periods :
  omap life_event_of (timeline_travel_events periods) = travel_events periods.
Proof.
  unfold timeline_travel_events, travel_events.
  induction periods as [|period periods IH]; [done|].
  cbn [omap list_omap]. destruct period as [|first rest]; [done|].
  destruct (last (first :: rest)) as [end_date|] eqn:Hlast;
    [|by apply last_None in Hlast].
  destruct (2 <=? length (first :: rest))%nat; [|done].
  cbn [omap list_omap life_event_of]. by rewrite IH.
Qed.

Lemma pattern_changes_dropped changes :
  (forall ev, ev ∈ changes -> exists day severity, ev = PatternChange day severity) ->
  omap life_event_of changes = [].
Proof.
  induction changes as [|ev changes IH]; [done|]. intros H.
  destruct (H ev (list_elem_of_here _ _)) as (day & severity & ->).
  cbn [omap list_omap life_event_of]. apply IH. intros ev' Hin. apply H. by right.
Qed.

(** X27.  On a frame on which both run, [_identify_major_events] and
    [detect_life_events] report the same volume anomalies and the same
    travel periods, in the same order: the major events without the changes
    of the activity pattern, each anomaly with a third of its severity
    capped at 1 as its confidence and each travel period with its severity
    as its duration in days, are the life events. *)
Theorem major_events_are_the_life_events parse_column data levents data1 tevents data2 :
  detect_life_events parse_column data = Ok (levents, data1) ->
  _identify_major_events data = Ok (tevents, data2) ->
  omap life_event_of tevents = levents.
Proof.
  intros Hl Ht. destruct (events_guard data) eqn:Hg.
  { rewrite detect_life_events_guarded in Hl by done.
    rewrite _identify_major_events_guarded in Ht by done.
    injection Hl as <- _. by injection Ht as <- _. }
  apply _identify_major_events_Ok in Ht
    as (ts & events & changes & travel' & Hcol & Hev & Hch & Htr' & ->); [|done].
  apply detect_life_events_Ok in Hl
    as (ts' & anomalies & travel & Hts & -> & _ & Han & Htr & ->); [|done].
  pose proof (getitem_Ok_has_column _ _ _ Hcol) as Hdt.
  unfold event_times in Hts. unfold with_dates in Htr.
  rewrite Hdt in Hts, Htr. simpl in Hts, Htr. rewrite Hcol in Hts. simpl in Hts.
  injection Hts as <-.
  rewrite (omap_sorted_by timeline_event_date event_date life_event_of)
    by (intros [] b [= <-]; done).
  f_equal. rewrite !omap_app. f_equal; [|].
  - unfold volume_anomalies in Han. rewrite volume_loops_agree in Han.
    fold (daily_counts_of ts) in Hev. rewrite Hev in Han. by injection Han.
  - pose proof (_detect_activity_type_changes_Ok _ _ _ Hch) as Hshape.
    rewrite has_column_assign_ne in Hshape, Htr by done.
    unfold _detect_travel_from_timeline, _detect_travel_patterns in *.
    destruct (has_column "predicted_activity" data) eqn:Hpa.
    + destruct Hshape as (ts2 & l & _ & -> & Hact & ->).
      rewrite has_column_assign_ne, has_column_assign_ne, Hpa in Htr' by done.
      rewrite !getitem_assign_ne in Htr' by done.
      rewrite getitem_assign_ne in Htr, Hact by done. rewrite Hact in Htr, Htr'.
      simpl in Htr, Htr'.
      rewrite pattern_changes_dropped; simpl.
      * destruct (masked _ ts); injection Htr as <-; injection Htr' as <-; [done|].
        apply travel_events_of_timeline.
      * intros ev Hin. destruct (sorted _); [by apply elem_of_nil in Hin|].
        by eapply pattern_changes_kind.
    + destruct Hshape as [-> ->].
      rewrite has_column_assign_ne, Hpa in Htr' by done. simpl in Htr'.
      injection Htr as <-. by injection Htr' as <-.
Qed.

(** On daily counts 5, ..., 5, 50, 5, ..., 5 (15 days) labelled 'Work' in
    the first week and 'Travel' from the eighth day on. *)
Lemma major_events_are_the_life_events_witness :
  let ts := events_of_counts jan_1 [5; 5; 5; 5; 5; 5; 5; 50; 5; 5; 5; 5; 5; 5; 5] in
  let l := (fun t => if date t <? jan_1 + 7 then "Work" else "Travel") <$> ts in
  let data := Frame (length ts) [("datetime", Timestamps ts);
                                 ("predicted_activity", Texts l)] in
  omap life_event_of (result_of [] (_identify_major_events data))
  = result_of [] (detect_life_events no_parse data).
Proof.
  intros ts l data.
  apply (major_events_are_the_life_events no_parse data _
           (frame_after data (detect_life_events no_parse data)) _
           (frame_after data (_identify_major_events data))).
  - vm_compute. reflexivity.
  - vm_compute. reflexivity.
Defined.

(* ===================================================================== *)
(** * The changes of the activity pattern *)

(** How often the labels of a duplicate-free list occur in [l], together:
    no more than [l] is long. *)
Lemma occurrences_of_distinct_labels (labels_ l : list string) :
  NoDup labels_ ->
  (sum_list ((fun a => length (filter (fun x => x = a) l)) <$> labels_) <= length l)%nat.
Proof.
  intros Hnd. induction l as [|x l IH]; simpl.
  { induction labels_ as [|a labels_ IHl]; [done|]. rewrite fmap_cons. simpl.
    apply NoDup_cons in Hnd as [_ Hnd]. specialize (IHl Hnd). lia. }
  assert (Hstep : forall labels_, NoDup labels_ ->
            (sum_list ((fun a => length (filter (fun y => y = a) (x :: l))) <$> labels_)
             <= sum_list ((fun a => length (filter (fun y => y = a) l)) <$> labels_)
                + 1)%nat
            /\ (x ∉ labels_ ->
                sum_list ((fun a => length (filter (fun y => y = a) (x :: l))) <$> labels_)
                = sum_list ((fun a => length (filter (fun y => y = a) l)) <$> labels_))).
  { clear. intros labels_. induction labels_ as [|a labels_ IH]; intros Hnd.
    { split; [simpl; lia|done]. }
    apply NoDup_cons in Hnd as [Ha Hnd]. destruct (IH Hnd) as [IH1 IH2].
    rewrite !fmap_cons. cbn [sum_list sum_list_with]. rewrite filter_cons.
    destruct (decide (x = a)) as [->|Hne].
    - rewrite (IH2 Ha). split; [simpl; lia|].
      intros Hn. exfalso. apply Hn. by left.
    - split; [lia|]. intros Hn. rewrite IH2; [done|].
      intros Hin. apply Hn. by right. }
  destruct (Hstep labels_ Hnd) as [H1 _]. lia.
Qed.

Lemma share_fraction l a :
  (share l a == inject_Z (Z.of_nat (length (filter (fun x => x = a) l)))
                / inject_Z (Z.of_nat (length l)))%Q.
Proof.
  unfold share. destruct (length (filter _ l)) as [|n]; [|done].
  unfold Qdiv. by rewrite Qmult_0_l.
Qed.

Lemma share_nonneg l a : (0 <= share l a)%Q.
Proof.
  rewrite share_fraction. unfold Qdiv. apply Qmult_le_0_compat.
  - unfold Qle, inject_Z. simpl. lia.
  - apply Qinv_le_0_compat. unfold Qle, inject_Z. simpl. lia.
Qed.

Lemma sumQ_shares l (labels_ : list string) :
  (sumQ (share l <$> labels_)
   == inject_Z (Z.of_nat (sum_list ((fun a => length (filter (fun x => x = a) l))
                                      <$> labels_)))
      / inject_Z (Z.of_nat (length l)))%Q.
Proof.
  induction labels_ as [|a labels_ IH]; simpl.
  { unfold Qdiv. by rewrite Qmult_0_l. }
  rewrite IH, share_fraction. rewrite Nat2Z.inj_add, inject_Z_plus.
  unfold Qdiv. by rewrite Qmult_plus_distr_l.
Qed.

(** The shares of distinct labels add up to 1 at most. *)
Lemma sumQ_shares_le_1 l (labels_ : list string) :
  NoDup labels_ -> (sumQ (share l <$> labels_) <= 1)%Q.
Proof.
  intros Hnd. rewrite sumQ_shares.
  pose proof (occurrences_of_distinct_labels labels_ l Hnd) as Hle.
  destruct l as [|x l].
  { simpl. unfold Qdiv, Qinv. simpl. rewrite Qmult_0_r. done. }
  apply Qle_shift_div_r.
  - unfold Qlt, inject_Z. simpl. lia.
  - rewrite Qmult_1_l. rewrite <- Zle_Qle. lia.
Qed.

Lemma sumQ_le_pointwise {X} (f g : X -> Q) (l : list X) :
  (forall x, f x <= g x)%Q -> (sumQ (f <$> l) <= sumQ (g <$> l))%Q.
Proof.
  intros H. induction l as [|x l IH]; simpl; [done|].
  by apply Qplus_le_compat.
Qed.

Lemma sumQ_plus {X} (f g : X -> Q) (l : list X) :
  (sumQ ((fun x => f x + g x) <$> l) == sumQ (f <$> l) + sumQ (g <$> l))%Q.
Proof.
  induction l as [|x l IH]; [done|]. rewrite !fmap_cons.
  change (f x + g x + sumQ ((fun x => f x + g x) <$> l)
          == f x + sumQ (f <$> l) + (g x + sumQ (g <$> l)))%Q.
  rewrite IH. ring.
Qed.

(** The change between two weeks is 2 at most. *)
Lemma total_change_le_2 current previous : (total_change current previous <= 2)%Q.
Proof.
  unfold total_change. cbv zeta.
  set (all_activities := unique (current ++ previous)).
  assert (Hnd : NoDup all_activities) by apply NoDup_unique.
  eapply Qle_trans.
  { apply (sumQ_le_pointwise _ (fun a => share current a + share previous a)%Q).
    intros a. pose proof (share_nonneg current a). pose proof (share_nonneg previous a).
    apply Qabs_case; intros; lra. }
  rewrite sumQ_plus.
  pose proof (sumQ_shares_le_1 current all_activities Hnd).
  pose proof (sumQ_shares_le_1 previous all_activities Hnd). lra.
Qed.

(** The events of the loop over the weeks: each is for a week of the list,
    compared with the week before it in the list. *)
Lemma pattern_changes_spec dist previous_week weeks ev :
  StronglySorted Z.lt (previous_week :: weeks) ->
  ev ∈ pattern_changes dist previous_week weeks ->
  exists week previous,
    ev = PatternChange (week_start week)
                       (total_change (dist week) (dist previous))
    /\ week ∈ weeks /\ previous ∈ previous_week :: weeks /\ previous < week
    /\ (1 # 2 < total_change (dist week) (dist previous))%Q.
Proof.
  induction weeks as [|week weeks IH] in previous_week |- *; intros Hs;
    [by intros ?%elem_of_nil|].
  cbn [pattern_changes]. intros [Hin|Hin]%elem_of_app.
  - destruct (negb _) eqn:Hgt; [|by apply elem_of_nil in Hin].
    apply list_elem_of_singleton in Hin as ->.
    exists week, previous_week. split; [done|]. split; [by left|]. split; [by left|].
    split.
    + apply StronglySorted_inv in Hs as [_ Hall].
      by apply Forall_cons in Hall as [? _].
    + by apply negb_true_iff, Qle_bool_false in Hgt.
  - apply StronglySorted_inv in Hs as [Hs _].
    destruct (IH _ Hs Hin) as (w & p & -> & Hw & Hp & Hlt & Hgt).
    exists w, p. split; [done|]. split; [by right|]. split; [by right|]. done.
Qed.

Lemma pattern_changes_sorted dist previous_week weeks :
  StronglySorted Z.lt (previous_week :: weeks) ->
  StronglySorted Z.lt (timeline_event_date <$> pattern_changes dist previous_week weeks).
Proof.
  induction weeks as [|week weeks IH] in previous_week |- *; intros Hs; [constructor|].
  cbn [pattern_changes]. pose proof Hs as Hs0.
  apply StronglySorted_inv in Hs as [Hs _]. specialize (IH _ Hs).
  destruct (negb _); [|done]. simpl. constructor; [done|].
  apply Forall_forall. intros d (ev & -> & Hin)%list_elem_of_fmap.
  destruct (pattern_changes_spec _ _ _ _ Hs Hin) as (w & p & -> & Hw & _).
  simpl. apply StronglySorted_inv in Hs as [_ Hall]. rewrite Forall_forall in Hall.
  specialize (Hall w Hw). unfold week_start. lia.
Qed.

(** The Monday of the week of a date. *)
Lemma week_start_spec d :
  (week_start (to_period_W d) - 1) mod 7 = 0
  /\ week_start (to_period_W d) <= d <= week_start (to_period_W d) + 6.
Proof.
  unfold week_start, to_period_W.
  pose proof (Z.div_mod (d - 1) 7). pose proof (Z.mod_pos_bound (d - 1) 7).
  split; [|lia].
  replace (7 * ((d - 1) / 7) + 1 - 1) with (((d - 1) / 7) * 7) by lia.
  apply Z.mod_mul. lia.
Qed.

(** X28.  Every event of [_detect_activity_type_changes] is dated on the
    Monday of a week in which the frame has rows, and not the first such
    week: the weeks are compared with the week before them among the weeks
    that have rows.  Its severity is greater than 0.5, the threshold of the
    code, and at most 2 up to the rounding of the floats: it is the float
    sum over the labels of the absolute differences of their shares in the
    two weeks.  The events are in ascending order of date, one per week at
    most. *)
Theorem activity_pattern_changes data changes data' ts :
  _detect_activity_type_changes data = Ok (changes, data') ->
  getitem "datetime" data = Ok (Timestamps ts) ->
  StronglySorted Z.lt (timeline_event_date <$> changes)
  /\ forall ev, ev ∈ changes ->
       exists day severity,
         ev = PatternChange day severity
         /\ (1 # 2 < severity)%Q /\ (severity <= 2 + rounding_margin)%Q
         /\ (day - 1) mod 7 = 0
         /\ (exists t, t ∈ ts /\ day <= date t <= day + 6)
         /\ (exists t, t ∈ ts /\ date t < day).
Proof.
  intros Hrun Hts. apply _detect_activity_type_changes_Ok in Hrun.
  destruct (has_column "predicted_activity" data).
  2:{ destruct Hrun as [-> _]. split; [constructor|]. by intros ev ?%elem_of_nil. }
  destruct Hrun as (ts' & l & Hts' & _ & _ & ->).
  rewrite Hts in Hts'. injection Hts' as <-.
  pose proof (sorted_unique_increasing (week_column ts)) as Hs.
  assert (Hweek : forall w, w ∈ sorted (unique (week_column ts)) ->
            exists t, t ∈ ts /\ to_period_W (date t) = w).
  { intros w Hw. apply (proj1 (elem_of_sorted_unique _ _)) in Hw.
    unfold week_column in Hw.
    apply list_elem_of_fmap in Hw as (t & -> & Ht). by exists t. }
  destruct (sorted (unique (week_column ts))) as [|first_week weeks];
    [split; [constructor|]; by intros ev ?%elem_of_nil|].
  split; [by apply pattern_changes_sorted|].
  intros ev Hin.
  destruct (pattern_changes_spec _ _ _ _ Hs Hin) as (w & p & -> & Hw & Hp & Hlt & Hgt).
  exists (week_start w), (total_change (week_labels (week_column ts) l w)
                                       (week_labels (week_column ts) l p)).
  split; [done|]. split; [done|].
  split.
  { pose proof (total_change_le_2 (week_labels (week_column ts) l w)
                                  (week_labels (week_column ts) l p)) as Hle.
    unfold rounding_margin. lra. }
  destruct (Hweek w) as (t & Ht & <-); [by right|].
  destruct (Hweek p) as (t' & Ht' & <-); [done|].
  destruct (week_start_spec (date t)) as [Hmon Hrange].
  split; [done|]. split; [by exists t|]. exists t'. split; [done|].
  destruct (week_start_spec (date t')) as [_ Hrange']. unfold week_start in *. lia.
Qed.

(** On two weeks, the first labelled 'Work' and the second 'Travel': the
    shares change by 2. *)
Lemma activity_pattern_changes_witness :
  let ts := events_of_counts jan_1 [2; 0; 0; 0; 0; 0; 0; 3] in
  let l := ["Work"; "Work"; "Travel"; "Travel"; "Travel"] in
  let data := Frame 5 [("datetime", Timestamps ts); ("predicted_activity", Texts l)] in
  let changes := result_of [] (_detect_activity_type_changes data) in
  StronglySorted Z.lt (timeline_event_date <$> changes)
  /\ forall ev, ev ∈ changes ->
       exists day severity,
         ev = PatternChange day severity
         /\ (1 # 2 < severity)%Q /\ (severity <= 2 + rounding_margin)%Q
         /\ (day - 1) mod 7 = 0
         /\ (exists t, t ∈ ts /\ day <= date t <= day + 6)
         /\ (exists t, t ∈ ts /\ date t < day).
Proof.
  intros ts l data changes.
  apply (activity_pattern_changes data changes
           (frame_after data (_detect_activity_type_changes data)) ts).
  - reflexivity.
  - reflexivity.
Defined.

(* ===================================================================== *)
(** * The major events: severity, order, and the caller's frame *)

(** Every volume event of the loop is for a count that deviates from its
    baseline, with the deviation in standard deviations as severity. *)
Lemma timeline_volume_loop_sound rolling_avg sd items events ev :
  timeline_volume_loop rolling_avg sd items = Ok events ->
  ev ∈ events ->
  exists day count e s,
    (day, count) ∈ items
    /\ sd = Some s
    /\ deviates count e s = true
    /\ mis_zero s = false
    /\ ev = VolumeEvent day (anomaly_type count e)
                        (mquot (mabs (inject_Z count - e)) s) count e.
Proof.
  induction items as [|[day count] items IH] in events |- *; simpl.
  - intros [= <-] Hin. by apply elem_of_nil in Hin.
  - intros H Hin.
    apply bind_Ok in H as (event & Hevent & H).
    apply bind_Ok in H as (rest & Hrest & [= <-]).
    apply elem_of_app in Hin as [Hin|Hin].
    + destruct (series_get day _ rolling_avg) as [e|] eqn:He;
        [|injection Hevent as <-; by apply elem_of_nil in Hin].
      destruct sd as [s|];
        [|injection Hevent as <-; by apply elem_of_nil in Hin].
      destruct (deviates count e s) eqn:Hd;
        [|injection Hevent as <-; by apply elem_of_nil in Hin].
      apply bind_Ok in Hevent as (severity & Hsev & [= <-]).
      apply list_elem_of_singleton in Hin as ->.
      unfold divide in Hsev. destruct (mis_zero s) eqn:Hz; [done|].
      injection Hsev as <-.
      exists day, count, e, s. split; [apply list_elem_of_here | done].
    + destruct (IH _ Hrest Hin) as (d' & c' & e' & s' & Hi & ?).
      exists d', c', e', s'. split; [by apply list_elem_of_further | done].
Qed.

(** The severity as a real number. *)
Lemma severity_real count e sd :
  (0 <= square sd)%Q -> mis_zero sd = false -> deviates count e sd = true ->
  (to_R (mquot (mabs (inject_Z count - e)) sd) = Rabs (IZR count - Q2R e) / to_R sd
   /\ 2 < to_R (mquot (mabs (inject_Z count - e)) sd))%R.
Proof.
  intros Hsd Hz Hdev.
  assert (Hpos : (0 < square sd)%Q).
  { destruct (Qlt_le_dec 0 (square sd)) as [|Hle]; [done|].
    assert (square sd == 0)%Q as Hzero by lra.
    apply mis_zero_spec in Hzero. congruence. }
  apply deviates_real in Hdev; [|done].
  assert (Hsdpos : (0 < to_R sd)%R).
  { pose proof (to_R_nonneg sd) as Hn.
    destruct (Req_dec (to_R sd) 0) as [H0|Hne]; [|Lra.lra].
    apply mis_zero_real in H0; [congruence|done]. }
  rewrite to_R_mquot, to_R_mabs, Q2R_deviation; [|simpl; apply Qsquare_nonneg|done].
  split; [done|].
  apply Rmult_lt_reg_r with (to_R sd); [done|].
  unfold Rdiv. rewrite Rmult_assoc, Rinv_l by Lra.lra. Lra.lra.
Qed.

(** X29.  The events [_identify_major_events] returns are in the order of
    their dates.  The severity of a volume event is the distance of the count
    of its date from the rolling baseline, in sample standard deviations of
    the daily counts, and is greater than 2.  The run changes nothing of the
    caller's frame but the 'date' and the 'week' column. *)
Theorem major_events_order_and_severity data tevents data' :
  _identify_major_events data = Ok (tevents, data') ->
  StronglySorted (fun a b => timeline_event_date a <= timeline_event_date b) tevents
  /\ (forall day type severity count e,
        VolumeEvent day type severity count e ∈ tevents ->
        exists ts sd,
          getitem "datetime" data = Ok (Timestamps ts)
          /\ std (snd <$> daily_counts_of ts) = Some sd
          /\ (to_R severity = Rabs (IZR count - Q2R e) / to_R sd
              /\ 2 < to_R severity)%R)
  /\ index data' = index data
  /\ forall name, name <> "date" -> name <> "week" ->
       getitem name data' = getitem name data
       /\ has_column name data' = has_column name data.
Proof.
  intros Hrun. destruct (events_guard data) eqn:Hg.
  { rewrite _identify_major_events_guarded in Hrun by done.
    injection Hrun as <- <-. split; [constructor|].
    split; [by intros ? ? ? ? ? ?%elem_of_nil|done]. }
  apply _identify_major_events_Ok in Hrun
    as (ts & events & changes & travel & Hcol & Hev & Hch & Htr & ->); [|done].
  split; [apply (sorted_by_le timeline_event_date)|]. split.
  - intros day type severity count e Hin.
    apply elem_of_sorted_by in Hin. apply elem_of_app in Hin as [Hin|Hin].
    + destruct (timeline_volume_loop_sound _ _ _ _ _ Hev Hin)
        as (day' & count' & e' & sd & _ & Hsd & Hdev & Hz & [= -> -> -> -> ->]).
      exists ts, sd. split; [done|]. split; [done|].
      apply severity_real; [by eapply std_square_nonneg|done|done].
    + exfalso. apply elem_of_app in Hin as [Hin|Hin].
      * apply _detect_activity_type_changes_Ok in Hch.
        destruct (has_column "predicted_activity" _).
        -- destruct Hch as (? & ? & _ & _ & _ & ->).
           destruct (sorted _); [by apply elem_of_nil in Hin|].
           by apply pattern_changes_kind in Hin as (? & ? & ?).
        -- destruct Hch as [-> _]. by apply elem_of_nil in Hin.
      * by destruct (_detect_travel_from_timeline_kind _ _ _ _ Htr Hin) as (? & ? & ? & ?).
  - apply _detect_activity_type_changes_Ok in Hch.
    destruct (has_column "predicted_activity" _).
    + destruct Hch as (? & ? & _ & -> & _). split; [by rewrite !index_assign|].
      intros name H1 H2. by rewrite !getitem_assign_ne, !has_column_assign_ne.
    + destruct Hch as [_ ->]. split; [by rewrite index_assign|].
      intros name H1 H2. by rewrite getitem_assign_ne, has_column_assign_ne.
Qed.

(** On daily counts 5, ..., 5, 50, 5, ..., 5 (15 days) labelled 'Work' in
    the first week and 'Travel' from the eighth day on. *)
Lemma major_events_order_and_severity_witness :
  let ts := events_of_counts jan_1 [5; 5; 5; 5; 5; 5; 5; 50; 5; 5; 5; 5; 5; 5; 5] in
  let l := (fun t => if date t <? jan_1 + 7 then "Work" else "Travel") <$> ts in
  let data := Frame (length ts) [("datetime", Timestamps ts);
                                 ("predicted_activity", Texts l)] in
  let tevents := result_of [] (_identify_major_events data) in
  let data' := frame_after data (_identify_major_events data) in
  StronglySorted (fun a b => timeline_event_date a <= timeline_event_date b) tevents
  /\ (forall day type severity count e,
        VolumeEvent day type severity count e ∈ tevents ->
        exists ts sd,
          getitem "datetime" data = Ok (Timestamps ts)
          /\ std (snd <$> daily_counts_of ts) = Some sd
          /\ (to_R severity = Rabs (IZR count - Q2R e) / to_R sd
              /\ 2 < to_R severity)%R)
  /\ index data' = index data
  /\ forall name, name <> "date" -> name <> "week" ->
       getitem name data' = getitem name data
       /\ has_column name data' = has_column name data.
Proof.
  intros ts l data tevents data'.
  apply (major_events_order_and_severity data tevents data').
  vm_compute. reflexivity.
Defined.

(* ===================================================================== *)
(** * The distribution of the activities *)

Section DistributionFacts.

Variable numbers : column -> option (list Q).




End DistributionFacts.



(* ===================================================================== *)
(** * Least squares *)

Section LeastSquares.
Local Open Scope Q_scope.

Lemma squared_residuals_shift (pts : list (Z * Z)) a b a' b' :
  sumQ ((fun p => (inject_Z (snd p) - (a' + b' * inject_Z (fst p)))
                  * (inject_Z (snd p) - (a' + b' * inject_Z (fst p)))) <$> pts)
  == sumQ ((fun p => (inject_Z (snd p) - (a + b * inject_Z (fst p)))
                     * (inject_Z (snd p) - (a + b * inject_Z (fst p)))) <$> pts)
     - 2 * ((a' - a)
            * (sumQ ((fun p => inject_Z (snd p)) <$> pts)
               - a * inject_Z (Z.of_nat (length pts))
               - b * sumQ ((fun p => inject_Z (fst p)) <$> pts))
            + (b' - b)
              * (sumQ ((fun p => inject_Z (fst p) * inject_Z (snd p)) <$> pts)
                 - a * sumQ ((fun p => inject_Z (fst p)) <$> pts)
                 - b * sumQ ((fun p => inject_Z (fst p) * inject_Z (fst p)) <$> pts)))
     + sumQ ((fun p => ((a' - a) + (b' - b) * inject_Z (fst p))
                       * ((a' - a) + (b' - b) * inject_Z (fst p))) <$> pts).
Proof.
  induction pts as [|[x y] pts IH].
  { simpl. ring. }
  rewrite !fmap_cons. cbn [sumQ foldr length fst snd].
  fold (sumQ ((fun p => (inject_Z (snd p) - (a' + b' * inject_Z (fst p)))
                  * (inject_Z (snd p) - (a' + b' * inject_Z (fst p)))) <$> pts)).
  rewrite IH. rewrite Nat2Z.inj_succ. unfold Z.succ. rewrite inject_Z_plus.
  unfold sumQ. ring.
Qed.

Lemma sumQ_ext {A} (f g : A -> Q) (l : list A) :
  (forall x, f x == g x) -> sumQ (f <$> l) == sumQ (g <$> l).
Proof.
  intros H. induction l as [|x l IH]; [done|].
  rewrite !fmap_cons. cbn [sumQ foldr]. fold (sumQ (f <$> l)). fold (sumQ (g <$> l)).
  by rewrite IH, H.
Qed.

Lemma sumQ_of_zip (f : Z -> Z -> Z) (xs ys : list Z) :
  sumQ ((fun p => inject_Z (f (fst p) (snd p))) <$> zip xs ys)
  == inject_Z (sumZ (zip_with f xs ys)).
Proof.
  induction xs as [|x xs IH] in ys |- *; [done|].
  destruct ys as [|y ys]; [done|].
  cbn [zip zip_with fmap list_fmap sumQ sumZ foldr fst snd].
  rewrite inject_Z_plus. fold (sumZ (zip_with f xs ys)).
  rewrite <- IH. reflexivity.
Qed.

Lemma zip_with_fst (f : Z -> Z) (xs ys : list Z) :
  length xs = length ys -> zip_with (fun x _ => f x) xs ys = f <$> xs.
Proof.
  induction xs as [|x xs IH] in ys |- *; [done|].
  destruct ys as [|y ys]; [done|]. intros [= H]. simpl. by rewrite IH.
Qed.

Lemma zip_with_snd (xs ys : list Z) :
  length xs = length ys -> zip_with (fun _ y => y) xs ys = ys.
Proof.
  induction xs as [|x xs IH] in ys |- *; destruct ys as [|y ys]; try done.
  intros [= H]. simpl. by rewrite IH.
Qed.

(** With the slope of [polyfit_slope] and its intercept the residuals sum
    to zero and are orthogonal to the indices: every other line has the sum
    of squared residuals of this one and a sum of squares more. *)
Lemma polyfit_residuals values a' b' :
  (2 <= length values)%nat ->
  let a := polyfit_intercept values in
  let b := polyfit_slope values in
  squared_residuals values a' b'
  == squared_residuals values a b
     + sumQ ((fun p => ((a' - a) + (b' - b) * inject_Z (fst p))
                       * ((a' - a) + (b' - b) * inject_Z (fst p)))
             <$> zip (Z.of_nat <$> seq 0 (length values)) values).
Proof.
  intros Hn a b. subst a.
  pose proof (polyfit_slope_normal_equation values Hn) as Hb. cbv zeta in Hb.
  unfold polyfit_intercept. fold b. fold b in Hb.
  set (xs := Z.of_nat <$> seq 0 (length values)) in *.
  assert (Hlen : length xs = length values)
    by (unfold xs; by rewrite length_fmap, length_seq).
  set (n := inject_Z (Z.of_nat (length values))) in *.
  set (sx := inject_Z (sumZ xs)) in *.
  set (sy := inject_Z (sumZ values)) in *.
  set (sxx := inject_Z (sumZ ((fun i => (i * i)%Z) <$> xs))) in *.
  set (sxy := inject_Z (sumZ (zip_with Z.mul xs values))) in *.
  assert (Hn0 : ~ n == 0).
  { unfold n, Qeq, inject_Z. simpl. lia. }
  unfold squared_residuals. fold xs.
  rewrite (squared_residuals_shift (zip xs values) ((sy - b * sx) / n) b a' b').
  assert (H1 : sumQ ((fun p => inject_Z (snd p)) <$> zip xs values) == sy).
  { rewrite (sumQ_of_zip (fun _ y => y)). unfold sy.
    by rewrite zip_with_snd. }
  assert (H2 : sumQ ((fun p => inject_Z (fst p)) <$> zip xs values) == sx).
  { rewrite (sumQ_of_zip (fun x _ => x)). unfold sx.
    by rewrite (zip_with_fst (fun x => x)), list_fmap_id. }
  assert (H3 : sumQ ((fun p => inject_Z (fst p) * inject_Z (snd p)) <$> zip xs values)
               == sxy).
  { unfold sxy. rewrite <- (sumQ_of_zip Z.mul). apply sumQ_ext.
    intros p. by rewrite inject_Z_mult. }
  assert (H4 : sumQ ((fun p => inject_Z (fst p) * inject_Z (fst p)) <$> zip xs values)
               == sxx).
  { unfold sxx. rewrite <- (zip_with_fst (fun i => (i * i)%Z) xs values) by done.
    rewrite <- (sumQ_of_zip (fun x _ => (x * x)%Z)). apply sumQ_ext.
    intros p. by rewrite inject_Z_mult. }
  assert (H5 : inject_Z (Z.of_nat (length (zip xs values))) == n).
  { unfold n. rewrite length_zip_with. rewrite Hlen. by rewrite Nat.min_id. }
  rewrite H1, H2, H3, H4, H5.
  assert (Hz1 : sy - (sy - b * sx) / n * n - b * sx == 0).
  { field. exact Hn0. }
  assert (Hz2 : sxy - (sy - b * sx) / n * sx - b * sxx == 0).
  { assert (Hq : (sxy - (sy - b * sx) / n * sx - b * sxx) * n == 0).
    { transitivity ((n * sxy - sx * sy) - b * (n * sxx - sx * sx)).
      - field. exact Hn0.
      - rewrite Hb. ring. }
    apply Qmult_integral in Hq as [Hq|Hq]; [done|]. by apply Hn0 in Hq. }
  rewrite Hz1, Hz2. ring.
Qed.

(** The slope of [polyfit_slope] is a least squares slope. *)
Lemma polyfit_least_squares values :
  (2 <= length values)%nat -> least_squares_slope values (polyfit_slope values).
Proof.
  intros Hn. exists (polyfit_intercept values). intros a' b'.
  rewrite (polyfit_residuals values a' b' Hn). cbv zeta.
  match goal with |- _ <= _ + ?rest => assert (Hrest : 0 <= rest) end.
  { apply sumQ_nonneg. intros q Hq. apply list_elem_of_fmap in Hq as (p & -> & _).
    apply Qsquare_nonneg. }
  lra.
Qed.

(** Two values or more have one least squares slope only. *)
Lemma least_squares_slope_unique values b :
  (2 <= length values)%nat ->
  least_squares_slope values b -> b == polyfit_slope values.
Proof.
  intros Hn [a Hmin].
  specialize (Hmin (polyfit_intercept values) (polyfit_slope values)).
  rewrite (polyfit_residuals values a b Hn) in Hmin. cbv zeta in Hmin.
  set (squares := (fun p : Z * Z =>
             (a - polyfit_intercept values
              + (b - polyfit_slope values) * inject_Z (fst p))
             * (a - polyfit_intercept values
                + (b - polyfit_slope values) * inject_Z (fst p)))
           <$> zip (Z.of_nat <$> seq 0 (length values)) values) in *.
  assert (Hnn : forall q, q ∈ squares -> 0 <= q).
  { intros q Hq. apply list_elem_of_fmap in Hq as (p & -> & _).
    apply Qsquare_nonneg. }
  assert (Hzero : sumQ squares == 0).
  { pose proof (sumQ_nonneg _ Hnn). lra. }
  destruct values as [|y0 [|y1 values]]; [simpl in Hn; lia | simpl in Hn; lia|].
  assert (H0 : (a - polyfit_intercept (y0 :: y1 :: values)
                + (b - polyfit_slope (y0 :: y1 :: values)) * inject_Z 0)
               * (a - polyfit_intercept (y0 :: y1 :: values)
                + (b - polyfit_slope (y0 :: y1 :: values)) * inject_Z 0) == 0).
  { apply (sumQ_zero _ Hnn Hzero). unfold squares. cbn [length seq fmap list_fmap zip zip_with].
    apply list_elem_of_here. }
  assert (H1 : (a - polyfit_intercept (y0 :: y1 :: values)
                + (b - polyfit_slope (y0 :: y1 :: values)) * inject_Z 1)
               * (a - polyfit_intercept (y0 :: y1 :: values)
                + (b - polyfit_slope (y0 :: y1 :: values)) * inject_Z 1) == 0).
  { apply (sumQ_zero _ Hnn Hzero). unfold squares. cbn [length seq fmap list_fmap zip zip_with].
    apply list_elem_of_further, list_elem_of_here. }
  apply Qsquare_zero in H0, H1.
  set (b0 := polyfit_slope _) in *. set (a0 := polyfit_intercept _) in *.
  change (inject_Z 0) with 0 in H0. change (inject_Z 1) with 1 in H1. lra.
Qed.

End LeastSquares.

(* ===================================================================== *)
(** * Trends: the weekly series *)

Lemma ascending_ext (s s' : series Z) :
  ascending s -> ascending s' -> (forall p, p ∈ s <-> p ∈ s') -> s = s'.
Proof.
  induction s as [|[k v] s IH] in s' |- *; intros H1 H2 Hiff.
  - destruct s' as [|p s']; [done|].
    pose proof (proj2 (Hiff p) (list_elem_of_here _ _)) as H. by apply elem_of_nil in H.
  - destruct s' as [|[k' v'] s'].
    + pose proof (proj1 (Hiff (k, v)) (list_elem_of_here _ _)) as H.
      by apply elem_of_nil in H.
    + apply ascending_cons in H1 as [H1 Ha]. apply ascending_cons in H2 as [H2 Hb].
      rewrite Forall_forall in Ha. rewrite Forall_forall in Hb.
      assert ((k, v) = (k', v')) as Heq.
      { pose proof (proj1 (Hiff (k, v)) (list_elem_of_here _ _)) as Hab.
        pose proof (proj2 (Hiff (k', v')) (list_elem_of_here _ _)) as Hba.
        apply elem_of_cons in Hab as [?|Hab]; [done|].
        apply elem_of_cons in Hba as [?|Hba]; [done|].
        specialize (Ha _ Hba). specialize (Hb _ Hab). simpl in *. lia. }
      injection Heq as <- <-.
      f_equal. apply IH; [done|done|]. intros x. split; intros Hx.
      * pose proof (proj1 (Hiff x) (list_elem_of_further _ _ _ Hx)) as H.
        apply elem_of_cons in H as [->|H]; [|done]. specialize (Ha _ Hx).
        simpl in Ha. lia.
      * pose proof (proj2 (Hiff x) (list_elem_of_further _ _ _ Hx)) as H.
        apply elem_of_cons in H as [->|H]; [|done]. specialize (Hb _ Hx).
        simpl in Hb. lia.
Qed.

(** The rows of the weeks fix the weekly series. *)
Lemma counts_per_week_unique rows (s s' : series Z) :
  counts_per_week rows s -> counts_per_week rows s' -> s = s'.
Proof.
  intros [H1 Hs] [H2 Hs']. apply ascending_ext; [done|done|].
  intros [week count]. by rewrite Hs, Hs'.
Qed.

Lemma groupby_size_counts (keys : list Z) (rows : Z -> nat) :
  (forall k, occurrences k keys = rows k) ->
  counts_per_week rows (groupby_size keys).
Proof.
  intros Hrows. split; [apply groupby_ascending|].
  intros week count. rewrite groupby_size_elem_of, <- Hrows. split.
  - intros [Hin ->]. apply occurrences_pos in Hin. lia.
  - intros [Hpos ->]. split; [|done].
    destruct (decide (week ∈ keys)) as [|Hn]; [done|].
    apply occurrences_zero in Hn. lia.
Qed.

(** [data.groupby('week').size()] counts the rows of every week that has
    rows. *)
Lemma weekly_counts_per_week ts :
  counts_per_week (rows_of_week ts) (weekly_counts_of ts).
Proof.
  apply groupby_size_counts. intros k. unfold occurrences, week_column, rows_of_week.
  induction ts as [|t ts IH]; [done|].
  rewrite fmap_cons, !filter_cons.
  destruct (decide (to_period_W (date t) = k)); simpl; by rewrite IH.
Qed.

(** The weekly series of a label counts the rows of every week that carry
    the label. *)
Lemma activity_weekly_counts_per_week activities ts label :
  counts_per_week (labelled_rows_of_week activities ts label)
                  (activity_weekly_of (Texts activities) (week_column ts) label).
Proof.
  apply groupby_size_counts. intros k.
  unfold occurrences, week_column, labelled_rows_of_week, masked, eq_mask.
  induction activities as [|a activities IH] in ts |- *; [done|].
  destruct ts as [|t ts]; [done|].
  rewrite !fmap_cons. cbn [zip zip_with]. rewrite !filter_cons. cbn [fst snd].
  destruct (String.eqb_spec label a) as [->|Hne].
  - rewrite decide_True by done. rewrite fmap_cons, filter_cons. cbn [snd].
    destruct (decide (to_period_W (date t) = k)) as [Hk|Hk].
    + rewrite decide_True by done. cbn [length]. f_equal. apply IH.
    + rewrite decide_False by (by intros [_ ?]). apply IH.
  - rewrite decide_False by done.
    rewrite decide_False by (intros [? _]; congruence). apply IH.
Qed.

(* ===================================================================== *)
(** * Trends: the three-point gate and the least squares slope *)

(** The slope [_calculate_trend] gives two values or more is their least
    squares slope. *)
Lemma _calculate_trend_fitted values :
  (2 <= length values)%nat -> fitted_slope values (_calculate_trend values).
Proof.
  intros Hn. rewrite _calculate_trend_polyfit by done.
  exists (polyfit_slope values). split; [by apply polyfit_least_squares|].
  apply within_rounding_refl, magnitude_of_nonneg.
Qed.

(** C7.  In [_analyze_activity_trends] a weekly count series of fewer than
    three points gets no entry at all: neither 'overall_trend' nor
    'trend_direction' for the overall series (the rows of each week that has
    rows), no key in 'activity_specific_trends' for the series of a label
    (the rows of each week that carry the label).  A series of three points
    or more is reported with a slope, which is the slope of the line of
    least squares through the points [(i, count of the i-th week)] up to the
    rounding of the floats; 'trend_direction' goes by the sign of the slope
    reported. *)
Theorem trends_three_point_gate data trends data' :
  empty data = false ->
  _analyze_activity_trends data = Ok (trends, data') ->
  exists ts activities per_label overall,
    getitem "datetime" data = Ok (Timestamps ts)
    /\ getitem "predicted_activity" data = Ok (Texts activities)
    /\ counts_per_week (rows_of_week ts) overall
    /\ (if (3 <=? length overall)%nat
        then exists slope,
               trends !! "overall_trend" = Some (Slope slope)
               /\ fitted_slope (snd <$> overall) slope
               /\ trends !! "trend_direction"
                  = Some (Direction (trend_direction slope))
        else trends !! "overall_trend" = None
             /\ trends !! "trend_direction" = None)
    /\ trends !! "activity_specific_trends" = Some (ActivityTrends per_label)
    /\ forall label, exists weekly,
         counts_per_week (labelled_rows_of_week activities ts label) weekly
         /\ if (3 <=? length weekly)%nat
            then exists slope,
                   per_label !! label = Some slope
                   /\ fitted_slope (snd <$> weekly) slope
            else per_label !! label = None.
Proof.
  intros He Hrun.
  apply _analyze_activity_trends_Ok in Hrun
    as (ts & activities & Hts & Hact & -> & ->); [|done].
  eexists ts, activities, _, (weekly_counts_of ts).
  split; [done|]. split; [done|]. split; [apply weekly_counts_per_week|].
  split; [|split; [by simplify_map_eq|]].
  - rewrite !lookup_insert_ne by done. unfold overall_trends.
    destruct (Nat.leb_spec 3 (length (weekly_counts_of ts))) as [Hge|Hlt].
    + destruct (Nat.ltb_spec 2 (length (weekly_counts_of ts))); [|lia].
      exists (_calculate_trend (snd <$> weekly_counts_of ts)).
      split; [by rewrite lookup_insert_ne, lookup_insert_eq|].
      split; [apply _calculate_trend_fitted; rewrite length_fmap; lia|].
      by rewrite lookup_insert_eq.
    + by destruct (Nat.ltb_spec 2 (length (weekly_counts_of ts))); [lia|].
  - intros label.
    exists (activity_weekly_of (Texts activities) (week_column ts) label).
    split; [apply activity_weekly_counts_per_week|].
    rewrite activity_trends_lookup, lookup_empty.
    set (weekly := activity_weekly_of (Texts activities) (week_column ts) label).
    destruct (decide (label ∈ unique activities)) as [Hin|Hnin].
    + destruct (Nat.leb_spec 3 (length weekly)) as [Hge|Hlt].
      * destruct (Nat.ltb_spec 2 (length weekly)); [|lia].
        exists (_calculate_trend (snd <$> weekly)). split; [done|].
        apply _calculate_trend_fitted. rewrite length_fmap. lia.
      * by destruct (Nat.ltb_spec 2 (length weekly)); [lia|].
    + rewrite elem_of_unique in Hnin. unfold weekly, activity_weekly_of.
      by rewrite masked_no_label.
Qed.

(** On eight events in three weeks: the overall series 2, 3, 3 has three
    points and a slope; 'Work' is seen in all three weeks, 1, 2 and 3 times,
    and has a slope; 'Travel' is seen in two weeks only and has none. *)
Lemma trends_three_point_gate_witness :
  let data := Frame 8 [("datetime",
                        Timestamps [Datetime jan_1 9; Datetime jan_1 12;
                                    Datetime (jan_1 + 7) 8; Datetime (jan_1 + 8) 20;
                                    Datetime (jan_1 + 9) 7; Datetime (jan_1 + 14) 7;
                                    Datetime (jan_1 + 15) 9; Datetime (jan_1 + 16) 9]);
                       ("predicted_activity",
                        Texts ["Work"; "Travel"; "Work"; "Travel"; "Work";
                               "Work"; "Work"; "Work"])] in
  exists trends data' per_label slope work,
    _analyze_activity_trends data = Ok (trends, data')
    /\ trends !! "overall_trend" = Some (Slope slope)
    /\ fitted_slope [2; 3; 3] slope
    /\ trends !! "trend_direction" = Some (Direction (trend_direction slope))
    /\ trends !! "activity_specific_trends" = Some (ActivityTrends per_label)
    /\ per_label !! "Work" = Some work
    /\ fitted_slope [1; 2; 3] work
    /\ per_label !! "Travel" = None.
Proof.
  intros data.
  destruct (trends_three_point_gate data
              (result_of ∅ (_analyze_activity_trends data))
              (frame_after data (_analyze_activity_trends data)))
    as (ts & acts & per_label & overall & Hts & Hacts & Ho & Hoverall & Hper & Hl);
    [reflexivity | reflexivity |].
  injection Hts as <-. injection Hacts as <-.
  rewrite (counts_per_week_unique _ _ _ Ho (weekly_counts_per_week _)) in Hoverall.
  destruct Hoverall as (slope & Hslope & Hfit & Hdir).
  destruct (Hl "Work") as (weekly & Hw & Hwork).
  rewrite (counts_per_week_unique _ _ _ Hw (activity_weekly_counts_per_week _ _ _))
    in Hwork.
  destruct Hwork as (work & Hwork & Hfitw).
  destruct (Hl "Travel") as (weekly' & Hw' & Htravel).
  rewrite (counts_per_week_unique _ _ _ Hw' (activity_weekly_counts_per_week _ _ _))
    in Htravel.
  exists (result_of ∅ (_analyze_activity_trends data)),
         (frame_after data (_analyze_activity_trends data)), per_label, slope, work.
  split; [reflexivity|]. split; [exact Hslope|]. split; [exact Hfit|].
  split; [exact Hdir|]. split; [exact Hper|]. split; [exact Hwork|].
  split; [exact Hfitw | exact Htravel].
Defined.
